(** * ArtihcusScanner: QR attendance scanner

    A shallow embedding of the scan classifier, the attendance writer
    (src/services/supabase.js), the daily report fold
    (src/services/attendanceReports.js) and the QR signature and freshness
    checks (utils/signatureVerification), with the properties the
    specification states about them. *)

From Stdlib Require Import ZArith QArith Qround Qabs Bool List String Ascii Lia Lqa.
From Stdlib Require Import Permutation Sorted SpecFloat.
Import ListNotations.
Open Scope string_scope.
Open Scope Z_scope.

(* ===================================================================== *)
(** * JavaScript values the code relies on *)
(* ===================================================================== *)

Module Js.

(** [Array.prototype.includes] on an array of strings: strict equality. *)
Definition includes (l : list string) (x : string) : bool :=
  existsb (String.eqb x) l.

(** [Array.prototype.find]: the first element satisfying the predicate,
    [undefined] (here [None]) when there is none. *)
Definition find {A} (p : A -> bool) (l : list A) : option A := List.find p l.

(** [s.replace(c, d)] with a one-character string pattern: only the first
    occurrence is replaced. *)
Fixpoint replace (c d : ascii) (s : string) : string :=
  match s with
  | EmptyString => EmptyString
  | String a r => if Ascii.eqb a c then String d r else String a (replace c d r)
  end.

(** [x || ''] on an optional string: an absent and an empty string are
    both falsy. *)
Definition or_empty (x : option string) : string :=
  match x with
  | Some s => s
  | None => ""
  end.

(** [x || null] on an optional string. *)
Definition or_null (x : option string) : option string :=
  match x with
  | Some "" => None
  | Some s => Some s
  | None => None
  end.

(** [x || dflt] on an optional string. *)
Definition or_default (x : option string) (dflt : string) : string :=
  match x with
  | Some "" => dflt
  | Some s => s
  | None => dflt
  end.

(** ** Numbers

    A Number is an IEEE 754 double (binary64): a signed zero, an
    infinity, NaN, or a sign, a mantissa and an exponent. The operations
    are those of the specification of floating-point numbers of the
    standard library, at 53 bits of precision, rounding to nearest with
    ties to even. *)

Definition prec : Z := 53.
Definition emax : Z := 1024.

Definition number : Type := spec_float.

(** The Number of an integer (a time value, a literal, a counter): the
    nearest double, the integer itself up to 2^53. *)
Definition ofZ (z : Z) : number := binary_normalize prec emax z 0 false.

Definition add (x y : number) : number := SFadd prec emax x y.
Definition sub (x y : number) : number := SFsub prec emax x y.
Definition div (x y : number) : number := SFdiv prec emax x y.

(** The real number m * 2^e. *)
Definition magnitude (m : positive) (e : Z) : Q :=
  match e with
  | Z0 => Zpos m # 1
  | Zpos k => Zpos (m * 2 ^ k) # 1
  | Zneg k => Zpos m # 2 ^ k
  end.

(** The real value of a finite Number (0 for the others). *)
Definition value (x : number) : Q :=
  match x with
  | S754_finite s m e => if s then (- magnitude m e)%Q else magnitude m e
  | _ => 0%Q
  end.

(** The Number a decimal literal n/d reads as: the quotient of the two
    integers rounded once, to the nearest double with ties to even. *)
Definition nearest (negative : bool) (n d : positive) : number :=
  let '(m, e, l) := SFdiv_core_binary prec emax (Zpos n) 0 (Zpos d) 0 in
  binary_round_aux prec emax negative m e l.

(** The integer n that [toFixed(2)] prints as n/100 for the absolute
    value m * 2^e: the one nearest to 100 times the value, the larger
    when two are as near. *)
Definition hundredths (m : positive) (e : Z) : Z :=
  Qfloor (magnitude m e * 100 + (1 # 2))%Q.

(** [parseFloat(x.toFixed(2))]. [toFixed] prints NaN and the infinities
    by name and a value from 10^21 on in full precision, and
    [parseFloat] reads these back as they were; otherwise it prints the
    sign of a negative value and the digits of the hundredths, which
    [parseFloat] reads as the nearest double (-0.00 reads as -0). *)
Definition toFixed2 (x : number) : number :=
  match x with
  | S754_zero _ => S754_zero false
  | S754_finite s m e =>
      if Qle_bool (inject_Z (10 ^ 21)) (magnitude m e) then x
      else match hundredths m e with
           | Zpos n => nearest s n 100
           | _ => S754_zero s
           end
  | _ => x
  end.

(** [Math.round]: the nearest integer, a tie going up; a value from
    -0.5 to below 0 gives -0. *)
Definition round (x : number) : number :=
  match x with
  | S754_finite s m e =>
      match Qfloor (value x + (1 # 2))%Q with
      | Z0 => S754_zero s
      | k => ofZ k
      end
  | _ => x
  end.

(** Truthiness of a Number: every value but the zeros and NaN. *)
Definition truthy (x : number) : bool :=
  match x with
  | S754_zero _ => false
  | S754_nan => false
  | _ => true
  end.

(** ** Dates

    A [Date] object is its time value: milliseconds since the epoch. *)

Definition msPerDay : Z := 86400000.
Definition msPerHour : Z := 3600000.
Definition msPerMinute : Z := 60000.

(** Civil date (year, month, day) of a day number counted from
    1970-01-01, in the proleptic Gregorian calendar. *)
Definition civil_from_days (z0 : Z) : Z * Z * Z :=
  let z := z0 + 719468 in
  let era := z / 146097 in
  let doe := z - era * 146097 in
  let yoe := (doe - doe / 1460 + doe / 36524 - doe / 146096) / 365 in
  let y := yoe + era * 400 in
  let doy := doe - (365 * yoe + yoe / 4 - yoe / 100) in
  let mp := (5 * doy + 2) / 153 in
  let d := doy - (153 * mp + 2) / 5 + 1 in
  let m := if mp <? 10 then mp + 3 else mp - 9 in
  (if m <=? 2 then y + 1 else y, m, d).

Definition digit (n : Z) : ascii :=
  ascii_of_nat (48 + Z.to_nat (n mod 10)).

(** The last [k] decimal digits of a natural number, zero padded. *)
Fixpoint digits (k : nat) (n : Z) (acc : string) : string :=
  match k with
  | O => acc
  | S k' => digits k' (n / 10) (String (digit n) acc)
  end.

Definition pad (k : nat) (n : Z) : string := digits k n "".

(** [d.toISOString().split('T')[0]]: the UTC calendar date as
    YYYY-MM-DD (years outside 0..9999 take a sign and six digits). *)
Definition toISODate (t : Z) : string :=
  let '(y, m, d) := civil_from_days (t / msPerDay) in
  let year :=
    if (0 <=? y) && (y <=? 9999) then pad 4 y
    else if y <? 0 then "-" ++ pad 6 (- y) else "+" ++ pad 6 y in
  year ++ "-" ++ pad 2 m ++ "-" ++ pad 2 d.

Section LocalTime.

(** The host's offset of local time from UTC at an instant, in
    milliseconds (implementation-defined in ECMAScript). *)
Variable LocalTZA : Z -> Z.

Definition LocalTime (t : Z) : Z := t + LocalTZA t.
Definition getHours (t : Z) : Z := (LocalTime t / msPerHour) mod 24.
Definition getMinutes (t : Z) : Z := (LocalTime t / msPerMinute) mod 60.

End LocalTime.

End Js.

(* ===================================================================== *)
(** * Data model *)
(* ===================================================================== *)

(** The QR payload, as the mobile app emits it. *)
Record QrData := {
  employeeId : string;
  firstName : string;
  lastName : string;
  role : string;
  department : option string;
  checkInTime : string;
  signature : string
}.

(** A row of [attendance_records]. [scanned_at] is the instant of the
    scan as a time value; [scanned_date] is set by the table's trigger. *)
Record AttendanceRecord := {
  employee_id : string;
  employee_name : string;
  employee_role : string;
  rec_department : option string;
  check_in_time : string;
  scanned_at : Z;
  scanned_date : string;
  scan_type : string;
  is_late : bool;
  is_early_departure : bool;
  is_half_day : bool;
  signature_verified : bool;
  qr_data : QrData
}.

(** A row of [leave_requests]. *)
Record LeaveRequest := {
  leave_employee_id : string;
  leave_date : string;
  leave_type : string;
  reason : string;
  status : string
}.

(** The backend behind the client handle: its two tables. *)
Record Backend := {
  attendance_records : list AttendanceRecord;
  leave_requests : list LeaveRequest
}.

(** ** Queries of the backend client *)

Module Query.

(** [.single()]: the row when the query has exactly one, otherwise no
    data (the client reports an error, which the callers ignore). *)
Definition single {A} (rows : list A) : option A :=
  match rows with
  | [r] => Some r
  | _ => None
  end.

(** Insertion into rows ordered by [scanned_at], before the first row
    that is not earlier. *)
Fixpoint insert_by_scanned_at (r : AttendanceRecord) (l : list AttendanceRecord)
  : list AttendanceRecord :=
  match l with
  | [] => [r]
  | x :: l' =>
      if scanned_at r <=? scanned_at x then r :: x :: l'
      else x :: insert_by_scanned_at r l'
  end.

(** [.order('scanned_at', { ascending: true })]. *)
Definition order_by_scanned_at (l : list AttendanceRecord) : list AttendanceRecord :=
  fold_right insert_by_scanned_at [] l.

(** [.eq('employee_id', e).eq('scanned_date', d)] on attendance records,
    in table order. *)
Definition scans_on (db : Backend) (e d : string) : list AttendanceRecord :=
  filter (fun r => String.eqb (employee_id r) e && String.eqb (scanned_date r) d)
         (attendance_records db).

(** [.eq('employee_id', e).eq('scanned_date', d).eq('scan_type', ty)]. *)
Definition scans_of_type (db : Backend) (e d ty : string) : list AttendanceRecord :=
  filter (fun r => String.eqb (employee_id r) e && String.eqb (scanned_date r) d
                   && String.eqb (scan_type r) ty)
         (attendance_records db).

(** [.eq('employee_id', e).eq('leave_date', d).eq('status', 'approved')]. *)
Definition approved_leave (db : Backend) (e d : string) : list LeaveRequest :=
  filter (fun l => String.eqb (leave_employee_id l) e && String.eqb (leave_date l) d
                   && String.eqb (status l) "approved")
         (leave_requests db).

(** The trigger [set_scanned_date] of the table: [DATE(scanned_at)],
    the date of the instant in UTC. *)
Definition set_scanned_date (r : AttendanceRecord) : AttendanceRecord :=
  {| employee_id := employee_id r;
     employee_name := employee_name r;
     employee_role := employee_role r;
     rec_department := rec_department r;
     check_in_time := check_in_time r;
     scanned_at := scanned_at r;
     scanned_date := Js.toISODate (scanned_at r);
     scan_type := scan_type r;
     is_late := is_late r;
     is_early_departure := is_early_departure r;
     is_half_day := is_half_day r;
     signature_verified := signature_verified r;
     qr_data := qr_data r |}.

(** The constraint [check_scan_type] of the table. *)
Definition check_scan_type (r : AttendanceRecord) : bool :=
  Js.includes ["check_in"; "lunch_out"; "lunch_in"; "check_out"] (scan_type r).

Section Constraints.

(** What the backend objects to a row beyond the table's constraint on
    [scan_type] (the foreign key of employee_id on employees, the types
    of the columns, row-level security): its message. *)
Variable refuses : AttendanceRecord -> option string.

(** [.insert(row).select().single()]: the stored row and the new
    backend, or the backend's error message (its quotation marks left
    out). The advanced migration drops the unique index on (employee,
    date) and adds a plain index on (employee, date, scan type): the
    table refuses no duplicate. *)
Definition insert (db : Backend) (row : AttendanceRecord)
  : string + AttendanceRecord * Backend :=
  let r := set_scanned_date row in
  if negb (check_scan_type r) then
    inl "new row for relation attendance_records violates check constraint check_scan_type"
  else
    match refuses r with
    | Some message => inl message
    | None => inr (r, {| attendance_records := attendance_records db ++ [r];
                         leave_requests := leave_requests db |})
    end.

End Constraints.

End Query.

(* ===================================================================== *)
(** * Scan classifier and attendance writer (services/supabase.js) *)
(* ===================================================================== *)

Module Supabase.

Record Detection := {
  scanType : string;
  isLate : bool;
  isEarly : bool
}.

Definition LUNCH_START : Z := 12 * 60.
Definition LUNCH_END : Z := 14 * 60.
Definition EXPECTED_CHECK_IN : Z := 9 * 60.
Definition EXPECTED_CHECK_OUT : Z := 18 * 60.
Definition LATE_THRESHOLD : Z := 15.

(** The guards of the decision chain (supabase.js, lines 56 to 66), in
    the order the code tests them. *)
Definition rule1 (scanTypes : list string) : bool :=
  negb (Js.includes scanTypes "check_in").
Definition rule2 (scanTypes : list string) (currentTime : Z) : bool :=
  negb (Js.includes scanTypes "lunch_out") && (LUNCH_START <=? currentTime).
Definition rule3 (scanTypes : list string) : bool :=
  Js.includes scanTypes "lunch_out" && negb (Js.includes scanTypes "lunch_in").
Definition rule4 (scanTypes : list string) : bool :=
  Js.includes scanTypes "lunch_in" && negb (Js.includes scanTypes "check_out").

(** The decision chain of [detectScanType] (lines 51 to 77) on the scan
    types recorded today and the minutes since local midnight. *)
Definition classify (scanTypes : list string) (currentTime : Z) : Detection :=
  if rule1 scanTypes then
    {| scanType := "check_in";
       isLate := EXPECTED_CHECK_IN + LATE_THRESHOLD <? currentTime;
       isEarly := false |}
  else if rule2 scanTypes currentTime then
    {| scanType := "lunch_out"; isLate := false; isEarly := false |}
  else if rule3 scanTypes then
    {| scanType := "lunch_in"; isLate := false; isEarly := false |}
  else if rule4 scanTypes then
    {| scanType := "check_out";
       isLate := false;
       isEarly := currentTime <? EXPECTED_CHECK_OUT |}
  else
    {| scanType := "check_out"; isLate := false; isEarly := false |}.

(** The result object of [markAttendance]. *)
Record MarkResult := {
  success : bool;
  data : option AttendanceRecord;
  error : option string;
  result_scanType : option string
}.

Definition failure (msg : string) : MarkResult :=
  {| success := false; data := None; error := Some msg; result_scanType := None |}.

Section Scanner.

Variable LocalTZA : Z -> Z.
(** What the backend objects to a row of [attendance_records]. *)
Variable refuses : AttendanceRecord -> option string.

(** Minutes from local midnight of the scan. *)
Definition minutesOfDay (scanTime : Z) : Z :=
  Js.getHours LocalTZA scanTime * 60 + Js.getMinutes LocalTZA scanTime.

(** The scan types today's query returns for the employee (lines 29 to
    39). *)
Definition todayScanTypes (db : Backend) (employeeId : string) (scanTime : Z)
  : list string :=
  let today := Js.toISODate scanTime in
  let todayScans := Query.order_by_scanned_at (Query.scans_on db employeeId today) in
  map scan_type todayScans.

Definition detectScanType (supabase : option Backend) (employeeId : string)
                          (scanTime : Z) : Detection :=
  match supabase with
  | None => {| scanType := "check_in"; isLate := false; isEarly := false |}
  | Some db =>
      let scanTypes := todayScanTypes db employeeId scanTime in
      let currentTime := minutesOfDay scanTime in
      classify scanTypes currentTime
  end.

(** [markAttendance] (lines 85 to 176): the result and the backend
    afterwards. [scanTime] is the [new Date()] the function takes. The
    inserted object carries no [scanned_date]: the table's trigger fills
    the column. *)
Definition markAttendance (supabase : option Backend) (attendanceData : QrData)
                          (scanTime : Z) : MarkResult * option Backend :=
  match supabase with
  | None =>
      (failure "Supabase is not configured. Please set environment variables.",
       supabase)
  | Some db =>
      let today := Js.toISODate scanTime in
      let leaveRequest :=
        Query.single (Query.approved_leave db (employeeId attendanceData) today) in
      match leaveRequest with
      | Some lr =>
          (failure ("You are on "
                    ++ (if String.eqb (leave_type lr) "full_day"
                        then "full day" else "half day")
                    ++ " leave today"),
           supabase)
      | None =>
          let d := detectScanType supabase (employeeId attendanceData) scanTime in
          let existingScan :=
            Query.single (Query.scans_of_type db (employeeId attendanceData)
                                              today (scanType d)) in
          match existingScan with
          | Some _ =>
              (failure (Js.replace "_" " " (scanType d)
                        ++ " already recorded for today"),
               supabase)
          | None =>
              let isHalfDay :=
                String.eqb (scanType d) "check_in"
                && (Js.getHours LocalTZA scanTime <? 12) in
              match Query.insert refuses db
                      {| employee_id := employeeId attendanceData;
                         employee_name := firstName attendanceData ++ " "
                                          ++ lastName attendanceData;
                         employee_role := role attendanceData;
                         rec_department := Js.or_null (department attendanceData);
                         check_in_time := checkInTime attendanceData;
                         scanned_at := scanTime;
                         scanned_date := "";
                         scan_type := scanType d;
                         is_late := isLate d;
                         is_early_departure := isEarly d;
                         is_half_day := isHalfDay;
                         signature_verified := true;
                         qr_data := attendanceData |} with
              | inl message =>
                  (failure (Js.or_default (Some message) "Failed to mark attendance"),
                   supabase)
              | inr (row, db') =>
                  ({| success := true; data := Some row; error := None;
                      result_scanType := Some (scanType d) |},
                   Some db')
              end
          end
      end
  end.

End Scanner.

End Supabase.

(* ===================================================================== *)
(** * Daily report (services/attendanceReports.js) *)
(* ===================================================================== *)

Module Reports.

Record DailySummary := {
  date : string;
  checkIn : option AttendanceRecord;
  lunchOut : option AttendanceRecord;
  lunchIn : option AttendanceRecord;
  checkOut : option AttendanceRecord;
  totalHours : option Js.number;
  lunchDuration : option Js.number;
  isComplete : bool;
  isHalfDay : bool;
  isLate : bool;
  isEarlyDeparture : bool;
  leave : option LeaveRequest
}.

Record SummaryResult := {
  success : bool;
  data : option DailySummary;
  error : option string
}.

(** [(b - a) / (1000 * 60)] on the Dates of two instants: the minutes
    between them. The Dates are subtracted as Numbers, their time
    values. *)
Definition minutesBetween (a b : Z) : Js.number :=
  Js.div (Js.sub (Js.ofZ b) (Js.ofZ a)) (Js.ofZ (1000 * 60)).

(** The block "Calculate working hours" (attendanceReports.js, lines 34
    to 50): the values of [totalHours] and [lunchDuration] before they
    are formatted ([None] is [null]). *)
Definition workingHours (checkIn lunchOut lunchIn checkOut : option AttendanceRecord)
  : option Js.number * option Js.number :=
  match checkIn, checkOut with
  | Some ci, Some co =>
      let totalMinutes := minutesBetween (scanned_at ci) (scanned_at co) in
      match lunchOut, lunchIn with
      | Some lo, Some li =>
          let lunchDuration := minutesBetween (scanned_at lo) (scanned_at li) in
          (Some (Js.div (Js.sub totalMinutes lunchDuration) (Js.ofZ 60)),
           Some lunchDuration)
      | _, _ => (Some (Js.div totalMinutes (Js.ofZ 60)), None)
      end
  | _, _ => (None, None)
  end.

(** [x ? f(x) : null] on a number or [null]. *)
Definition ifTruthy {A} (x : option Js.number) (f : Js.number -> A) : option A :=
  match x with
  | Some v => if Js.truthy v then Some (f v) else None
  | None => None
  end.

(** [r?.flag || false]. *)
Definition flagOf (r : option AttendanceRecord) (flag : AttendanceRecord -> bool) : bool :=
  match r with
  | Some x => flag x
  | None => false
  end.

Definition ofType (ty : string) (s : AttendanceRecord) : bool :=
  String.eqb (scan_type s) ty.

Definition getDailySummary (supabase : option Backend) (employeeId : string)
                           (date : Z) : SummaryResult :=
  match supabase with
  | None => {| success := false; data := None; error := Some "Supabase not configured" |}
  | Some db =>
      let dateStr := Js.toISODate date in
      let scans := Query.order_by_scanned_at (Query.scans_on db employeeId dateStr) in
      let checkIn := Js.find (ofType "check_in") scans in
      let lunchOut := Js.find (ofType "lunch_out") scans in
      let lunchIn := Js.find (ofType "lunch_in") scans in
      let checkOut := Js.find (ofType "check_out") scans in
      let '(totalHours, lunchDuration) := workingHours checkIn lunchOut lunchIn checkOut in
      let leave := Query.single (Query.approved_leave db employeeId dateStr) in
      {| success := true;
         data := Some
           {| date := dateStr;
              checkIn := checkIn;
              lunchOut := lunchOut;
              lunchIn := lunchIn;
              checkOut := checkOut;
              totalHours := ifTruthy totalHours Js.toFixed2;
              lunchDuration := ifTruthy lunchDuration Js.round;
              isComplete := match checkIn, checkOut with
                            | Some _, Some _ => true
                            | _, _ => false
                            end;
              isHalfDay := flagOf checkIn is_half_day;
              isLate := flagOf checkIn is_late;
              isEarlyDeparture := flagOf checkOut is_early_departure;
              leave := leave |};
         error := None |}
  end.

End Reports.

(* ===================================================================== *)
(** * Signature and freshness checks (utils/signatureVerification) *)
(* ===================================================================== *)

Module Signature.

Definition hexDigit (n : N) : ascii :=
  match n with
  | 0%N => "0" | 1%N => "1" | 2%N => "2" | 3%N => "3"
  | 4%N => "4" | 5%N => "5" | 6%N => "6" | 7%N => "7"
  | 8%N => "8" | 9%N => "9" | 10%N => "a" | 11%N => "b"
  | 12%N => "c" | 13%N => "d" | 14%N => "e" | _ => "f"
  end%char.

(** [wordArray.toString(CryptoJS.enc.Hex)]: two lowercase hex digits
    per byte, the high nibble first. *)
Fixpoint Hex (bytes : list Byte.byte) : string :=
  match bytes with
  | [] => EmptyString
  | b :: r =>
      let n := Byte.to_N b in
      String (hexDigit (N.shiftr n 4)) (String (hexDigit (N.land n 15)) (Hex r))
  end.

Section Verifier.

(** [CryptoJS.HmacSHA256(message, key)], the bytes of the digest. *)
Variable HmacSHA256 : string -> string -> list Byte.byte.
(** [import.meta.env.VITE_QR_SECRET_KEY]. *)
Variable VITE_QR_SECRET_KEY : option string.
(** [new Date(s)] on a string: the time value, [None] for an invalid
    date (NaN). *)
Variable parseDate : string -> option Z.

Definition SECRET_KEY : string :=
  Js.or_default VITE_QR_SECRET_KEY "artihcus_attendance_secret_2025".

Definition dataToSign (qrData : QrData) : string :=
  employeeId qrData ++ "|" ++ firstName qrData ++ "|" ++ lastName qrData ++ "|"
  ++ role qrData ++ "|" ++ Js.or_empty (department qrData) ++ "|"
  ++ checkInTime qrData.

Definition verifyQrSignature (qrData : QrData) : bool :=
  let hmac := HmacSHA256 (dataToSign qrData) SECRET_KEY in
  let expectedSignature := Hex hmac in
  String.eqb expectedSignature (signature qrData).

(** [now] is the [new Date()] the function takes. An invalid date makes
    the age NaN, and both comparisons false. *)
Definition isTimestampFresh (now : Z) (checkInTime : string) : bool :=
  match parseDate checkInTime with
  | None => false
  | Some qrTime =>
      let ageInSeconds := (inject_Z (now - qrTime) / 1000)%Q in
      Qle_bool 0 ageInSeconds && Qle_bool ageInSeconds 60
  end.

End Verifier.

End Signature.

(* ===================================================================== *)
(** * Sample data *)
(* ===================================================================== *)

Module Sample.

(** A host on UTC. *)
Definition utc : Z -> Z := fun _ => 0.

(** A backend that accepts every row. *)
Definition accepts : AttendanceRecord -> option string := fun _ => None.

(** A backend whose table of employees holds e-17 alone: the rows of
    the others violate the foreign key of employee_id. *)
Definition employees_only : AttendanceRecord -> option string :=
  fun r =>
    if String.eqb (employee_id r) "e-17" then None
    else Some "row violates foreign key constraint attendance_records_employee_id_fkey".

(** The instant hh:mm:00.000 UTC on 2025-01-01. *)
Definition at_ (hh mm : Z) : Z := 1735689600000 + hh * Js.msPerHour + mm * Js.msPerMinute.

Definition asha : QrData :=
  {| employeeId := "e-17";
     firstName := "Asha";
     lastName := "Rao";
     role := "engineer";
     department := Some "platform";
     checkInTime := "2025-01-01T09:00:00.000Z";
     signature := "00ff" |}.

(** A stored scan of [asha] of the given type at the given instant. *)
Definition scan (ty : string) (t : Z) : AttendanceRecord :=
  {| employee_id := "e-17";
     employee_name := "Asha Rao";
     employee_role := "engineer";
     rec_department := Some "platform";
     check_in_time := "2025-01-01T09:00:00.000Z";
     scanned_at := t;
     scanned_date := Js.toISODate t;
     scan_type := ty;
     is_late := false;
     is_early_departure := false;
     is_half_day := false;
     signature_verified := true;
     qr_data := asha |}.

Definition onLeave (ty : string) : LeaveRequest :=
  {| leave_employee_id := "e-17";
     leave_date := "2025-01-01";
     leave_type := ty;
     reason := "";
     status := "approved" |}.

Definition backend (scans : list AttendanceRecord) (leaves : list LeaveRequest) : Backend :=
  {| attendance_records := scans; leave_requests := leaves |}.

Definition fullDay : Backend :=
  backend [scan "check_in" (at_ 9 0); scan "lunch_out" (at_ 12 0);
           scan "lunch_in" (at_ 13 0); scan "check_out" (at_ 18 0)] [].

End Sample.

(* ===================================================================== *)
(** * Notions the statements use *)
(* ===================================================================== *)

Import Supabase.

(** The unique constraint of [leave_requests]: (employee_id, leave_date). *)
Definition leave_key (l : LeaveRequest) : string * string :=
  (leave_employee_id l, leave_date l).

Definition leave_unique (db : Backend) : Prop :=
  NoDup (map leave_key (leave_requests db)).

(** The data model's invariant on [attendance_records]: at most one
    record for an employee, a date and a scan type. *)
Definition scan_key (r : AttendanceRecord) : string * string * string :=
  (employee_id r, scanned_date r, scan_type r).

Definition attendance_unique (db : Backend) : Prop :=
  NoDup (map scan_key (attendance_records db)).

(** The message of the leave gate. *)
Definition leaveMessage (lr : LeaveRequest) : string :=
  "You are on "
  ++ (if String.eqb (leave_type lr) "full_day" then "full day" else "half day")
  ++ " leave today".

(** The message of the duplicate gate. *)
Definition duplicateMessage (scanType : string) : string :=
  Js.replace "_" " " scanType ++ " already recorded for today".

(** The message of a refused insert: the backend's, or the default when
    the backend's is empty. *)
Definition refusalMessage (message : string) : string :=
  match message with
  | "" => "Failed to mark attendance"
  | _ => message
  end.

(** The row [markAttendance] stores for a payload, a scan time and a
    detection. *)
Definition storedRow (tz : Z -> Z) (p : QrData) (t : Z) (d : Detection)
  : AttendanceRecord :=
  {| employee_id := employeeId p;
     employee_name := firstName p ++ " " ++ lastName p;
     employee_role := role p;
     rec_department := Js.or_null (department p);
     check_in_time := checkInTime p;
     scanned_at := t;
     scanned_date := Js.toISODate t;
     scan_type := scanType d;
     is_late := isLate d;
     is_early_departure := isEarly d;
     is_half_day := String.eqb (scanType d) "check_in" && (Js.getHours tz t <? 12);
     signature_verified := true;
     qr_data := p |}.

(** Minutes of lunch, when both lunch records were found. *)
Definition lunchMinutes (lunchOut lunchIn : option AttendanceRecord)
  : option Js.number :=
  match lunchOut, lunchIn with
  | Some lo, Some li => Some (Reports.minutesBetween (scanned_at lo) (scanned_at li))
  | _, _ => None
  end.

(** (checkOut - checkIn - lunchDuration) / 60 in minutes, lunch counted
    only when both lunch records were found, each operation on
    Numbers. *)
Definition workedHours (ci : AttendanceRecord) (lunchOut lunchIn : option AttendanceRecord)
                       (co : AttendanceRecord) : Js.number :=
  let totalMinutes := Reports.minutesBetween (scanned_at ci) (scanned_at co) in
  match lunchMinutes lunchOut lunchIn with
  | Some lunch => Js.div (Js.sub totalMinutes lunch) (Js.ofZ 60)
  | None => Js.div totalMinutes (Js.ofZ 60)
  end.

(** A Number that stands for no quantity: a zero or NaN. *)
Definition isZeroOrNaN (x : Js.number) : bool :=
  match x with
  | S754_zero _ => true
  | S754_nan => true
  | _ => false
  end.

(** The canonical string of a payload in the specification's words: the
    six fields joined by the pipe character, an absent department as the
    empty string. *)
Definition canonical (qr : QrData) : string :=
  String.concat "|"
    [employeeId qr; firstName qr; lastName qr; role qr;
     match department qr with Some d => d | None => "" end;
     checkInTime qr].

(** Uppercase hexadecimal letters. *)
Definition isUpperHex (c : ascii) : bool :=
  let n := nat_of_ascii c in (65 <=? n)%nat && (n <=? 70)%nat.

Fixpoint hasUpperHex (s : string) : bool :=
  match s with
  | EmptyString => false
  | String c r => isUpperHex c || hasUpperHex r
  end.

(** ** Sequences of scans and invariants of the attendance table *)

(** Scans handled one after the other, each on the backend the previous
    one left: the results in order, and the backend at the end. *)
Fixpoint markAll (tz : Z -> Z) (rf : AttendanceRecord -> option string)
                 (supabase : option Backend) (scans : list (QrData * Z))
  : list MarkResult * option Backend :=
  match scans with
  | [] => ([], supabase)
  | (p, t) :: rest =>
      let '(r, s1) := markAttendance tz rf supabase p t in
      let '(rs, s2) := markAll tz rf s1 rest in
      (r :: rs, s2)
  end.

(** Every stored row satisfies the table's constraint on [scan_type]. *)
Definition types_valid (db : Backend) : Prop :=
  Forall (fun r => Query.check_scan_type r = true) (attendance_records db).

(** Every recorded day of an employee has a check-in, and a lunch_in
    only beside a lunch_out. *)
Definition day_ordered (db : Backend) : Prop :=
  forall r, In r (attendance_records db) ->
    let types := map scan_type (Query.scans_on db (employee_id r) (scanned_date r)) in
    In "check_in" types /\ (scan_type r = "lunch_in" -> In "lunch_out" types).

(** The backend with further attendance rows at the end of the table. *)
Definition withRows (db : Backend) (rows : list AttendanceRecord) : Backend :=
  {| attendance_records := attendance_records db ++ rows;
     leave_requests := leave_requests db |}.

(** The rows are of the employee and the date. *)
Definition rowsOf (e day : string) (rows : list AttendanceRecord) : Prop :=
  Forall (fun r => employee_id r = e /\ scanned_date r = day) rows.

(** A second employee for the examples. *)
Definition ravi : QrData :=
  {| employeeId := "e-18";
     firstName := "Ravi";
     lastName := "Iyer";
     role := "analyst";
     department := None;
     checkInTime := "2025-01-01T09:05:00.000Z";
     signature := "a1b2" |}.

(* ===================================================================== *)
(** * Record listings (services/supabase.js, lines 183 to 260) *)
(* ===================================================================== *)

Module Listing.

(** Insertion into rows ordered newest first, before the first row that
    is not newer. *)
Fixpoint insert_newest_first (r : AttendanceRecord) (l : list AttendanceRecord)
  : list AttendanceRecord :=
  match l with
  | [] => [r]
  | x :: l' =>
      if scanned_at x <=? scanned_at r then r :: x :: l'
      else x :: insert_newest_first r l'
  end.

(** [.order('scanned_at', { ascending: false })]. *)
Definition newest_first (l : list AttendanceRecord) : list AttendanceRecord :=
  fold_right insert_newest_first [] l.

(** The result object of the listings. *)
Record ListResult := {
  success : bool;
  data : option (list AttendanceRecord);
  error : option string
}.

(** [getAttendanceRecords(limit = 100)]: [None] is a call without the
    argument. *)
Definition getAttendanceRecords (supabase : option Backend) (limit : option nat)
  : ListResult :=
  let limit := match limit with Some n => n | None => 100%nat end in
  match supabase with
  | None =>
      {| success := false; data := None;
         error := Some "Supabase is not configured. Please set environment variables." |}
  | Some db =>
      let data := firstn limit (newest_first (attendance_records db)) in
      {| success := true; data := Some data; error := None |}
  end.

(** [getEmployeeAttendance(employeeId, limit = 50)]. *)
Definition getEmployeeAttendance (supabase : option Backend) (employeeId : string)
                                 (limit : option nat) : ListResult :=
  let limit := match limit with Some n => n | None => 50%nat end in
  match supabase with
  | None =>
      {| success := false; data := None;
         error := Some "Supabase is not configured. Please set environment variables." |}
  | Some db =>
      let data :=
        firstn limit
          (newest_first
             (filter (fun r => String.eqb (employee_id r) employeeId)
                     (attendance_records db))) in
      {| success := true; data := Some data; error := None |}
  end.

End Listing.

(** [a] was scanned no earlier than [b]. *)
Definition not_older (a b : AttendanceRecord) : Prop := scanned_at b <= scanned_at a.

(* ===================================================================== *)
(** * Admin day view (services/attendanceReports.js, lines 204 to 279) *)
(* ===================================================================== *)

Module Admin.

(** A value of [employeeMap]: the employee and the scans pushed so far. *)
Record Group := {
  employeeId : string;
  employeeName : string;
  department : option string;
  role : string;
  scans : list AttendanceRecord
}.

(** One step of [records.forEach]: the map is kept as its entries in
    insertion order; a new employee is entered at the end with the
    columns of the record at hand, and the record is pushed on the
    scans of its employee. *)
Fixpoint push (m : list Group) (record : AttendanceRecord) : list Group :=
  match m with
  | [] =>
      [{| employeeId := employee_id record;
          employeeName := employee_name record;
          department := rec_department record;
          role := employee_role record;
          scans := [record] |}]
  | g :: m' =>
      if String.eqb (employeeId g) (employee_id record)
      then {| employeeId := employeeId g;
              employeeName := employeeName g;
              department := department g;
              role := role g;
              scans := scans g ++ [record] |} :: m'
      else g :: push m' record
  end.

(** [Array.from(employeeMap.values())] after the loop. *)
Definition groupByEmployee (records : list AttendanceRecord) : list Group :=
  fold_left push records [].

(** An element of the returned array. *)
Record EmployeeDay := {
  group : Group;
  checkIn : option AttendanceRecord;
  lunchOut : option AttendanceRecord;
  lunchIn : option AttendanceRecord;
  checkOut : option AttendanceRecord;
  totalHours : option Js.number;
  isComplete : bool;
  isLate : bool;
  isEarlyDeparture : bool
}.

(** The callback of [.map] (lines 236 to 267). *)
Definition summarize (emp : Group) : EmployeeDay :=
  let checkIn := Js.find (Reports.ofType "check_in") (scans emp) in
  let lunchOut := Js.find (Reports.ofType "lunch_out") (scans emp) in
  let lunchIn := Js.find (Reports.ofType "lunch_in") (scans emp) in
  let checkOut := Js.find (Reports.ofType "check_out") (scans emp) in
  let totalHours :=
    match checkIn, checkOut with
    | Some ci, Some co =>
        let totalMinutes := Reports.minutesBetween (scanned_at ci) (scanned_at co) in
        match lunchOut, lunchIn with
        | Some lo, Some li =>
            let lunchDuration := Reports.minutesBetween (scanned_at lo) (scanned_at li) in
            Some (Js.div (Js.sub totalMinutes lunchDuration) (Js.ofZ 60))
        | _, _ => Some (Js.div totalMinutes (Js.ofZ 60))
        end
    | _, _ => None
    end in
  {| group := emp;
     checkIn := checkIn;
     lunchOut := lunchOut;
     lunchIn := lunchIn;
     checkOut := checkOut;
     totalHours := Reports.ifTruthy totalHours Js.toFixed2;
     isComplete := match checkIn, checkOut with
                   | Some _, Some _ => true
                   | _, _ => false
                   end;
     isLate := Reports.flagOf checkIn is_late;
     isEarlyDeparture := Reports.flagOf checkOut is_early_departure |}.

Record AdminResult := {
  success : bool;
  data : option (list EmployeeDay);
  error : option string
}.

(** [.eq('scanned_date', dateStr).order('scanned_at', { ascending: true })]. *)
Definition recordsOn (db : Backend) (dateStr : string) : list AttendanceRecord :=
  Query.order_by_scanned_at
    (filter (fun r => String.eqb (scanned_date r) dateStr) (attendance_records db)).

Definition getAllEmployeesAttendance (supabase : option Backend) (date : Z) : AdminResult :=
  match supabase with
  | None => {| success := false; data := None; error := Some "Supabase not configured" |}
  | Some db =>
      let dateStr := Js.toISODate date in
      let records := recordsOn db dateStr in
      let employees := map summarize (groupByEmployee records) in
      {| success := true; data := Some employees; error := None |}
  end.

End Admin.

(** Rows in ascending order of [scanned_at]. *)
Definition not_newer (a b : AttendanceRecord) : Prop := scanned_at a <= scanned_at b.

(** The invariant of the grouping loop on the records handled so far:
    one entry per employee met, holding that employee's records in the
    order met, and headed by the columns of the first of them. *)
Definition grouped (seen : list AttendanceRecord) (m : list Admin.Group) : Prop :=
  NoDup (map Admin.employeeId m)
  /\ (forall g, In g m ->
        Admin.scans g
        = filter (fun r => String.eqb (employee_id r) (Admin.employeeId g)) seen
        /\ exists first rest,
             Admin.scans g = first :: rest
             /\ Admin.employeeName g = employee_name first
             /\ Admin.department g = rec_department first
             /\ Admin.role g = employee_role first)
  /\ (forall r, In r seen -> In (employee_id r) (map Admin.employeeId m)).

(* ===================================================================== *)
(** * Scan handler (components/QRScanner.jsx, lines 162 to 233) *)
(* ===================================================================== *)

Module Scanner.

(** The members of a decoded payload object: each a string, or absent.
    (Payload members of other JSON types are outside this model.) *)
Record Members := {
  m_employeeId : option string;
  m_firstName : option string;
  m_lastName : option string;
  m_role : option string;
  m_department : option string;
  m_checkInTime : option string;
  m_signature : option string
}.

(** What [JSON.parse] returns. *)
Inductive Json :=
| JNull
| JScalar   (* a boolean, a number or a string *)
| JArray
| JObject (members : Members).

(** Truthiness of a member: present and not the empty string. *)
Definition present (x : option string) : bool :=
  match x with
  | Some "" => false
  | Some _ => true
  | None => false
  end.

(** [validateQrDataStructure] (signatureVerification, lines 333 to 344),
    as the condition [!validateQrDataStructure(qrData)] reads it. Null
    is falsy, a scalar is no object, and an array has none of the
    members. *)
Definition validateQrDataStructure (qrData : Json) : bool :=
  match qrData with
  | JObject m =>
      present (m_employeeId m) && present (m_firstName m) && present (m_lastName m)
      && present (m_role m) && present (m_checkInTime m) && present (m_signature m)
  | _ => false
  end.

(** The members of a parsed value: a value that is no payload object
    has none of them. *)
Definition members (qrData : Json) : Members :=
  match qrData with
  | JObject m => m
  | _ => {| m_employeeId := None; m_firstName := None; m_lastName := None;
            m_role := None; m_department := None; m_checkInTime := None;
            m_signature := None |}
  end.

(** A member read in a template string: absent reads as undefined. *)
Definition read (x : option string) : string :=
  match x with
  | Some s => s
  | None => "undefined"
  end.

(** The payload the later steps destructure. *)
Definition payload (m : Members) : QrData :=
  {| employeeId := read (m_employeeId m);
     firstName := read (m_firstName m);
     lastName := read (m_lastName m);
     role := read (m_role m);
     department := m_department m;
     checkInTime := read (m_checkInTime m);
     signature := read (m_signature m) |}.

(** How the handler ends: [onScanSuccess] with the writer's result, or
    [onScanError] with the message of the error thrown. *)
Inductive Outcome :=
| Marked (result : Supabase.MarkResult)
| Failed (message : string).

Section Handler.

Variable LocalTZA : Z -> Z.
(** What the backend objects to a row of [attendance_records]. *)
Variable refuses : AttendanceRecord -> option string.
Variable HmacSHA256 : string -> string -> list Byte.byte.
Variable VITE_QR_SECRET_KEY : option string.
Variable parseDate : string -> option Z.
(** [JSON.parse]: [None] when it throws. *)
Variable JSON_parse : string -> option Json.

(** [handleScanSuccess]: the outcome and the backend afterwards. [now]
    is the clock read by the freshness check, [scanTime] the one read by
    [markAttendance]. *)
Definition handleScanSuccess (supabase : option Backend) (decodedText : string)
                             (now scanTime : Z) : Outcome * option Backend :=
  match JSON_parse decodedText with
  | None => (Failed "Invalid QR code format", supabase)
  | Some qrData =>
      if negb (validateQrDataStructure qrData) then
        (Failed "QR code missing required fields", supabase)
      else if negb (Signature.verifyQrSignature HmacSHA256 VITE_QR_SECRET_KEY
                      (payload (members qrData)))
      then (Failed "Invalid QR code signature. Code may be tampered with.", supabase)
      else if negb (Signature.isTimestampFresh parseDate now
                      (checkInTime (payload (members qrData))))
      then (Failed "QR code expired. Please generate a new one.", supabase)
      else
        let '(result, supabase') :=
          Supabase.markAttendance LocalTZA refuses supabase (payload (members qrData))
                                  scanTime in
        if Supabase.success result then (Marked result, supabase')
        else (Failed (Js.or_default (Supabase.error result) "Failed to mark attendance"),
              supabase')
  end.

(** QR texts handled one after the other, each with its two clock
    readings. *)
Fixpoint handleAll (supabase : option Backend) (scans : list (string * Z * Z))
  : list Outcome * option Backend :=
  match scans with
  | [] => ([], supabase)
  | (text, now, scanTime) :: rest =>
      let '(o, s1) := handleScanSuccess supabase text now scanTime in
      let '(os, s2) := handleAll s1 rest in
      (o :: os, s2)
  end.

(** Every stored row is flagged verified and carries a payload whose
    signature verifies. *)
Definition verified_rows (db : Backend) : Prop :=
  Forall (fun r => signature_verified r = true
                   /\ Signature.verifyQrSignature HmacSHA256 VITE_QR_SECRET_KEY (qr_data r)
                      = true)
         (attendance_records db).

End Handler.

End Scanner.

(** A scanner for the examples: every QR text decodes to the payload of
    Asha, stamped 09:00:00 UTC, and the digest is always 00ff. *)
Module SampleScanner.

Definition hmac : string -> string -> list Byte.byte :=
  fun _ _ => [Byte.x00; Byte.xff].

Definition parseDate : string -> option Z :=
  fun _ => Some (Sample.at_ 9 0).

Definition decode : string -> option Scanner.Json :=
  fun _ =>
    Some (Scanner.JObject
            {| Scanner.m_employeeId := Some "e-17";
               Scanner.m_firstName := Some "Asha";
               Scanner.m_lastName := Some "Rao";
               Scanner.m_role := Some "engineer";
               Scanner.m_department := Some "platform";
               Scanner.m_checkInTime := Some "2025-01-01T09:00:00.000Z";
               Scanner.m_signature := Some "00ff" |}).

End SampleScanner.

(* ===================================================================== *)
(** * Leave requests (services/leaveManagement.js) *)
(* ===================================================================== *)

Module Leave.

Record LeaveResult := {
  success : bool;
  data : option LeaveRequest;
  error : option string
}.

Definition failure (msg : string) : LeaveResult :=
  {| success := false; data := None; error := Some msg |}.

(** The values the table's constraints admit. *)
Definition leave_types : list string :=
  ["full_day"; "half_day_morning"; "half_day_afternoon"].
Definition statuses : list string := ["pending"; "approved"; "rejected"].

Definition admitted (row : LeaveRequest) : bool :=
  Js.includes leave_types (leave_type row) && Js.includes statuses (status row).

(** A request of the employee for the date is in the table. *)
Definition requested (db : Backend) (e d : string) : bool :=
  existsb (fun l => String.eqb (leave_employee_id l) e && String.eqb (leave_date l) d)
          (leave_requests db).

(** The row at a position of a list replaced. *)
Fixpoint set_nth {A} (n : nat) (x : A) (l : list A) : list A :=
  match l, n with
  | [], _ => []
  | _ :: l', O => x :: l'
  | a :: l', S n' => a :: set_nth n' x l'
  end.

Section Backend.

(** What the backend may object to a row beyond the table's own
    constraints (row-level security, foreign keys): its message. *)
Variable refuses : LeaveRequest -> option string.
(** The backend's messages for a violated check constraint, a violated
    unique constraint, and a [.single()] that found no row. *)
Variable checkMessage uniqueMessage noRowMessage : string.

(** [.insert(row).select().single()] on [leave_requests], with the
    table's checks and its UNIQUE(employee_id, leave_date). *)
Definition insert (db : Backend) (row : LeaveRequest) : string + LeaveRequest * Backend :=
  if negb (admitted row) then inl checkMessage
  else if requested db (leave_employee_id row) (leave_date row) then inl uniqueMessage
  else match refuses row with
       | Some message => inl message
       | None => inr (row, {| attendance_records := attendance_records db;
                              leave_requests := leave_requests db ++ [row] |})
       end.

(** [createLeaveRequest(employeeId, leaveDate, leaveType, reason = '')]
    (lines 11 to 40): [None] is a call without the reason. *)
Definition createLeaveRequest (supabase : option Backend) (employeeId : string)
                              (leaveDate : Z) (leaveType : string)
                              (reason : option string) : LeaveResult * option Backend :=
  match supabase with
  | None => (failure "Supabase not configured", supabase)
  | Some db =>
      let dateStr := Js.toISODate leaveDate in
      match insert db {| leave_employee_id := employeeId;
                         leave_date := dateStr;
                         leave_type := leaveType;
                         reason := match reason with Some r => r | None => "" end;
                         status := "pending" |} with
      | inl message =>
          (failure (Js.or_default (Some message) "Failed to create leave request"),
           supabase)
      | inr (row, db') =>
          ({| success := true; data := Some row; error := None |}, Some db')
      end
  end.

(** [.update({ status, ... }).eq('id', id).select().single()]. The id of
    a request is its position in the table (the backend generates the
    ids and this code deletes no request); the columns approved_by and
    approved_at are not part of the model. *)
Definition update (db : Backend) (id : nat) (newStatus : string)
  : string + LeaveRequest * Backend :=
  match nth_error (leave_requests db) id with
  | None => inl noRowMessage
  | Some old =>
      let row := {| leave_employee_id := leave_employee_id old;
                    leave_date := leave_date old;
                    leave_type := leave_type old;
                    reason := reason old;
                    status := newStatus |} in
      if negb (admitted row) then inl checkMessage
      else match refuses row with
           | Some message => inl message
           | None => inr (row, {| attendance_records := attendance_records db;
                                  leave_requests := set_nth id row (leave_requests db) |})
           end
  end.

(** [updateLeaveRequestStatus(leaveRequestId, status, approvedBy)]
    (lines 81 to 107). *)
Definition updateLeaveRequestStatus (supabase : option Backend) (leaveRequestId : nat)
                                    (status : string) (approvedBy : string)
  : LeaveResult * option Backend :=
  match supabase with
  | None => (failure "Supabase not configured", supabase)
  | Some db =>
      match update db leaveRequestId status with
      | inl message =>
          (failure (Js.or_default (Some message) "Failed to update leave request"),
           supabase)
      | inr (row, db') =>
          ({| success := true; data := Some row; error := None |}, Some db')
      end
  end.

End Backend.

End Leave.

(** The rows of a day scanned in the order check_in, lunch_out,
    lunch_in, check_out, by payload and scan time. *)
Definition fullDayRows (tz : Z -> Z) (p1 p2 p3 p4 : QrData) (t1 t2 t3 t4 : Z)
  : list AttendanceRecord :=
  [storedRow tz p1 t1 {| scanType := "check_in";
                         isLate := 9 * 60 + 15 <? minutesOfDay tz t1;
                         isEarly := false |};
   storedRow tz p2 t2 {| scanType := "lunch_out"; isLate := false; isEarly := false |};
   storedRow tz p3 t3 {| scanType := "lunch_in"; isLate := false; isEarly := false |};
   storedRow tz p4 t4 {| scanType := "check_out";
                         isLate := false;
                         isEarly := minutesOfDay tz t4 <? 18 * 60 |}].

(** The successful result of [markAttendance] for a stored row. *)
Definition stored (row : AttendanceRecord) : MarkResult :=
  {| success := true; data := Some row; error := None;
     result_scanType := Some (scan_type row) |}.

(** The record a daily summary holds for a scan type. *)
Definition recordOfType (s : Reports.DailySummary) (ty : string)
  : option AttendanceRecord :=
  if String.eqb ty "check_in" then Reports.checkIn s
  else if String.eqb ty "lunch_out" then Reports.lunchOut s
  else if String.eqb ty "lunch_in" then Reports.lunchIn s
  else if String.eqb ty "check_out" then Reports.checkOut s
  else None.

(* ===================================================================== *)
(** * Weekly report (services/attendanceReports.js, lines 92 to 136) *)
(* ===================================================================== *)

Module Weekly.

Record WeeklySummary := {
  weekStart : string;
  weekEnd : string;
  dailySummaries : list Reports.DailySummary;
  totalHours : Js.number;
  workingDays : nat;
  leaveDays : nat;
  averageHours : Js.number
}.

Record WeeklyResult := {
  success : bool;
  data : option WeeklySummary;
  error : option string
}.

(** The variables of the loop. *)
Record Totals := {
  summaries : list Reports.DailySummary;
  hours : Js.number;
  working : nat;
  leaves : nat
}.

(** [x] truthy for a number or [null]. *)
Definition worked (s : Reports.DailySummary) : bool :=
  match Reports.totalHours s with
  | Some h => Js.truthy h
  | None => false
  end.

Definition onLeave (s : Reports.DailySummary) : bool :=
  match Reports.leave s with
  | Some _ => true
  | None => false
  end.

(** The body of the loop for one day's summary (lines 106 to 115). *)
Definition count (acc : Totals) (summary : Reports.SummaryResult) : Totals :=
  match Reports.success summary, Reports.data summary with
  | true, Some s =>
      {| summaries := summaries acc ++ [s];
         hours := match Reports.totalHours s with
                  | Some h => if Js.truthy h then Js.add (hours acc) h else hours acc
                  | None => hours acc
                  end;
         working := if worked s then S (working acc) else working acc;
         leaves := if onLeave s then S (leaves acc) else leaves acc |}
  | _, _ => acc
  end.

Section Host.

(** The host's offset of local time from UTC at a UTC instant and at a
    local time, in milliseconds. *)
Variable LocalTZA : Z -> Z.
Variable LocalTZA_local : Z -> Z.

(** [d.setDate(d.getDate() + k)]: the local time moves by [k] days (a
    date past the end of the month carries into the next), and is read
    back as an instant. *)
Definition addDays (k : Z) (t : Z) : Z :=
  let local := t + LocalTZA t in
  let moved := local + k * Js.msPerDay in
  moved - LocalTZA_local moved.

(** The [for] loop, with a bound on its iterations: [None] when the
    bound is reached. *)
Fixpoint loop (fuel : nat) (db : Backend) (employeeId : string) (weekEnd d : Z)
              (acc : Totals) : option Totals :=
  match fuel with
  | O => None
  | S fuel' =>
      if d <=? weekEnd
      then loop fuel' db employeeId weekEnd (addDays 1 d)
                (count acc (Reports.getDailySummary (Some db) employeeId d))
      else Some acc
  end.

Definition getWeeklySummary (fuel : nat) (supabase : option Backend)
                            (employeeId : string) (weekStart : Z)
  : option WeeklyResult :=
  match supabase with
  | None => Some {| success := false; data := None;
                    error := Some "Supabase not configured" |}
  | Some db =>
      let weekEnd := addDays 6 weekStart in
      match loop fuel db employeeId weekEnd weekStart
                 {| summaries := []; hours := Js.ofZ 0; working := 0; leaves := 0 |} with
      | None => None
      | Some acc =>
          Some {| success := true;
                  data := Some
                    {| weekStart := Js.toISODate weekStart;
                       weekEnd := Js.toISODate weekEnd;
                       dailySummaries := summaries acc;
                       totalHours := Js.toFixed2 (hours acc);
                       workingDays := working acc;
                       leaveDays := leaves acc;
                       averageHours :=
                         if (0 <? working acc)%nat
                         then Js.toFixed2
                                (Js.div (hours acc) (Js.ofZ (Z.of_nat (working acc))))
                         else Js.ofZ 0 |};
                  error := None |}
      end
  end.

End Host.

(** The hours a list of daily summaries adds up to: the days with a
    total that is neither null nor zero, in order. *)
Definition sumHours (l : list Reports.DailySummary) : Js.number :=
  fold_left (fun a s => match Reports.totalHours s with
                        | Some h => if Js.truthy h then Js.add a h else a
                        | None => a
                        end) l (Js.ofZ 0).

End Weekly.

(** The counters of the loop agree with the summaries gathered. *)
Definition tallied (acc : Weekly.Totals) : Prop :=
  Weekly.hours acc = Weekly.sumHours (Weekly.summaries acc)
  /\ Weekly.working acc = List.length (filter Weekly.worked (Weekly.summaries acc))
  /\ Weekly.leaves acc = List.length (filter Weekly.onLeave (Weekly.summaries acc)).

(** A host for the examples: one hour ahead of UTC until 2025-03-30,
    01:00 UTC, two hours ahead from then on. *)
Module SampleHost.

Definition summer : Z := 1743296400000.

(** The offset at a UTC instant. *)
Definition offset (t : Z) : Z := if t <? summer then 3600000 else 7200000.

(** The offset at a local time. *)
Definition offset_local (l : Z) : Z := if l <? summer + 3600000 then 3600000 else 7200000.

End SampleHost.

(** The instants [d], [d] + 1 day, ..., [k] of them. *)
Definition daysFrom (d : Z) (k : nat) : list Z :=
  map (fun i => d + Z.of_nat i * Js.msPerDay) (seq 0 k).

(* ===================================================================== *)
(** * Properties of the scan classifier *)
(* ===================================================================== *)

Lemma includes_In (l : list string) (x : string) :
  Js.includes l x = true <-> In x l.
Proof.
  unfold Js.includes. rewrite existsb_exists. split.
  - intros [y [Hy Heq]]. apply String.eqb_eq in Heq. now subst.
  - intros H. exists x. split; [assumption | apply String.eqb_refl].
Qed.

Lemma includes_not_In (l : list string) (x : string) :
  Js.includes l x = false <-> ~ In x l.
Proof.
  rewrite <- includes_In. destruct (Js.includes l x); split; congruence.
Qed.

(** Rewrites the membership tests of the guards with the facts at hand. *)
Ltac guards :=
  unfold rule1, rule2, rule3, rule4 in *;
  repeat match goal with
         | H : In ?x ?l |- _ => apply includes_In in H
         | H : ~ In ?x ?l |- _ => apply includes_not_In in H
         end;
  repeat match goal with
         | H : Js.includes ?l ?x = _ |- _ => rewrite H in *
         end;
  simpl.

Lemma minutesOfDay_at tz t hh mm :
  Js.getHours tz t = hh -> Js.getMinutes tz t = mm ->
  minutesOfDay tz t = hh * 60 + mm.
Proof. unfold minutesOfDay. now intros -> ->. Qed.

(** Rule 1 alone decides when no check-in is recorded. *)
Lemma classify_rule1 scanTypes currentTime :
  ~ In "check_in" scanTypes ->
  classify scanTypes currentTime =
  {| scanType := "check_in";
     isLate := 9 * 60 + 15 <? currentTime;
     isEarly := false |}.
Proof. intros H. unfold classify. guards. reflexivity. Qed.

(** The values the chain can produce, by the guard that fires. *)
Lemma classify_cases scanTypes currentTime :
  (rule1 scanTypes = true /\
   classify scanTypes currentTime =
   {| scanType := "check_in"; isLate := 555 <? currentTime; isEarly := false |})
  \/ (rule1 scanTypes = false /\ rule2 scanTypes currentTime = true /\
      classify scanTypes currentTime =
      {| scanType := "lunch_out"; isLate := false; isEarly := false |})
  \/ (rule1 scanTypes = false /\ rule2 scanTypes currentTime = false /\
      rule3 scanTypes = true /\
      classify scanTypes currentTime =
      {| scanType := "lunch_in"; isLate := false; isEarly := false |})
  \/ (rule1 scanTypes = false /\ rule2 scanTypes currentTime = false /\
      rule3 scanTypes = false /\ rule4 scanTypes = true /\
      classify scanTypes currentTime =
      {| scanType := "check_out"; isLate := false; isEarly := currentTime <? 1080 |})
  \/ (rule1 scanTypes = false /\ rule2 scanTypes currentTime = false /\
      rule3 scanTypes = false /\ rule4 scanTypes = false /\
      classify scanTypes currentTime =
      {| scanType := "check_out"; isLate := false; isEarly := false |}).
Proof.
  unfold classify.
  destruct (rule1 scanTypes); [left; auto |].
  destruct (rule2 scanTypes currentTime); [right; left; auto |].
  destruct (rule3 scanTypes); [do 2 right; left; auto |].
  destruct (rule4 scanTypes); [do 3 right; left; auto | do 4 right; auto].
Qed.

(** C3: with no check-in among today's scan types (the empty set
    included), whatever else is recorded and whatever the scan time, the
    classifier answers check_in, never early, and late exactly when the
    minutes of the day exceed 9:15: not late at 09:15, late at 09:16. *)
Theorem C3_no_check_in_gives_check_in :
  forall (tz : Z -> Z) (db : Backend) (emp : string) (t : Z),
    ~ In "check_in" (todayScanTypes db emp t) ->
    let d := detectScanType tz (Some db) emp t in
    scanType d = "check_in"
    /\ isEarly d = false
    /\ (isLate d = true <-> 9 * 60 + 15 < minutesOfDay tz t)
    /\ (Js.getHours tz t = 9 -> Js.getMinutes tz t = 15 -> isLate d = false)
    /\ (Js.getHours tz t = 9 -> Js.getMinutes tz t = 16 -> isLate d = true).
Proof.
  intros tz db emp t Hno d. subst d. unfold detectScanType.
  rewrite (classify_rule1 _ _ Hno). cbn [scanType isLate isEarly].
  repeat split.
  - apply Z.ltb_lt.
  - apply Z.ltb_lt.
  - intros Hh Hm. now rewrite (minutesOfDay_at _ _ _ _ Hh Hm).
  - intros Hh Hm. now rewrite (minutesOfDay_at _ _ _ _ Hh Hm).
Qed.

(** With nothing on record the scan at 09:15 UTC is a check-in on
    time, the scan at 09:16 a late one. *)
Example first_scan_of_the_day :
  detectScanType Sample.utc (Some (Sample.backend [] [])) "e-17" (Sample.at_ 9 15)
  = {| scanType := "check_in"; isLate := false; isEarly := false |}
  /\ detectScanType Sample.utc (Some (Sample.backend [] [])) "e-17" (Sample.at_ 9 16)
     = {| scanType := "check_in"; isLate := true; isEarly := false |}.
Proof. vm_compute. split; reflexivity. Qed.

(** A scan at 09:16 UTC with only a stray lunch_out on record: a late
    check-in. *)
Lemma C3_witness :
  let db := Sample.backend [Sample.scan "lunch_out" (Sample.at_ 8 0)] [] in
  let d := detectScanType Sample.utc (Some db) "e-17" (Sample.at_ 9 16) in
  scanType d = "check_in"
  /\ isEarly d = false
  /\ (isLate d = true <-> 9 * 60 + 15 < minutesOfDay Sample.utc (Sample.at_ 9 16))
  /\ (Js.getHours Sample.utc (Sample.at_ 9 16) = 9 ->
      Js.getMinutes Sample.utc (Sample.at_ 9 16) = 15 -> isLate d = false)
  /\ (Js.getHours Sample.utc (Sample.at_ 9 16) = 9 ->
      Js.getMinutes Sample.utc (Sample.at_ 9 16) = 16 -> isLate d = true).
Proof.
  apply (C3_no_check_in_gives_check_in Sample.utc
           (Sample.backend [Sample.scan "lunch_out" (Sample.at_ 8 0)] []) "e-17"
           (Sample.at_ 9 16)).
  vm_compute. intros [H | []]. discriminate H.
Defined.

(** C4 as stated fails: with lunch_in alone on record (no check_out),
    rule 1 fires first and the scan at 17:00 is a check_in. *)
Lemma C4_counterexample :
  let db := Sample.backend [Sample.scan "lunch_in" (Sample.at_ 13 0)] [] in
  let scanTypes := todayScanTypes db "e-17" (Sample.at_ 17 0) in
  let d := detectScanType Sample.utc (Some db) "e-17" (Sample.at_ 17 0) in
  Js.includes scanTypes "lunch_in" = true
  /\ Js.includes scanTypes "check_out" = false
  /\ scanType d = "check_in"
  /\ String.eqb (scanType d) "check_out" = false.
Proof. vm_compute. repeat split. Qed.

(** With check_in and lunch_in on record but no lunch_out, rule 2 fires
    from noon on: the scan at 13:00 is a lunch_out. *)
Example C4_rule2_first :
  let db := Sample.backend [Sample.scan "check_in" (Sample.at_ 9 0);
                            Sample.scan "lunch_in" (Sample.at_ 12 30)] [] in
  scanType (detectScanType Sample.utc (Some db) "e-17" (Sample.at_ 13 0)) = "lunch_out".
Proof. vm_compute. reflexivity. Qed.

(** C4 (amended): when today's scan types contain check_in and lunch_in
    but not check_out, and contain lunch_out or the scan is before 12:00
    (so that none of rules 1 to 3 fires first), the classifier answers
    check_out, never late, and early exactly when the minutes of the day
    are below 18:00: early at 17:59, not early at 18:00 and 18:01. *)
Theorem C4_rule4_gives_check_out :
  forall (tz : Z -> Z) (db : Backend) (emp : string) (t : Z),
    In "check_in" (todayScanTypes db emp t) ->
    In "lunch_in" (todayScanTypes db emp t) ->
    ~ In "check_out" (todayScanTypes db emp t) ->
    In "lunch_out" (todayScanTypes db emp t) \/ minutesOfDay tz t < 12 * 60 ->
    let d := detectScanType tz (Some db) emp t in
    scanType d = "check_out"
    /\ isLate d = false
    /\ (isEarly d = true <-> minutesOfDay tz t < 18 * 60)
    /\ (Js.getHours tz t = 17 -> Js.getMinutes tz t = 59 -> isEarly d = true)
    /\ (Js.getHours tz t = 18 -> Js.getMinutes tz t = 0 -> isEarly d = false)
    /\ (Js.getHours tz t = 18 -> Js.getMinutes tz t = 1 -> isEarly d = false).
Proof.
  intros tz db emp t Hci Hli Hco Hgate d. subst d. unfold detectScanType.
  set (scanTypes := todayScanTypes db emp t) in *.
  set (currentTime := minutesOfDay tz t) in *.
  assert (Hc : classify scanTypes currentTime =
               {| scanType := "check_out"; isLate := false;
                  isEarly := currentTime <? 1080 |}).
  { apply includes_In in Hci, Hli. apply includes_not_In in Hco.
    assert (R2 : rule2 scanTypes currentTime = false).
    { unfold rule2. destruct Hgate as [Hlo | Hnoon].
      - apply includes_In in Hlo. now rewrite Hlo.
      - apply andb_false_iff. right. apply Z.leb_gt. exact Hnoon. }
    unfold classify. rewrite R2. unfold rule1, rule3, rule4.
    rewrite Hci, Hli, Hco, andb_false_r. reflexivity. }
  rewrite Hc. cbn [scanType isLate isEarly]. subst currentTime.
  repeat split.
  - apply Z.ltb_lt.
  - apply Z.ltb_lt.
  - intros Hh Hm. now rewrite (minutesOfDay_at _ _ _ _ Hh Hm).
  - intros Hh Hm. now rewrite (minutesOfDay_at _ _ _ _ Hh Hm).
  - intros Hh Hm. now rewrite (minutesOfDay_at _ _ _ _ Hh Hm).
Qed.

(** Check-in, lunch out and lunch in on record, a scan at 17:59 UTC: an
    early check-out. *)
Lemma C4_witness :
  let db := Sample.backend [Sample.scan "check_in" (Sample.at_ 9 0);
                            Sample.scan "lunch_out" (Sample.at_ 12 0);
                            Sample.scan "lunch_in" (Sample.at_ 13 0)] [] in
  let t := Sample.at_ 17 59 in
  let d := detectScanType Sample.utc (Some db) "e-17" t in
  scanType d = "check_out"
  /\ isLate d = false
  /\ (isEarly d = true <-> minutesOfDay Sample.utc t < 18 * 60)
  /\ (Js.getHours Sample.utc t = 17 -> Js.getMinutes Sample.utc t = 59 -> isEarly d = true)
  /\ (Js.getHours Sample.utc t = 18 -> Js.getMinutes Sample.utc t = 0 -> isEarly d = false)
  /\ (Js.getHours Sample.utc t = 18 -> Js.getMinutes Sample.utc t = 1 -> isEarly d = false).
Proof.
  apply (C4_rule4_gives_check_out Sample.utc
           (Sample.backend [Sample.scan "check_in" (Sample.at_ 9 0);
                            Sample.scan "lunch_out" (Sample.at_ 12 0);
                            Sample.scan "lunch_in" (Sample.at_ 13 0)] [])
           "e-17" (Sample.at_ 17 59)).
  - vm_compute. auto.
  - vm_compute. auto.
  - vm_compute. intros [H | [H | [H | []]]]; discriminate H.
  - left. vm_compute. auto.
Defined.

(** C5: with check_in on record and none of lunch_out, lunch_in and
    check_out, a scan strictly before 12:00 matches none of rules 1 to 4
    and falls to the last branch: check_out, with both flags false. *)
Theorem C5_second_scan_before_noon :
  forall (tz : Z -> Z) (db : Backend) (emp : string) (t : Z),
    In "check_in" (todayScanTypes db emp t) ->
    ~ In "lunch_out" (todayScanTypes db emp t) ->
    ~ In "lunch_in" (todayScanTypes db emp t) ->
    ~ In "check_out" (todayScanTypes db emp t) ->
    minutesOfDay tz t < 12 * 60 ->
    let scanTypes := todayScanTypes db emp t in
    rule1 scanTypes = false
    /\ rule2 scanTypes (minutesOfDay tz t) = false
    /\ rule3 scanTypes = false
    /\ rule4 scanTypes = false
    /\ detectScanType tz (Some db) emp t =
       {| scanType := "check_out"; isLate := false; isEarly := false |}.
Proof.
  intros tz db emp t Hci Hlo Hli Hco Hnoon scanTypes. subst scanTypes.
  unfold detectScanType, classify.
  set (scanTypes := todayScanTypes db emp t) in *.
  assert (H2 : rule2 scanTypes (minutesOfDay tz t) = false).
  { unfold rule2. apply andb_false_iff. right. apply Z.leb_gt. exact Hnoon. }
  rewrite H2. guards. repeat split; reflexivity.
Qed.

(** Checked in at 09:00, scanning again at 10:30 UTC: a check_out that
    is not flagged early. *)
Lemma C5_witness :
  let db := Sample.backend [Sample.scan "check_in" (Sample.at_ 9 0)] [] in
  let t := Sample.at_ 10 30 in
  let scanTypes := todayScanTypes db "e-17" t in
  rule1 scanTypes = false
  /\ rule2 scanTypes (minutesOfDay Sample.utc t) = false
  /\ rule3 scanTypes = false
  /\ rule4 scanTypes = false
  /\ detectScanType Sample.utc (Some db) "e-17" t =
     {| scanType := "check_out"; isLate := false; isEarly := false |}.
Proof.
  apply (C5_second_scan_before_noon Sample.utc
           (Sample.backend [Sample.scan "check_in" (Sample.at_ 9 0)] [])
           "e-17" (Sample.at_ 10 30)).
  - vm_compute. auto.
  - vm_compute. intros [H | []]. discriminate H.
  - vm_compute. intros [H | []]. discriminate H.
  - vm_compute. intros [H | []]. discriminate H.
  - vm_compute. reflexivity.
Defined.

(** C10: whatever the backend (configured or not), the employee and the
    scan time, the scan type is one of the four values; isLate is true
    only on a check_in decided by rule 1; isEarly is true only on a
    check_out decided by rule 4; the two flags are never both true; and
    when all four types are on record the last branch answers check_out
    with both flags false. *)
Theorem C10_detection_range :
  forall (tz : Z -> Z) (supabase : option Backend) (emp : string) (t : Z),
    let d := detectScanType tz supabase emp t in
    In (scanType d) ["check_in"; "lunch_out"; "lunch_in"; "check_out"]
    /\ (isLate d = true -> scanType d = "check_in" /\ isEarly d = false)
    /\ (isEarly d = true -> scanType d = "check_out" /\ isLate d = false)
    /\ (forall db, supabase = Some db ->
        let scanTypes := todayScanTypes db emp t in
        let currentTime := minutesOfDay tz t in
        (isLate d = true ->
           rule1 scanTypes = true /\ 9 * 60 + 15 < currentTime)
        /\ (isEarly d = true ->
              rule1 scanTypes = false /\ rule2 scanTypes currentTime = false
              /\ rule3 scanTypes = false /\ rule4 scanTypes = true
              /\ currentTime < 18 * 60)
        /\ (rule1 scanTypes = false -> rule4 scanTypes = false
             \/ rule2 scanTypes currentTime = true \/ rule3 scanTypes = true ->
            isLate d = false /\ isEarly d = false)
        /\ (In "check_in" scanTypes -> In "lunch_out" scanTypes ->
            In "lunch_in" scanTypes -> In "check_out" scanTypes ->
            d = {| scanType := "check_out"; isLate := false; isEarly := false |})).
Proof.
  intros tz supabase emp t d. subst d.
  destruct supabase as [db |]; cbn [detectScanType].
  2: { repeat split; try discriminate; simpl; auto; intros; discriminate. }
  set (scanTypes := todayScanTypes db emp t).
  set (currentTime := minutesOfDay tz t).
  assert (Hin : forall x, In x ["check_in"; "lunch_out"; "lunch_in"; "check_out"] <->
                          x = "check_in" \/ x = "lunch_out" \/ x = "lunch_in"
                          \/ x = "check_out").
  { intros x. simpl. intuition congruence. }
  destruct (classify_cases scanTypes currentTime)
    as [[R1 E] | [[R1 [R2 E]] | [[R1 [R2 [R3 E]]] | [[R1 [R2 [R3 [R4 E]]]]
        | [R1 [R2 [R3 [R4 E]]]]]]]];
    rewrite E; cbn [scanType isLate isEarly];
    (split; [apply Hin; auto | ]);
    (split; [intros H; try discriminate H; split; reflexivity | ]);
    (split; [intros H; try discriminate H; split; reflexivity | ]);
    intros db' Hdb'; injection Hdb' as <-; fold scanTypes; fold currentTime;
    (split; [intros H; try discriminate H;
             (split; [assumption | apply Z.ltb_lt; assumption]) | ]);
    (split; [intros H; try discriminate H;
             repeat split; try assumption; apply Z.ltb_lt; assumption | ]);
    (split; [intros R1' [H | [H | H]]; try congruence; split; reflexivity | ]);
    intros Hci Hlo Hli Hco; try reflexivity; guards; discriminate.
Qed.

(* ===================================================================== *)
(** * Properties of the attendance writer *)
(* ===================================================================== *)

(** A query that fixes every column of a unique key selects at most one
    row. *)
Section UniqueKey.

Context {A K : Type} (key : A -> K) (f : A -> bool).

Lemma filter_none_of_key (l : list A) (x : A) :
  (forall y, f y = true -> key y = key x) ->
  ~ In (key x) (map key l) ->
  filter f l = [].
Proof.
  intros Hf Hnot. induction l as [| a l IH]; simpl; [reflexivity |].
  destruct (f a) eqn:Ea.
  - exfalso. apply Hnot. left. now apply Hf.
  - apply IH. intros Hin. apply Hnot. now right.
Qed.

Lemma filter_unique_key (l : list A) (x : A) :
  NoDup (map key l) ->
  In x l ->
  f x = true ->
  (forall y, f y = true -> key y = key x) ->
  filter f l = [x].
Proof.
  intros Hnd Hin Hx Hf. induction l as [| a l IH]; [contradiction |].
  simpl in Hnd. inversion Hnd as [| k ks Hk Hnd']; subst.
  destruct Hin as [-> | Hin]; simpl.
  - rewrite Hx. f_equal. now apply filter_none_of_key with (x := x).
  - destruct (f a) eqn:Ea.
    + exfalso. apply Hk. rewrite (Hf a Ea). now apply in_map.
    + now apply IH.
Qed.

Lemma filter_at_most_one (l : list A) (k : K) :
  NoDup (map key l) ->
  (forall y, f y = true -> key y = k) ->
  filter f l = [] \/ exists x, filter f l = [x].
Proof.
  intros Hnd Hf. destruct (filter f l) as [| x r] eqn:E; [now left | right].
  assert (Hx : In x (filter f l)) by (rewrite E; now left).
  apply filter_In in Hx. destruct Hx as [Hin Hfx].
  exists x. rewrite <- E. apply filter_unique_key; auto.
  intros y Hy. now rewrite (Hf y Hy), (Hf x Hfx).
Qed.

End UniqueKey.

Lemma approved_leave_key e d y :
  (String.eqb (leave_employee_id y) e && String.eqb (leave_date y) d
   && String.eqb (status y) "approved") = true ->
  leave_key y = (e, d).
Proof.
  intros H. apply andb_true_iff in H. destruct H as [H _].
  apply andb_true_iff in H. destruct H as [He Hd].
  apply String.eqb_eq in He, Hd. unfold leave_key. now subst.
Qed.

Lemma scans_of_type_key e d ty y :
  (String.eqb (employee_id y) e && String.eqb (scanned_date y) d
   && String.eqb (scan_type y) ty) = true ->
  scan_key y = (e, d, ty).
Proof.
  intros H. apply andb_true_iff in H. destruct H as [H Ht].
  apply andb_true_iff in H. destruct H as [He Hd].
  apply String.eqb_eq in He, Hd, Ht. unfold scan_key. now subst.
Qed.

(** The classifier only produces types the table's constraint admits. *)
Lemma classify_check_scan_type scanTypes currentTime :
  Js.includes ["check_in"; "lunch_out"; "lunch_in"; "check_out"]
              (scanType (classify scanTypes currentTime)) = true.
Proof.
  destruct (classify_cases scanTypes currentTime)
    as [[_ E] | [[_ [_ E]] | [[_ [_ [_ E]]] | [[_ [_ [_ [_ E]]]]
        | [_ [_ [_ [_ E]]]]]]]]; rewrite E; reflexivity.
Qed.

(** The four ways through [markAttendance] on a configured backend. *)
Lemma markAttendance_cases tz rf db p t :
  let today := Js.toISODate t in
  let d := detectScanType tz (Some db) (employeeId p) t in
  (exists lr,
      Query.single (Query.approved_leave db (employeeId p) today) = Some lr
      /\ markAttendance tz rf (Some db) p t = (failure (leaveMessage lr), Some db))
  \/ (exists r,
      Query.single (Query.approved_leave db (employeeId p) today) = None
      /\ Query.single (Query.scans_of_type db (employeeId p) today (scanType d)) = Some r
      /\ markAttendance tz rf (Some db) p t
         = (failure (duplicateMessage (scanType d)), Some db))
  \/ (exists message,
      Query.single (Query.approved_leave db (employeeId p) today) = None
      /\ Query.single (Query.scans_of_type db (employeeId p) today (scanType d)) = None
      /\ rf (storedRow tz p t d) = Some message
      /\ markAttendance tz rf (Some db) p t
         = (failure (refusalMessage message), Some db))
  \/ (Query.single (Query.approved_leave db (employeeId p) today) = None
      /\ Query.single (Query.scans_of_type db (employeeId p) today (scanType d)) = None
      /\ rf (storedRow tz p t d) = None
      /\ markAttendance tz rf (Some db) p t
         = ({| success := true; data := Some (storedRow tz p t d); error := None;
               result_scanType := Some (scanType d) |},
            Some {| attendance_records := attendance_records db ++ [storedRow tz p t d];
                    leave_requests := leave_requests db |})).
Proof.
  intros today d. unfold markAttendance. fold today. fold d.
  destruct (Query.single (Query.approved_leave db (employeeId p) today)) as [lr |] eqn:El.
  - left. exists lr. split; reflexivity.
  - right.
    destruct (Query.single (Query.scans_of_type db (employeeId p) today (scanType d)))
      as [r |] eqn:Ed.
    + left. exists r. repeat split; reflexivity.
    + right.
      unfold Query.insert, Query.check_scan_type. cbn [Query.set_scanned_date scan_type].
      replace (Js.includes _ (scanType d)) with true
        by (subst d; cbn [detectScanType]; now rewrite classify_check_scan_type).
      cbn [negb].
      change (Query.set_scanned_date _) with (storedRow tz p t d).
      destruct (rf (storedRow tz p t d)) as [message |] eqn:Er.
      * left. exists message. repeat split.
      * right. repeat split.
Qed.

Lemma approved_leave_single db lr e d :
  leave_unique db ->
  In lr (leave_requests db) ->
  leave_employee_id lr = e -> leave_date lr = d -> status lr = "approved" ->
  Query.single (Query.approved_leave db e d) = Some lr.
Proof.
  intros Hu Hin He Hd Hs. unfold Query.approved_leave.
  rewrite (filter_unique_key leave_key _ (leave_requests db) lr Hu Hin).
  - reflexivity.
  - rewrite He, Hd, Hs, !String.eqb_refl. reflexivity.
  - intros y Hy. rewrite (approved_leave_key _ _ _ Hy). unfold leave_key. now subst.
Qed.

(** A failed [markAttendance] leaves the backend as it was, and a
    successful one appends exactly the row it returns. *)
Lemma markAttendance_store tz rf db p t :
  exists rows,
    snd (markAttendance tz rf (Some db) p t)
    = Some {| attendance_records := attendance_records db ++ rows;
              leave_requests := leave_requests db |}
    /\ (success (fst (markAttendance tz rf (Some db) p t)) = false -> rows = [])
    /\ (success (fst (markAttendance tz rf (Some db) p t)) = true ->
        rows = [storedRow tz p t (detectScanType tz (Some db) (employeeId p) t)]).
Proof.
  destruct db as [scans leaves].
  destruct (markAttendance_cases tz rf {| attendance_records := scans;
                                       leave_requests := leaves |} p t)
    as [[lr [_ E]] | [[r [_ [_ E]]] | [[message [_ [_ [_ E]]]] | [_ [_ [_ E]]]]]];
    rewrite E; cbn [fst snd].
  - exists []. rewrite app_nil_r. repeat split; auto; discriminate.
  - exists []. rewrite app_nil_r. repeat split; auto; discriminate.
  - exists []. rewrite app_nil_r. repeat split; auto; discriminate.
  - eexists. repeat split; auto; discriminate.
Qed.

(** C7: when the leave table (unique per employee and date) holds an
    approved request of the employee for today, [markAttendance] fails
    with the leave message, which says full day for a full_day leave and
    half day otherwise; the backend is unchanged; and the answer is the
    same whatever attendance records are on file, hence whatever type
    the scan would have been given. *)
Theorem C7_approved_leave_blocks_scan :
  forall (tz : Z -> Z) (rf : AttendanceRecord -> option string)
         (db : Backend) (p : QrData) (t : Z) (lr : LeaveRequest),
    leave_unique db ->
    In lr (leave_requests db) ->
    leave_employee_id lr = employeeId p ->
    leave_date lr = Js.toISODate t ->
    status lr = "approved" ->
    markAttendance tz rf (Some db) p t = (failure (leaveMessage lr), Some db)
    /\ success (fst (markAttendance tz rf (Some db) p t)) = false
    /\ (leave_type lr = "full_day" ->
        leaveMessage lr = "You are on full day leave today")
    /\ (leave_type lr = "half_day_morning" \/ leave_type lr = "half_day_afternoon" ->
        leaveMessage lr = "You are on half day leave today")
    /\ (forall scans,
          let db' := {| attendance_records := scans;
                        leave_requests := leave_requests db |} in
          markAttendance tz rf (Some db') p t = (failure (leaveMessage lr), Some db')).
Proof.
  intros tz rf db p t lr Hu Hin He Hd Hs.
  assert (Hany : forall scans,
             let db' := {| attendance_records := scans;
                           leave_requests := leave_requests db |} in
             markAttendance tz rf (Some db') p t = (failure (leaveMessage lr), Some db')).
  { intros scans db'. unfold markAttendance.
    rewrite (approved_leave_single db' lr (employeeId p) (Js.toISODate t)); auto. }
  assert (E : markAttendance tz rf (Some db) p t = (failure (leaveMessage lr), Some db)).
  { destruct db as [scans leaves]. apply (Hany scans). }
  split; [exact E |]. split; [now rewrite E |].
  split; [| split; [| exact Hany]].
  - intros Hty. unfold leaveMessage. now rewrite Hty.
  - intros [Hty | Hty]; unfold leaveMessage; now rewrite Hty.
Qed.

(** On half-day-morning leave with a full day of scans on file: the
    scan at 19:00 UTC is refused for the leave. *)
Lemma C7_witness :
  let db := Sample.backend (attendance_records Sample.fullDay)
                           [Sample.onLeave "half_day_morning"] in
  let lr := Sample.onLeave "half_day_morning" in
  let t := Sample.at_ 19 0 in
  markAttendance Sample.utc Sample.accepts (Some db) Sample.asha t
  = (failure (leaveMessage lr), Some db)
  /\ success (fst (markAttendance Sample.utc Sample.accepts (Some db) Sample.asha t)) = false
  /\ (leave_type lr = "full_day" ->
      leaveMessage lr = "You are on full day leave today")
  /\ (leave_type lr = "half_day_morning" \/ leave_type lr = "half_day_afternoon" ->
      leaveMessage lr = "You are on half day leave today")
  /\ (forall scans,
        let db' := {| attendance_records := scans;
                      leave_requests := leave_requests db |} in
        markAttendance Sample.utc Sample.accepts (Some db') Sample.asha t
        = (failure (leaveMessage lr), Some db')).
Proof.
  apply (C7_approved_leave_blocks_scan Sample.utc Sample.accepts
           (Sample.backend (attendance_records Sample.fullDay)
                           [Sample.onLeave "half_day_morning"])
           Sample.asha (Sample.at_ 19 0) (Sample.onLeave "half_day_morning")).
  - unfold leave_unique. simpl. constructor; [intros [] | constructor].
  - simpl. left. reflexivity.
  - reflexivity.
  - vm_compute. reflexivity.
  - reflexivity.
Defined.

(** Ordering a query's rows keeps exactly its rows. *)
Lemma insert_by_scanned_at_In r l x :
  In x (Query.insert_by_scanned_at r l) <-> x = r \/ In x l.
Proof.
  induction l as [| a l IH]; simpl.
  - intuition.
  - destruct (scanned_at r <=? scanned_at a); simpl; rewrite ?IH; intuition.
Qed.

Lemma order_by_scanned_at_In l x :
  In x (Query.order_by_scanned_at l) <-> In x l.
Proof.
  unfold Query.order_by_scanned_at. induction l as [| a l IH]; simpl.
  - reflexivity.
  - rewrite insert_by_scanned_at_In, IH. intuition.
Qed.

(** The scan types the classifier sees are those of the employee's
    records of the day. *)
Lemma todayScanTypes_In db e t ty :
  In ty (todayScanTypes db e t) <->
  exists r, In r (attendance_records db) /\ employee_id r = e
            /\ scanned_date r = Js.toISODate t /\ scan_type r = ty.
Proof.
  unfold todayScanTypes, Query.scans_on. rewrite in_map_iff. split.
  - intros [r [Hty Hr]]. apply order_by_scanned_at_In, filter_In in Hr.
    destruct Hr as [Hin Hf]. apply andb_true_iff in Hf. destruct Hf as [He Hd].
    apply String.eqb_eq in He, Hd. exists r. auto.
  - intros [r [Hin [He [Hd Hty]]]]. exists r. split; [assumption |].
    apply order_by_scanned_at_In, filter_In. split; [assumption |].
    rewrite He, Hd, !String.eqb_refl. reflexivity.
Qed.

(** A type already on record today is only ever proposed again by the
    last branch of the chain: it is check_out. *)
Lemma classify_repeat_is_check_out scanTypes currentTime :
  In (scanType (classify scanTypes currentTime)) scanTypes ->
  classify scanTypes currentTime =
  {| scanType := "check_out"; isLate := false; isEarly := false |}.
Proof.
  intros Hin. apply includes_In in Hin.
  destruct (classify_cases scanTypes currentTime)
    as [[R1 E] | [[R1 [R2 E]] | [[R1 [R2 [R3 E]]] | [[R1 [R2 [R3 [R4 E]]]]
        | [R1 [R2 [R3 [R4 E]]]]]]]];
    rewrite E in Hin |- *; cbn [scanType] in Hin; try reflexivity; exfalso.
  - unfold rule1 in R1. rewrite Hin in R1. discriminate.
  - unfold rule2 in R2. rewrite Hin in R2. discriminate.
  - unfold rule3 in R3. rewrite Hin, andb_false_r in R3. discriminate.
  - unfold rule4 in R4. rewrite Hin, andb_false_r in R4. discriminate.
Qed.

Lemma scans_of_type_single db r e d ty :
  attendance_unique db ->
  In r (attendance_records db) ->
  employee_id r = e -> scanned_date r = d -> scan_type r = ty ->
  Query.single (Query.scans_of_type db e d ty) = Some r.
Proof.
  intros Hu Hin He Hd Hty. unfold Query.scans_of_type.
  rewrite (filter_unique_key scan_key _ (attendance_records db) r Hu Hin).
  - reflexivity.
  - rewrite He, Hd, Hty, !String.eqb_refl. reflexivity.
  - intros y Hy. rewrite (scans_of_type_key _ _ _ _ Hy). unfold scan_key. now subst.
Qed.

Lemma scans_of_type_none db e d ty :
  attendance_unique db ->
  Query.single (Query.scans_of_type db e d ty) = None ->
  ~ In (e, d, ty) (map scan_key (attendance_records db)).
Proof.
  intros Hu Hs Hin. apply in_map_iff in Hin. destruct Hin as [r [Hk Hr]].
  unfold scan_key in Hk. injection Hk as He Hd Hty.
  rewrite (scans_of_type_single db r e d ty Hu Hr He Hd Hty) in Hs. discriminate.
Qed.

(** Sequential calls of [markAttendance] keep at most one record per
    employee, date and scan type. *)
Lemma markAttendance_keeps_unique tz rf db p t db' :
  attendance_unique db ->
  snd (markAttendance tz rf (Some db) p t) = Some db' ->
  attendance_unique db'.
Proof.
  intros Hu.
  destruct (markAttendance_cases tz rf db p t)
    as [[lr [_ E]] | [[r [_ [_ E]]] | [[message [_ [_ [_ E]]]] | [_ [Hnone [_ E]]]]]];
    rewrite E; cbn [snd]; intros H; injection H as <-; try assumption.
  unfold attendance_unique. cbn [attendance_records]. rewrite map_app.
  apply NoDup_app; [exact Hu | repeat constructor; intros [] |].
  intros k Hk [<- | []].
  now apply (scans_of_type_none db _ _ _ Hu Hnone).
Qed.

(** C6 as stated fails: checked in and out already, and on approved
    leave, the scan at 11:00 UTC is classified check_out, a check_out of
    today is on file, and the refusal names the leave, not the scan
    type. *)
Lemma C6_counterexample :
  let db := Sample.backend [Sample.scan "check_in" (Sample.at_ 9 0);
                            Sample.scan "check_out" (Sample.at_ 10 0)]
                           [Sample.onLeave "full_day"] in
  let t := Sample.at_ 11 0 in
  let d := detectScanType Sample.utc (Some db) "e-17" t in
  let res := fst (markAttendance Sample.utc Sample.accepts (Some db) Sample.asha t) in
  scanType d = "check_out"
  /\ Query.scans_of_type db "e-17" (Js.toISODate t) (scanType d)
     = [Sample.scan "check_out" (Sample.at_ 10 0)]
  /\ success res = false
  /\ error res = Some "You are on full day leave today"
  /\ String.index 0 "check out" "You are on full day leave today" = None
  /\ String.index 0 "check_out" "You are on full day leave today" = None.
Proof. vm_compute. repeat split. Qed.

(** C6 (amended): on a backend with at most one record per employee,
    date and scan type, when a record is on file for the employee, today
    and the classified scan type, [markAttendance] fails and leaves the
    backend unchanged; the classified type is then check_out; the error
    is "check out already recorded for today" when the leave lookup
    finds no single approved request, and the leave message otherwise.
    Whatever the call does, the backend afterwards still has at most one
    record per employee, date and scan type. *)
Theorem C6_duplicate_scan_rejected :
  forall (tz : Z -> Z) (rf : AttendanceRecord -> option string)
         (db : Backend) (p : QrData) (t : Z) (r : AttendanceRecord),
    attendance_unique db ->
    In r (attendance_records db) ->
    employee_id r = employeeId p ->
    scanned_date r = Js.toISODate t ->
    scan_type r = scanType (detectScanType tz (Some db) (employeeId p) t) ->
    let d := detectScanType tz (Some db) (employeeId p) t in
    let res := markAttendance tz rf (Some db) p t in
    success (fst res) = false
    /\ snd res = Some db
    /\ scanType d = "check_out"
    /\ error (fst res)
       = Some match Query.single (Query.approved_leave db (employeeId p)
                                                       (Js.toISODate t)) with
              | None => duplicateMessage (scanType d)
              | Some lr => leaveMessage lr
              end
    /\ duplicateMessage (scanType d) = "check out already recorded for today"
    /\ (forall p' t' db', snd (markAttendance tz rf (Some db) p' t') = Some db' ->
                          attendance_unique db').
Proof.
  intros tz rf db p t r Hu Hin He Hd Hty d res.
  assert (Hd' : classify (todayScanTypes db (employeeId p) t) (minutesOfDay tz t)
                = {| scanType := "check_out"; isLate := false; isEarly := false |}).
  { apply classify_repeat_is_check_out. apply todayScanTypes_In. exists r. auto. }
  assert (Hout : scanType d = "check_out").
  { subst d. cbn [detectScanType]. now rewrite Hd'. }
  assert (Hkeep : forall p' t' db', snd (markAttendance tz rf (Some db) p' t') = Some db' ->
                                    attendance_unique db').
  { intros p' t' db'. now apply markAttendance_keeps_unique. }
  subst res.
  destruct (markAttendance_cases tz rf db p t)
    as [[lr [El E]] | [[r' [El [_ E]]] | [[message [_ [Hnone _]]] | [_ [Hnone _]]]]].
  - rewrite E, El. cbn [fst snd failure success error]. fold d.
    rewrite Hout. repeat split; auto.
  - rewrite E, El. cbn [fst snd failure success error]. fold d.
    rewrite Hout. repeat split; auto.
  - exfalso.
    rewrite (scans_of_type_single db r _ _ _ Hu Hin He Hd Hty) in Hnone. discriminate.
  - exfalso.
    rewrite (scans_of_type_single db r _ _ _ Hu Hin He Hd Hty) in Hnone. discriminate.
Qed.

(** Checked in at 09:00 and out at 10:00 UTC, no leave: the scan at
    11:00 is refused as a repeated check out. *)
Lemma C6_witness :
  let db := Sample.backend [Sample.scan "check_in" (Sample.at_ 9 0);
                            Sample.scan "check_out" (Sample.at_ 10 0)] [] in
  let t := Sample.at_ 11 0 in
  let d := detectScanType Sample.utc (Some db) (employeeId Sample.asha) t in
  let res := markAttendance Sample.utc Sample.accepts (Some db) Sample.asha t in
  success (fst res) = false
  /\ snd res = Some db
  /\ scanType d = "check_out"
  /\ error (fst res)
     = Some match Query.single (Query.approved_leave db (employeeId Sample.asha)
                                                     (Js.toISODate t)) with
            | None => duplicateMessage (scanType d)
            | Some lr => leaveMessage lr
            end
  /\ duplicateMessage (scanType d) = "check out already recorded for today"
  /\ (forall p' t' db', snd (markAttendance Sample.utc Sample.accepts (Some db) p' t') = Some db' ->
                        attendance_unique db').
Proof.
  apply (C6_duplicate_scan_rejected Sample.utc Sample.accepts
           (Sample.backend [Sample.scan "check_in" (Sample.at_ 9 0);
                            Sample.scan "check_out" (Sample.at_ 10 0)] [])
           Sample.asha (Sample.at_ 11 0) (Sample.scan "check_out" (Sample.at_ 10 0))).
  - unfold attendance_unique. vm_compute.
    constructor; [intros [H | []]; discriminate H |].
    constructor; [intros [] | constructor].
  - simpl. right. left. reflexivity.
  - reflexivity.
  - vm_compute. reflexivity.
  - vm_compute. reflexivity.
Defined.

(** Where the table already holds two records of the classified type
    for the day, [.single()] yields no data and the scan is stored
    again. *)
Example duplicate_pair_not_detected :
  let db := Sample.backend [Sample.scan "check_in" (Sample.at_ 9 0);
                            Sample.scan "check_out" (Sample.at_ 10 0);
                            Sample.scan "check_out" (Sample.at_ 10 1)] [] in
  let res := markAttendance Sample.utc Sample.accepts (Some db) Sample.asha (Sample.at_ 11 0) in
  success (fst res) = true
  /\ result_scanType (fst res) = Some "check_out"
  /\ option_map (fun b => List.length (attendance_records b)) (snd res) = Some 4%nat.
Proof. vm_compute. repeat split. Qed.

(** C9: when [markAttendance] succeeds, the row it returns is the one
    appended to the table, its scan type is the classified one, and its
    is_half_day flag is true exactly when that type is check_in and the
    local hour of the scan is below 12. No later call changes the row:
    the table only grows at its end. *)
Theorem C9_half_day_flag :
  forall (tz : Z -> Z) (rf : AttendanceRecord -> option string) (db : Backend) (p : QrData) (t : Z),
    success (fst (markAttendance tz rf (Some db) p t)) = true ->
    let d := detectScanType tz (Some db) (employeeId p) t in
    exists row db',
      markAttendance tz rf (Some db) p t
      = ({| success := true; data := Some row; error := None;
            result_scanType := Some (scanType d) |}, Some db')
      /\ attendance_records db' = (attendance_records db ++ [row])%list
      /\ scan_type row = scanType d
      /\ (is_half_day row = true <->
          scanType d = "check_in" /\ Js.getHours tz t < 12)
      /\ (forall p' t', exists rows db'',
            snd (markAttendance tz rf (Some db') p' t') = Some db''
            /\ attendance_records db''
               = (attendance_records db ++ [row] ++ rows)%list).
Proof.
  intros tz rf db p t Hok d.
  destruct (markAttendance_cases tz rf db p t)
    as [[lr [_ E]] | [[r [_ [_ E]]] | [[message [_ [_ [_ E]]]] | [_ [_ [_ E]]]]]];
    rewrite E in Hok; cbn [fst failure success] in Hok; try discriminate Hok.
  fold d in E. rewrite E.
  eexists. eexists. split; [reflexivity |].
  split; [reflexivity |]. split; [reflexivity |]. split.
  - cbn [storedRow is_half_day]. rewrite andb_true_iff, String.eqb_eq, Z.ltb_lt.
    reflexivity.
  - intros p' t'.
    destruct (markAttendance_store tz rf
                {| attendance_records := attendance_records db ++ [storedRow tz p t d];
                   leave_requests := leave_requests db |} p' t')
      as [rows [Hs _]].
    exists rows. eexists. split; [exact Hs |].
    cbn [attendance_records]. now rewrite <- app_assoc.
Qed.

(** The first scan of the day at 09:16 UTC is stored as a half-day
    check-in. *)
Lemma C9_witness :
  let db := Sample.backend [] [] in
  let t := Sample.at_ 9 16 in
  let d := detectScanType Sample.utc (Some db) (employeeId Sample.asha) t in
  exists row db',
    markAttendance Sample.utc Sample.accepts (Some db) Sample.asha t
    = ({| success := true; data := Some row; error := None;
          result_scanType := Some (scanType d) |}, Some db')
    /\ attendance_records db' = (attendance_records db ++ [row])%list
    /\ scan_type row = scanType d
    /\ (is_half_day row = true <->
        scanType d = "check_in" /\ Js.getHours Sample.utc t < 12)
    /\ (forall p' t', exists rows db'',
          snd (markAttendance Sample.utc Sample.accepts (Some db') p' t') = Some db''
          /\ attendance_records db''
             = (attendance_records db ++ [row] ++ rows)%list).
Proof.
  apply (C9_half_day_flag Sample.utc Sample.accepts (Sample.backend [] []) Sample.asha
           (Sample.at_ 9 16)).
  vm_compute. reflexivity.
Defined.

(** A first check-in at 11:59 is a half day; one at 12:00 is not, and
    neither is a check-out at 10:30. *)
Example half_day_only_for_morning_check_in :
  let stored db t :=
    option_map is_half_day
      (data (fst (markAttendance Sample.utc Sample.accepts (Some db) Sample.asha t))) in
  stored (Sample.backend [] []) (Sample.at_ 11 59) = Some true
  /\ stored (Sample.backend [] []) (Sample.at_ 12 0) = Some false
  /\ stored (Sample.backend [Sample.scan "check_in" (Sample.at_ 9 0)] []) (Sample.at_ 10 30)
     = Some false.
Proof. vm_compute. repeat split. Qed.

(* ===================================================================== *)
(** * Properties of the daily report *)
(* ===================================================================== *)

(** The two formatting steps round the value of a Number to the nearest
    hundredth and to the nearest integer. *)
Lemma hundredth (n : Z) : (n # 100 == inject_Z n * (1 # 100))%Q.
Proof. unfold Qeq. simpl. lia. Qed.

Lemma hundredths_close (m : positive) (e : Z) :
  (Qabs ((Js.hundredths m e # 100) - Js.magnitude m e) <= 1 # 200)%Q.
Proof.
  unfold Js.hundredths. set (x := Js.magnitude m e).
  pose proof (Qfloor_le (x * 100 + (1 # 2))) as Hlo.
  pose proof (Qlt_floor (x * 100 + (1 # 2))) as Hhi.
  rewrite inject_Z_plus in Hhi. change (inject_Z 1) with 1%Q in Hhi.
  rewrite hundredth.
  set (n := inject_Z (Qfloor (x * 100 + (1 # 2)))) in *.
  apply Qabs_case; intros _; lra.
Qed.

Lemma round_close (x : Q) : (Qabs (inject_Z (Qfloor (x + (1 # 2))) - x) <= 1 # 2)%Q.
Proof.
  pose proof (Qfloor_le (x + (1 # 2))) as Hlo.
  pose proof (Qlt_floor (x + (1 # 2))) as Hhi.
  rewrite inject_Z_plus in Hhi. change (inject_Z 1) with 1%Q in Hhi.
  set (n := inject_Z (Qfloor (x + (1 # 2)))) in *.
  apply Qabs_case; intros _; lra.
Qed.

Lemma truthy_isZeroOrNaN (x : Js.number) : Js.truthy x = negb (isZeroOrNaN x).
Proof. destruct x; reflexivity. Qed.

Lemma ifTruthy_spec {A} (x : Js.number) (f : Js.number -> A) :
  Reports.ifTruthy (Some x) f = if isZeroOrNaN x then None else Some (f x).
Proof. unfold Reports.ifTruthy. rewrite truthy_isZeroOrNaN. now destruct (isZeroOrNaN x). Qed.

(** What [find] on the day's scans returns. *)
Lemma find_of_type db e date ty r :
  Js.find (Reports.ofType ty)
          (Query.order_by_scanned_at (Query.scans_on db e (Js.toISODate date))) = Some r ->
  In r (attendance_records db) /\ employee_id r = e
  /\ scanned_date r = Js.toISODate date /\ scan_type r = ty.
Proof.
  intros H. apply find_some in H. destruct H as [Hin Hty].
  apply order_by_scanned_at_In, filter_In in Hin. destruct Hin as [Hin Hf].
  apply andb_true_iff in Hf. destruct Hf as [He Hd].
  apply String.eqb_eq in He, Hd, Hty. auto.
Qed.

Lemma insert_by_scanned_at_perm r l :
  Permutation (Query.insert_by_scanned_at r l) (r :: l).
Proof.
  induction l as [| x l IH]; simpl; [reflexivity |].
  destruct (scanned_at r <=? scanned_at x); [reflexivity |].
  rewrite IH. apply perm_swap.
Qed.

Lemma insert_by_scanned_at_sorted r l :
  StronglySorted not_newer l ->
  StronglySorted not_newer (Query.insert_by_scanned_at r l).
Proof.
  induction 1 as [| x l Hs IH Hx]; simpl.
  - repeat constructor.
  - destruct (scanned_at r <=? scanned_at x) eqn:E.
    + apply Z.leb_le in E. constructor; [now constructor |].
      constructor; [exact E |].
      rewrite Forall_forall in *. intros y Hy. unfold not_newer in *.
      specialize (Hx y Hy). lia.
    + apply Z.leb_gt in E. constructor; [assumption |].
      rewrite Forall_forall in *. intros y Hy.
      apply (Permutation_in _ (insert_by_scanned_at_perm r l)) in Hy.
      destruct Hy as [<- | Hy]; [unfold not_newer; lia | now apply Hx].
Qed.

Lemma order_by_scanned_at_sorted l :
  StronglySorted not_newer (Query.order_by_scanned_at l).
Proof.
  unfold Query.order_by_scanned_at. induction l as [| a l IH]; simpl.
  - constructor.
  - now apply insert_by_scanned_at_sorted.
Qed.

(** The first row of a kind among rows in ascending order is the
    earliest of that kind. *)
Lemma find_in_sorted_is_earliest (f : AttendanceRecord -> bool) l r :
  StronglySorted not_newer l ->
  Js.find f l = Some r ->
  forall r', In r' l -> f r' = true -> scanned_at r <= scanned_at r'.
Proof.
  unfold Js.find. induction 1 as [| x l Hs IH Hx]; simpl; [discriminate |].
  destruct (f x) eqn:Ex.
  - intros H. injection H as <-. intros r' [<- | Hin] _; [lia |].
    rewrite Forall_forall in Hx. exact (Hx r' Hin).
  - intros H r' [<- | Hin] Hf; [congruence | now apply IH].
Qed.

Lemma find_of_type_earliest db e date ty r :
  Js.find (Reports.ofType ty)
          (Query.order_by_scanned_at (Query.scans_on db e (Js.toISODate date))) = Some r ->
  forall r', In r' (attendance_records db) -> employee_id r' = e ->
             scanned_date r' = Js.toISODate date -> scan_type r' = ty ->
             scanned_at r <= scanned_at r'.
Proof.
  intros H r' Hin He Hd Hty.
  apply (find_in_sorted_is_earliest _ _ _ (order_by_scanned_at_sorted _) H).
  - apply order_by_scanned_at_In, filter_In. split; [assumption |].
    now rewrite He, Hd, !String.eqb_refl.
  - unfold Reports.ofType. rewrite Hty. apply String.eqb_refl.
Qed.

(** C8 as stated fails on the value returned: with a check-in at 09:00
    and a check-out at 17:10 (490 minutes, no lunch), the summary is
    complete and its totalHours is the Number 8.17, which is neither the
    Number 490/60 nor within a thousandth of that quotient. *)
Lemma C8_counterexample :
  let ci := Sample.scan "check_in" (Sample.at_ 9 0) in
  let co := Sample.scan "check_out" (Sample.at_ 17 10) in
  let res := Reports.getDailySummary (Some (Sample.backend [ci; co] [])) "e-17"
                                     (Sample.at_ 20 0) in
  option_map Reports.checkIn (Reports.data res) = Some (Some ci)
  /\ option_map Reports.checkOut (Reports.data res) = Some (Some co)
  /\ option_map Reports.isComplete (Reports.data res) = Some true
  /\ option_map Reports.totalHours (Reports.data res)
     = Some (Some (Js.nearest false 817 100))
  /\ workedHours ci None None co = Js.div (Js.ofZ 490) (Js.ofZ 60)
  /\ SFeqb (Js.nearest false 817 100) (Js.div (Js.ofZ 490) (Js.ofZ 60)) = false
  /\ Qle_bool (1 # 1000) (Js.value (Js.nearest false 817 100) - 490 / 60) = true.
Proof. vm_compute. repeat split. Qed.

(** The hours are computed on doubles: from 09:00:00 to 10:00:18 the
    quotient is the double just below 1.005, and the summary shows 1,
    where 1.005 itself would be printed 1.01. *)
Example hours_just_below_a_tie :
  let ci := Sample.scan "check_in" (Sample.at_ 9 0) in
  let co := Sample.scan "check_out" (Sample.at_ 10 0 + 18000) in
  let res := Reports.getDailySummary (Some (Sample.backend [ci; co] [])) "e-17"
                                     (Sample.at_ 20 0) in
  option_map Reports.totalHours (Reports.data res) = Some (Some (Js.ofZ 1))
  /\ Qle_bool (1005 # 1000) (Js.value (workedHours ci None None co)) = false
  /\ Qfloor ((1005 # 1000) * 100 + (1 # 2)) = 101.
Proof. vm_compute. repeat split. Qed.

(** C8 (amended): on a configured backend the daily fold succeeds; each
    of its four records is the first of its type among the employee's
    scans of the date (so at most one per type, and one that is on file
    for that employee, date and type, scanned no later than any other
    such record); isComplete is true exactly when a
    check-in and a check-out were found; then totalHours is
    (checkOut - checkIn - lunchDuration) / 60 computed on doubles, lunch
    counted only when both lunch records were found, printed with two
    decimals and read back, and null when the value is zero or NaN;
    lunchDuration is the minutes between the two lunch records rounded
    to an integer, null when zero or NaN or when a lunch record is
    missing; without a check-in or a check-out both are null. Printing
    with two decimals takes the hundredth nearest to the value of the
    double (the larger of two as near) and reads it as the nearest
    double; rounding takes the integer nearest to the value (the larger
    of two as near). Check-in 09:00, lunch 12:00 to 13:00, check-out
    18:00 gives totalHours 8 and lunchDuration 60; check-in 09:00:00 and
    check-out 10:00:18 give totalHours 1. *)
Theorem C8_daily_fold :
  (forall (db : Backend) (emp : string) (date : Z),
      let scans :=
        Query.order_by_scanned_at (Query.scans_on db emp (Js.toISODate date)) in
      exists s,
        Reports.getDailySummary (Some db) emp date
        = {| Reports.success := true; Reports.data := Some s; Reports.error := None |}
        /\ Reports.checkIn s = Js.find (Reports.ofType "check_in") scans
        /\ Reports.lunchOut s = Js.find (Reports.ofType "lunch_out") scans
        /\ Reports.lunchIn s = Js.find (Reports.ofType "lunch_in") scans
        /\ Reports.checkOut s = Js.find (Reports.ofType "check_out") scans
        /\ (forall ty r, Js.find (Reports.ofType ty) scans = Some r ->
              In r (attendance_records db) /\ employee_id r = emp
              /\ scanned_date r = Js.toISODate date /\ scan_type r = ty
              /\ forall r', In r' (attendance_records db) -> employee_id r' = emp ->
                            scanned_date r' = Js.toISODate date -> scan_type r' = ty ->
                            scanned_at r <= scanned_at r')
        /\ (Reports.isComplete s = true <->
            exists ci co, Reports.checkIn s = Some ci /\ Reports.checkOut s = Some co)
        /\ (forall ci co,
              Reports.checkIn s = Some ci -> Reports.checkOut s = Some co ->
              let hours := workedHours ci (Reports.lunchOut s) (Reports.lunchIn s) co in
              Reports.totalHours s
              = (if isZeroOrNaN hours then None else Some (Js.toFixed2 hours))
              /\ Reports.lunchDuration s
                 = match lunchMinutes (Reports.lunchOut s) (Reports.lunchIn s) with
                   | Some m => if isZeroOrNaN m then None else Some (Js.round m)
                   | None => None
                   end)
        /\ (Reports.checkIn s = None \/ Reports.checkOut s = None ->
            Reports.totalHours s = None /\ Reports.lunchDuration s = None))
  /\ (forall (s : bool) (m : positive) (e : Z),
        let x := S754_finite s m e in
        let n := Js.hundredths m e in
        let k := Qfloor (Js.value x + (1 # 2)) in
        (Qabs ((n # 100) - Js.magnitude m e) <= 1 # 200)%Q
        /\ (Qle_bool (inject_Z (10 ^ 21)) (Js.magnitude m e) = false ->
            Js.toFixed2 x = match n with
                            | Zpos n' => Js.nearest s n' 100
                            | _ => S754_zero s
                            end)
        /\ (Qabs (inject_Z k - Js.value x) <= 1 # 2)%Q
        /\ Js.round x = match k with
                        | Z0 => S754_zero s
                        | _ => Js.ofZ k
                        end)
  /\ (let res := Reports.getDailySummary (Some Sample.fullDay) "e-17" (Sample.at_ 20 0) in
      option_map Reports.totalHours (Reports.data res) = Some (Some (Js.ofZ 8))
      /\ option_map Reports.lunchDuration (Reports.data res) = Some (Some (Js.ofZ 60))
      /\ option_map Reports.isComplete (Reports.data res) = Some true)
  /\ (let ci := Sample.scan "check_in" (Sample.at_ 9 0) in
      let co := Sample.scan "check_out" (Sample.at_ 10 0 + 18000) in
      let res := Reports.getDailySummary (Some (Sample.backend [ci; co] [])) "e-17"
                                         (Sample.at_ 20 0) in
      option_map Reports.totalHours (Reports.data res) = Some (Some (Js.ofZ 1))).
Proof.
  split; [| split; [| split; [vm_compute; repeat split | vm_compute; reflexivity]]].
  2: { intros s m e x n k. split; [apply hundredths_close |].
       split; [| split; [apply round_close |]].
       - intros Hsmall. subst x n. cbn [Js.toFixed2]. rewrite Hsmall. reflexivity.
       - subst x k. cbn [Js.round]. destruct (Qfloor _); reflexivity. }
  intros db emp date scans. unfold Reports.getDailySummary. fold scans.
  destruct (Js.find (Reports.ofType "check_in") scans) as [ci |];
    destruct (Js.find (Reports.ofType "check_out") scans) as [co |];
    destruct (Js.find (Reports.ofType "lunch_out") scans) as [lo |];
    destruct (Js.find (Reports.ofType "lunch_in") scans) as [li |];
    cbn [Reports.workingHours]; eexists; (split; [reflexivity |]);
    cbn [Reports.checkIn Reports.lunchOut Reports.lunchIn Reports.checkOut
         Reports.isComplete Reports.totalHours Reports.lunchDuration];
    do 4 (split; [reflexivity |]);
    (split; [intros ty r Hr; destruct (find_of_type _ _ _ _ _ Hr) as [? [? [? ?]]];
             repeat split; try assumption; now apply find_of_type_earliest |]);
    (split; [split; [try discriminate; intros _; eauto
                    | try reflexivity; intros [ci' [co' [H1 H2]]]; discriminate]
            | split; [intros ci' co' H1 H2; try discriminate;
                      injection H1 as <-; injection H2 as <-; cbn zeta
                    | try (intros _; split; reflexivity);
                      intros [H | H]; discriminate]]).
  all: unfold workedHours, lunchMinutes; rewrite ?ifTruthy_spec; split; reflexivity.
Qed.

(* ===================================================================== *)
(** * Properties of the signature and freshness checks *)
(* ===================================================================== *)

Lemma dataToSign_canonical (qr : QrData) : Signature.dataToSign qr = canonical qr.
Proof. unfold Signature.dataToSign, canonical. destruct (department qr); reflexivity. Qed.

Lemma hexDigit_lower (n : N) : isUpperHex (Signature.hexDigit n) = false.
Proof.
  destruct n as [| p]; [reflexivity |].
  do 5 (try (destruct p as [p | p |]); try reflexivity).
Qed.

Lemma Hex_lower (bytes : list Byte.byte) : hasUpperHex (Signature.Hex bytes) = false.
Proof.
  induction bytes as [| b r IH]; [reflexivity |].
  cbn [Signature.Hex hasUpperHex]. now rewrite !hexDigit_lower, IH.
Qed.

(** C1: [verifyQrSignature] answers true exactly when the lowercase hex
    digest of HMAC-SHA256 under the secret key of the string
    employeeId|firstName|lastName|role|department-or-empty|checkInTime
    is the payload's signature, character for character; a signature
    with an uppercase hex letter is therefore refused. *)
Theorem C1_signature_check :
  forall (HmacSHA256 : string -> string -> list Byte.byte)
         (VITE_QR_SECRET_KEY : option string) (qr : QrData),
    let key := Signature.SECRET_KEY VITE_QR_SECRET_KEY in
    let digest := Signature.Hex (HmacSHA256 (canonical qr) key) in
    (Signature.verifyQrSignature HmacSHA256 VITE_QR_SECRET_KEY qr = true
     <-> digest = signature qr)
    /\ (Signature.verifyQrSignature HmacSHA256 VITE_QR_SECRET_KEY qr = false
        <-> digest <> signature qr)
    /\ (hasUpperHex (signature qr) = true ->
        Signature.verifyQrSignature HmacSHA256 VITE_QR_SECRET_KEY qr = false)
    /\ (VITE_QR_SECRET_KEY = None \/ VITE_QR_SECRET_KEY = Some "" ->
        key = "artihcus_attendance_secret_2025").
Proof.
  intros HmacSHA256 env qr key digest.
  unfold Signature.verifyQrSignature. rewrite dataToSign_canonical.
  fold key. fold digest.
  split; [apply String.eqb_eq |]. split; [apply String.eqb_neq |]. split.
  - intros Hup. apply String.eqb_neq. intros E.
    rewrite <- E in Hup. subst digest. now rewrite Hex_lower in Hup.
  - subst key. intros [-> | ->]; reflexivity.
Qed.

(** An absent department signs as the empty field. *)
Example canonical_without_department :
  canonical {| employeeId := "e-17"; firstName := "Asha"; lastName := "Rao";
               role := "engineer"; department := None;
               checkInTime := "2025-01-01T09:00:00.000Z"; signature := "" |}
  = "e-17|Asha|Rao|engineer||2025-01-01T09:00:00.000Z".
Proof. reflexivity. Qed.

Lemma age_in_window (ms : Z) :
  (Qle_bool 0 (inject_Z ms / 1000) && Qle_bool (inject_Z ms / 1000) 60 = true)
  <-> 0 <= ms <= 60000.
Proof.
  rewrite andb_true_iff, !Qle_bool_iff.
  unfold Qle, Qdiv, Qmult, Qinv, inject_Z. simpl. lia.
Qed.

(** C2: [isTimestampFresh] answers true exactly when the timestamp
    parses and its age now - checkInTime is between 0 and 60 seconds,
    bounds included; an unparsable timestamp, an age of -1 second and an
    age of 61 seconds are refused, ages of 0 and of 60 seconds
    accepted. *)
Theorem C2_freshness_window :
  forall (parseDate : string -> option Z) (now : Z) (checkInTime : string),
    (Signature.isTimestampFresh parseDate now checkInTime = true
     <-> exists qrTime,
           parseDate checkInTime = Some qrTime
           /\ (0 <= inject_Z (now - qrTime) / 1000)%Q
           /\ (inject_Z (now - qrTime) / 1000 <= 60)%Q)
    /\ (Signature.isTimestampFresh parseDate now checkInTime = true
        <-> exists qrTime,
              parseDate checkInTime = Some qrTime /\ 0 <= now - qrTime <= 60000)
    /\ (parseDate checkInTime = None ->
        Signature.isTimestampFresh parseDate now checkInTime = false)
    /\ (forall qrTime, parseDate checkInTime = Some qrTime ->
          (now - qrTime = -1000 ->
           Signature.isTimestampFresh parseDate now checkInTime = false)
          /\ (now - qrTime = 61000 ->
              Signature.isTimestampFresh parseDate now checkInTime = false)
          /\ (now - qrTime = 0 ->
              Signature.isTimestampFresh parseDate now checkInTime = true)
          /\ (now - qrTime = 60000 ->
              Signature.isTimestampFresh parseDate now checkInTime = true)).
Proof.
  intros parseDate now checkInTime. unfold Signature.isTimestampFresh.
  destruct (parseDate checkInTime) as [qrTime |].
  - split; [| split; [| split; [discriminate |]]].
    + split.
      * intros H. exists qrTime. apply andb_true_iff in H.
        rewrite !Qle_bool_iff in H. tauto.
      * intros [q [E [H0 H60]]]. injection E as <-.
        apply andb_true_iff. rewrite !Qle_bool_iff. tauto.
    + rewrite age_in_window. split.
      * intros H. exists qrTime. tauto.
      * intros [q [E H]]. injection E as <-. exact H.
    + intros q E. injection E as <-.
      repeat split; intros ->; reflexivity.
  - split; [| split; [| split; [reflexivity |]]].
    + split; [discriminate | intros [q [E _]]; discriminate].
    + split; [discriminate | intros [q [E _]]; discriminate].
    + intros q E. discriminate.
Qed.

(* ===================================================================== *)
(** * Further properties of the attendance writer *)
(* ===================================================================== *)

(** The classifier reads today's scan types as a set: the order of the
    query does not matter. *)
Lemma todayScanTypes_unsorted db e t ty :
  In ty (todayScanTypes db e t)
  <-> In ty (map scan_type (Query.scans_on db e (Js.toISODate t))).
Proof.
  unfold todayScanTypes. rewrite !in_map_iff. split.
  - intros [r [Hty Hr]]. exists r. split; [assumption |].
    now apply order_by_scanned_at_In.
  - intros [r [Hty Hr]]. exists r. split; [assumption |].
    now apply order_by_scanned_at_In.
Qed.

Lemma classify_ext l l' currentTime :
  (forall x, In x l <-> In x l') ->
  classify l currentTime = classify l' currentTime.
Proof.
  intros H.
  assert (E : forall x, Js.includes l x = Js.includes l' x).
  { intros x. apply eq_true_iff_eq. rewrite !includes_In. apply H. }
  unfold classify, rule1, rule2, rule3, rule4. now rewrite !E.
Qed.

Lemma detectScanType_unsorted tz db e t :
  detectScanType tz (Some db) e t
  = classify (map scan_type (Query.scans_on db e (Js.toISODate t))) (minutesOfDay tz t).
Proof.
  cbn [detectScanType]. apply classify_ext. intros x. apply todayScanTypes_unsorted.
Qed.

(** What a stored row adds to the queries of an employee's day. *)
Lemma scans_on_app db rows e d :
  Query.scans_on {| attendance_records := attendance_records db ++ rows;
                    leave_requests := leave_requests db |} e d
  = (Query.scans_on db e d
     ++ filter (fun r => String.eqb (employee_id r) e && String.eqb (scanned_date r) d)
               rows)%list.
Proof. unfold Query.scans_on. cbn [attendance_records]. apply filter_app. Qed.

Lemma scans_of_type_app db rows e d ty :
  Query.scans_of_type {| attendance_records := attendance_records db ++ rows;
                         leave_requests := leave_requests db |} e d ty
  = (Query.scans_of_type db e d ty
     ++ filter (fun r => String.eqb (employee_id r) e && String.eqb (scanned_date r) d
                         && String.eqb (scan_type r) ty) rows)%list.
Proof. unfold Query.scans_of_type. cbn [attendance_records]. apply filter_app. Qed.

(** The outcome of [markAttendance] on a configured backend, with the
    backend it leaves. *)
Lemma markAttendance_outcome tz rf db p t :
  let d := detectScanType tz (Some db) (employeeId p) t in
  (success (fst (markAttendance tz rf (Some db) p t)) = false
   /\ snd (markAttendance tz rf (Some db) p t) = Some db)
  \/ (Query.single (Query.approved_leave db (employeeId p) (Js.toISODate t)) = None
      /\ Query.single (Query.scans_of_type db (employeeId p) (Js.toISODate t)
                                           (scanType d)) = None
      /\ rf (storedRow tz p t d) = None
      /\ fst (markAttendance tz rf (Some db) p t)
         = {| success := true; data := Some (storedRow tz p t d); error := None;
              result_scanType := Some (scanType d) |}
      /\ snd (markAttendance tz rf (Some db) p t)
         = Some {| attendance_records := attendance_records db ++ [storedRow tz p t d];
                   leave_requests := leave_requests db |}).
Proof.
  intros d.
  destruct (markAttendance_cases tz rf db p t)
    as [[lr [_ E]] | [[r [_ [_ E]]] | [[message [_ [_ [_ E]]]] | [Hl [Hn [Hr E]]]]]];
    rewrite E; cbn [fst snd].
  - left. split; reflexivity.
  - left. split; reflexivity.
  - left. split; reflexivity.
  - right. repeat split; assumption.
Qed.

Lemma storedRow_valid tz p t db :
  Query.check_scan_type (storedRow tz p t (detectScanType tz (Some db) (employeeId p) t))
  = true.
Proof.
  unfold Query.check_scan_type. cbn [storedRow scan_type detectScanType].
  apply classify_check_scan_type.
Qed.

Lemma NoDup_map_filter {A K} (key : A -> K) (f : A -> bool) (l : list A) :
  NoDup (map key l) -> NoDup (map key (filter f l)).
Proof.
  induction l as [| a l IH]; simpl; intros Hnd; [constructor |].
  inversion Hnd as [| k ks Hk Hnd']; subst.
  destruct (f a); simpl; [constructor |]; auto.
  intros Hin. apply Hk. apply in_map_iff in Hin. destruct Hin as [x [Hx Hin]].
  apply filter_In in Hin. apply in_map_iff. exists x. tauto.
Qed.

(** At most one row per scan type leaves room for four rows a day. *)
Lemma day_has_at_most_four db e d :
  attendance_unique db -> types_valid db ->
  (List.length (Query.scans_on db e d) <= 4)%nat.
Proof.
  intros Hu Hv. unfold Query.scans_on.
  set (f := fun r => String.eqb (employee_id r) e && String.eqb (scanned_date r) d).
  rewrite <- (length_map scan_type).
  change 4%nat with (List.length ["check_in"; "lunch_out"; "lunch_in"; "check_out"]).
  apply NoDup_incl_length.
  - apply (NoDup_map_inv (fun ty => (e, d, ty))). rewrite map_map.
    assert (E : map (fun r => (e, d, scan_type r)) (filter f (attendance_records db))
                = map scan_key (filter f (attendance_records db))).
    { apply map_ext_in. intros r Hr. apply filter_In in Hr. destruct Hr as [_ Hf].
      unfold f in Hf. apply andb_true_iff in Hf. destruct Hf as [He Hd].
      apply String.eqb_eq in He, Hd. unfold scan_key. now subst. }
    rewrite E. now apply NoDup_map_filter.
  - intros ty Hty. apply in_map_iff in Hty. destruct Hty as [r [<- Hr]].
    apply filter_In in Hr. destruct Hr as [Hr _].
    unfold types_valid in Hv. rewrite Forall_forall in Hv.
    apply includes_In. exact (Hv r Hr).
Qed.

Lemma markAttendance_keeps_valid tz rf db p t db' :
  types_valid db ->
  snd (markAttendance tz rf (Some db) p t) = Some db' ->
  types_valid db'.
Proof.
  intros Hv. destruct (markAttendance_outcome tz rf db p t) as [[_ E] | [_ [_ [_ [_ E]]]]];
    rewrite E; intros H; injection H as <-; [assumption |].
  unfold types_valid. cbn [attendance_records]. apply Forall_app. split; [assumption |].
  constructor; [apply storedRow_valid | constructor].
Qed.

Lemma markAttendance_keeps_order tz rf db p t db' :
  day_ordered db ->
  snd (markAttendance tz rf (Some db) p t) = Some db' ->
  day_ordered db'.
Proof.
  intros Ho. destruct (markAttendance_outcome tz rf db p t) as [[_ E] | [_ [_ [_ [_ E]]]]];
    rewrite E; intros H; injection H as <-; [assumption |].
  change (classify (todayScanTypes db (employeeId p) t) (minutesOfDay tz t))
    with (detectScanType tz (Some db) (employeeId p) t).
  rewrite detectScanType_unsorted.
  set (types := map scan_type (Query.scans_on db (employeeId p) (Js.toISODate t))).
  intros r Hr. cbn [attendance_records] in Hr. rewrite scans_on_app, map_app.
  apply in_app_or in Hr. destruct Hr as [Hr | [<- | []]].
  - destruct (Ho r Hr) as [Hci Hli]. split.
    + apply in_or_app. now left.
    + intros Hty. apply in_or_app. left. now apply Hli.
  - cbn [storedRow employee_id scanned_date scan_type filter].
    rewrite !String.eqb_refl. cbn [andb map storedRow scan_type]. fold types.
    destruct (classify_cases types (minutesOfDay tz t))
      as [[R1 E1] | [[R1 [R2 E1]] | [[R1 [R2 [R3 E1]]] | [[R1 [R2 [R3 [R4 E1]]]]
          | [R1 [R2 [R3 [R4 E1]]]]]]]];
      rewrite E1; cbn [scanType];
      (split; [| intros Hty; try discriminate Hty]).
    all: try (apply in_or_app; right; left; reflexivity).
    all: try (apply in_or_app; left; apply includes_In; unfold rule1 in R1;
              destruct (Js.includes types "check_in"); [reflexivity | discriminate]).
    apply in_or_app. left. apply includes_In. unfold rule3 in R3.
    destruct (Js.includes types "lunch_out"); [reflexivity | discriminate].
Qed.

(** An invariant each call keeps holds after any sequence of scans. *)
Lemma markAll_invariant (tz : Z -> Z) (rf : AttendanceRecord -> option string)
                        (P : Backend -> Prop) :
  (forall db p t db', P db -> snd (markAttendance tz rf (Some db) p t) = Some db' -> P db') ->
  forall scans db, P db ->
    exists db', snd (markAll tz rf (Some db) scans) = Some db' /\ P db'.
Proof.
  intros Hstep scans. induction scans as [| [p t] rest IH]; intros db HP.
  - exists db. split; [reflexivity | assumption].
  - cbn [markAll].
    destruct (markAttendance_store tz rf db p t) as [rows [Hs _]].
    destruct (markAttendance tz rf (Some db) p t) as [r s1] eqn:E. cbn [snd] in Hs.
    subst s1.
    destruct (IH _ (Hstep db p t _ HP
                      (eq_trans (f_equal snd E) eq_refl))) as [db' [E' HP']].
    destruct (markAll tz rf _ rest) as [rs s2]. cbn [snd] in *.
    exists db'. split; assumption.
Qed.

(** X1: on a table with at most one row per employee, date and scan
    type and only admitted scan types, any sequence of scans leaves such
    a table; no employee then has more than four rows on a date. *)
Theorem markAll_at_most_four_scans_a_day :
  forall (tz : Z -> Z) (rf : AttendanceRecord -> option string)
         (db : Backend) (scans : list (QrData * Z)),
    attendance_unique db ->
    types_valid db ->
    exists db',
      snd (markAll tz rf (Some db) scans) = Some db'
      /\ attendance_unique db'
      /\ types_valid db'
      /\ (forall e d, (List.length (Query.scans_on db' e d) <= 4)%nat).
Proof.
  intros tz rf db scans Hu Hv.
  destruct (markAll_invariant tz rf (fun b => attendance_unique b /\ types_valid b))
    with (scans := scans) (db := db) as [db' [E [Hu' Hv']]].
  - intros b p t b' [H1 H2] Hs. split.
    + eapply markAttendance_keeps_unique; eauto.
    + eapply markAttendance_keeps_valid; eauto.
  - split; assumption.
  - exists db'. repeat split; try assumption.
    intros e d. now apply day_has_at_most_four.
Qed.

(** Six scans of one employee in a day, from an empty table. *)
Lemma markAll_at_most_four_scans_a_day_witness :
  exists db',
    snd (markAll Sample.utc Sample.accepts (Some (Sample.backend [] []))
           [(Sample.asha, Sample.at_ 9 0); (Sample.asha, Sample.at_ 12 5);
            (Sample.asha, Sample.at_ 13 0); (Sample.asha, Sample.at_ 18 0);
            (Sample.asha, Sample.at_ 18 1); (Sample.asha, Sample.at_ 18 2)]) = Some db'
    /\ attendance_unique db'
    /\ types_valid db'
    /\ (forall e d, (List.length (Query.scans_on db' e d) <= 4)%nat).
Proof.
  apply (markAll_at_most_four_scans_a_day Sample.utc Sample.accepts (Sample.backend [] [])).
  - constructor.
  - constructor.
Defined.

(** X2: on a table where every recorded day of an employee has a
    check-in, and a lunch_in only beside a lunch_out, any sequence of
    scans leaves such a table. *)
Theorem markAll_keeps_day_order :
  forall (tz : Z -> Z) (rf : AttendanceRecord -> option string)
         (db : Backend) (scans : list (QrData * Z)),
    day_ordered db ->
    exists db',
      snd (markAll tz rf (Some db) scans) = Some db'
      /\ forall r, In r (attendance_records db') ->
           let types :=
             map scan_type (Query.scans_on db' (employee_id r) (scanned_date r)) in
           In "check_in" types /\ (scan_type r = "lunch_in" -> In "lunch_out" types).
Proof.
  intros tz rf db scans Ho.
  destruct (markAll_invariant tz rf day_ordered) with (scans := scans) (db := db)
    as [db' [E Ho']].
  - intros b p t b'. apply markAttendance_keeps_order.
  - assumption.
  - exists db'. split; [assumption | exact Ho'].
Qed.

Lemma markAll_keeps_day_order_witness :
  exists db',
    snd (markAll Sample.utc Sample.accepts (Some (Sample.backend [] []))
           [(Sample.asha, Sample.at_ 13 0); (Sample.asha, Sample.at_ 13 1)]) = Some db'
    /\ forall r, In r (attendance_records db') ->
         let types :=
           map scan_type (Query.scans_on db' (employee_id r) (scanned_date r)) in
         In "check_in" types /\ (scan_type r = "lunch_in" -> In "lunch_out" types).
Proof.
  apply (markAll_keeps_day_order Sample.utc Sample.accepts (Sample.backend [] [])).
  intros r [].
Defined.

(** X3: a sequence of scans answers every scan, never touches the leave
    table, keeps every attendance row where it was, and appends one row
    per successful scan. *)
Theorem markAll_appends_successes :
  forall (tz : Z -> Z) (rf : AttendanceRecord -> option string)
         (db : Backend) (scans : list (QrData * Z)),
    exists rows,
      snd (markAll tz rf (Some db) scans)
      = Some {| attendance_records := attendance_records db ++ rows;
                leave_requests := leave_requests db |}
      /\ List.length (fst (markAll tz rf (Some db) scans)) = List.length scans
      /\ List.length rows
         = List.length (filter success (fst (markAll tz rf (Some db) scans)))
      /\ map Some rows
         = map data (filter success (fst (markAll tz rf (Some db) scans))).
Proof.
  intros tz rf db scans. revert db.
  induction scans as [| [p t] rest IH]; intros db.
  - exists []. cbn. rewrite app_nil_r. destruct db; auto.
  - cbn [markAll].
    destruct (markAttendance_outcome tz rf db p t)
      as [[Hf E] | [_ [_ [_ [Hr E]]]]];
      destruct (markAttendance tz rf (Some db) p t) as [r s1]; cbn [fst snd] in *; subst s1.
    + destruct (IH db) as [rows [E' [Hl [Hn Hd]]]].
      destruct (markAll tz rf (Some db) rest) as [rs s2]. cbn [fst snd] in *.
      exists rows. cbn [filter List.length]. rewrite Hf. auto.
    + match goal with
      | |- context [markAll tz rf (Some ?b) rest] =>
          destruct (IH b) as [rows [E' [Hl [Hn Hd]]]];
          destruct (markAll tz rf (Some b) rest) as [rs s2]
      end.
      cbn [fst snd attendance_records leave_requests] in *.
      eexists (_ :: rows). rewrite E', <- app_assoc. cbn [app].
      split; [reflexivity |]. rewrite Hr. cbn [filter success List.length map data].
      rewrite Hl, Hn, Hd. auto.
Qed.

Lemma withRows_nil db : withRows db [] = db.
Proof. unfold withRows. rewrite app_nil_r. now destruct db. Qed.

Lemma filter_rowsOf e day rows :
  rowsOf e day rows ->
  filter (fun r => String.eqb (employee_id r) e && String.eqb (scanned_date r) day) rows
  = rows.
Proof.
  induction 1 as [| r rows [He Hd] _ IH]; simpl; [reflexivity |].
  now rewrite He, Hd, !String.eqb_refl, IH.
Qed.

Lemma scans_on_withRows db rows e day :
  Query.scans_on db e day = [] -> rowsOf e day rows ->
  Query.scans_on (withRows db rows) e day = rows.
Proof.
  intros H0 Hr. unfold withRows. now rewrite scans_on_app, H0, filter_rowsOf.
Qed.

Lemma scans_of_type_withRows db rows e day ty :
  Query.scans_on db e day = [] -> rowsOf e day rows ->
  Query.scans_of_type (withRows db rows) e day ty
  = filter (fun r => String.eqb (scan_type r) ty) rows.
Proof.
  intros H0 Hr.
  assert (E : forall l,
             filter (fun r => String.eqb (employee_id r) e && String.eqb (scanned_date r) day
                              && String.eqb (scan_type r) ty) l
             = filter (fun r => String.eqb (scan_type r) ty)
                 (filter (fun r => String.eqb (employee_id r) e
                                   && String.eqb (scanned_date r) day) l)).
  { induction l as [| a l IH]; simpl; [reflexivity |].
    destruct (String.eqb (employee_id a) e && String.eqb (scanned_date a) day);
      simpl; rewrite IH; reflexivity. }
  unfold Query.scans_of_type. rewrite E.
  change (filter _ (attendance_records (withRows db rows)))
    with (Query.scans_on (withRows db rows) e day).
  now rewrite scans_on_withRows.
Qed.

(** A scan whose classified type is not yet on record for the day is
    stored. *)
Lemma markAttendance_new_type tz rf db rows p t e day :
  employeeId p = e -> Js.toISODate t = day ->
  Query.scans_on db e day = [] -> rowsOf e day rows ->
  Query.single (Query.approved_leave db e day) = None ->
  let d := classify (map scan_type rows) (minutesOfDay tz t) in
  ~ In (scanType d) (map scan_type rows) ->
  rf (storedRow tz p t d) = None ->
  markAttendance tz rf (Some (withRows db rows)) p t
  = ({| success := true; data := Some (storedRow tz p t d); error := None;
        result_scanType := Some (scanType d) |},
     Some (withRows db (rows ++ [storedRow tz p t d])))
  /\ rowsOf e day (rows ++ [storedRow tz p t d]).
Proof.
  intros He Hday H0 Hr Hl d Hnew Hacc. split.
  - assert (Hd : detectScanType tz (Some (withRows db rows)) (employeeId p) t = d).
    { rewrite detectScanType_unsorted, He, Hday, scans_on_withRows; auto. }
    destruct (markAttendance_cases tz rf (withRows db rows) p t)
      as [[lr [El _]] | [[r [_ [Er _]]] | [[message [_ [_ [Em _]]]] | [_ [_ [_ E]]]]]].
    + rewrite He, Hday in El. unfold Query.approved_leave, withRows in El.
      cbn [leave_requests] in El. unfold Query.approved_leave in Hl. congruence.
    + exfalso. rewrite Hd, He, Hday, scans_of_type_withRows in Er by assumption.
      apply Hnew. destruct (filter _ rows) as [| x [| y l]] eqn:Ef; try discriminate.
      assert (Hx : In x (filter (fun r => String.eqb (scan_type r) (scanType d)) rows))
        by (rewrite Ef; now left).
      apply filter_In in Hx. destruct Hx as [Hx Hty]. apply String.eqb_eq in Hty.
      rewrite <- Hty. now apply in_map.
    + rewrite Hd, Hacc in Em. discriminate.
    + rewrite E, Hd. unfold withRows. cbn [attendance_records leave_requests].
      now rewrite <- app_assoc.
  - apply Forall_app. split; [assumption |]. constructor; [| constructor].
    cbn [storedRow employee_id scanned_date]. auto.
Qed.

(** A scan whose classified type has exactly one row on record for the
    day is refused. *)
Lemma markAttendance_repeat tz rf db rows p t e day r :
  employeeId p = e -> Js.toISODate t = day ->
  Query.scans_on db e day = [] -> rowsOf e day rows ->
  Query.single (Query.approved_leave db e day) = None ->
  let d := classify (map scan_type rows) (minutesOfDay tz t) in
  filter (fun x => String.eqb (scan_type x) (scanType d)) rows = [r] ->
  markAttendance tz rf (Some (withRows db rows)) p t
  = (failure (duplicateMessage (scanType d)), Some (withRows db rows)).
Proof.
  intros He Hday H0 Hr Hl d Hone.
  assert (Hd : detectScanType tz (Some (withRows db rows)) (employeeId p) t = d).
  { rewrite detectScanType_unsorted, He, Hday, scans_on_withRows; auto. }
  destruct (markAttendance_cases tz rf (withRows db rows) p t)
    as [[lr [El _]] | [[r' [_ [_ E]]] | [[message [_ [En _]]] | [_ [En _]]]]].
  - rewrite He, Hday in El. unfold Query.approved_leave, withRows in El.
    cbn [leave_requests] in El. unfold Query.approved_leave in Hl. congruence.
  - now rewrite E, Hd.
  - rewrite Hd, He, Hday, scans_of_type_withRows, Hone in En by assumption.
    discriminate.
  - rewrite Hd, He, Hday, scans_of_type_withRows, Hone in En by assumption.
    discriminate.
Qed.

(** Five scans of an employee starting a day with nothing on record,
    the second at or after 12:00 local time. *)
Lemma full_day_run tz rf db e day p1 p2 p3 p4 p5 t1 t2 t3 t4 t5 :
  Forall (fun s => employeeId (fst s) = e /\ Js.toISODate (snd s) = day)
         [(p1, t1); (p2, t2); (p3, t3); (p4, t4); (p5, t5)] ->
  Query.scans_on db e day = [] ->
  Query.single (Query.approved_leave db e day) = None ->
  (forall r, employee_id r = e -> rf r = None) ->
  12 * 60 <= minutesOfDay tz t2 ->
  markAll tz rf (Some db) [(p1, t1); (p2, t2); (p3, t3); (p4, t4); (p5, t5)]
  = ((map stored (fullDayRows tz p1 p2 p3 p4 t1 t2 t3 t4)
      ++ [failure "check out already recorded for today"])%list,
     Some (withRows db (fullDayRows tz p1 p2 p3 p4 t1 t2 t3 t4)))
  /\ rowsOf e day (fullDayRows tz p1 p2 p3 p4 t1 t2 t3 t4).
Proof.
  intros Hall H0 Hl Hacc Hnoon.
  set (res := markAll tz rf (Some db) [(p1, t1); (p2, t2); (p3, t3); (p4, t4); (p5, t5)]).
  apply Forall_cons_iff in Hall. destruct Hall as [[He1 Hd1] Hall].
  apply Forall_cons_iff in Hall. destruct Hall as [[He2 Hd2] Hall].
  apply Forall_cons_iff in Hall. destruct Hall as [[He3 Hd3] Hall].
  apply Forall_cons_iff in Hall. destruct Hall as [[He4 Hd4] Hall].
  apply Forall_cons_iff in Hall. destruct Hall as [[He5 Hd5] _].
  cbn [fst snd] in *.
  assert (Hnoon' : (LUNCH_START <=? minutesOfDay tz t2) = true)
    by (apply Z.leb_le; exact Hnoon).
  assert (Eres : res = markAll tz rf (Some (withRows db []))
                         [(p1, t1); (p2, t2); (p3, t3); (p4, t4); (p5, t5)])
    by (subst res; now rewrite withRows_nil).
  clearbody res. subst res. cbn [markAll].
  (* check_in *)
  destruct (markAttendance_new_type tz rf db [] p1 t1 e day He1 Hd1 H0 (Forall_nil _) Hl)
    as [E1 R1]; [intros [] | now apply Hacc |].
  cbn [map classify rule1 Js.includes existsb negb app] in E1, R1.
  rewrite E1. clear E1. cbn [scanType] in *.
  set (r1 := storedRow tz p1 t1 _) in *.
  (* lunch_out *)
  assert (C2 : classify (map scan_type [r1]) (minutesOfDay tz t2)
               = {| scanType := "lunch_out"; isLate := false; isEarly := false |}).
  { change (map scan_type [r1]) with ["check_in"].
    unfold classify, rule2. rewrite Hnoon'. reflexivity. }
  destruct (markAttendance_new_type tz rf db [r1] p2 t2 e day He2 Hd2 H0 R1 Hl)
    as [E2 R2].
  { rewrite C2. intros [H | []]. discriminate H. }
  { now apply Hacc. }
  rewrite C2 in E2, R2. rewrite E2. clear E2. cbn [app scanType] in *.
  set (r2 := storedRow tz p2 t2 _) in *.
  (* lunch_in *)
  assert (C3 : classify (map scan_type [r1; r2]) (minutesOfDay tz t3)
               = {| scanType := "lunch_in"; isLate := false; isEarly := false |})
    by reflexivity.
  destruct (markAttendance_new_type tz rf db [r1; r2] p3 t3 e day He3 Hd3 H0 R2 Hl)
    as [E3 R3].
  { rewrite C3. intros [H | [H | []]]; discriminate H. }
  { now apply Hacc. }
  rewrite C3 in E3, R3. rewrite E3. clear E3. cbn [app scanType] in *.
  set (r3 := storedRow tz p3 t3 _) in *.
  (* check_out *)
  assert (C4 : classify (map scan_type [r1; r2; r3]) (minutesOfDay tz t4)
               = {| scanType := "check_out"; isLate := false;
                    isEarly := minutesOfDay tz t4 <? EXPECTED_CHECK_OUT |})
    by reflexivity.
  destruct (markAttendance_new_type tz rf db [r1; r2; r3] p4 t4 e day He4 Hd4 H0 R3 Hl)
    as [E4 R4].
  { rewrite C4. intros [H | [H | [H | []]]]; discriminate H. }
  { now apply Hacc. }
  rewrite C4 in E4, R4. rewrite E4. clear E4. cbn [app scanType] in *.
  set (r4 := storedRow tz p4 t4 _) in *.
  (* the fifth scan *)
  assert (C5 : classify (map scan_type [r1; r2; r3; r4]) (minutesOfDay tz t5)
               = {| scanType := "check_out"; isLate := false; isEarly := false |})
    by reflexivity.
  pose proof (markAttendance_repeat tz rf db [r1; r2; r3; r4] p5 t5 e day r4
                He5 Hd5 H0 R4 Hl) as E5.
  rewrite C5 in E5. rewrite E5 by reflexivity.
  split; [reflexivity | exact R4].
Qed.

(** X4: an employee with nothing on record for the day and no approved
    leave found, whose rows the backend accepts, scanning five times on
    that date with the second scan at or after 12:00 local time: the
    scans are stored as check_in, lunch_out, lunch_in and check_out in
    this order, whatever the other scan times, and the fifth is refused
    as a repeated check out. *)
Theorem full_day_of_scans :
  forall (tz : Z -> Z) (rf : AttendanceRecord -> option string) (db : Backend) (e day : string)
         (p1 p2 p3 p4 p5 : QrData) (t1 t2 t3 t4 t5 : Z),
    Forall (fun s => employeeId (fst s) = e /\ Js.toISODate (snd s) = day)
           [(p1, t1); (p2, t2); (p3, t3); (p4, t4); (p5, t5)] ->
    Query.scans_on db e day = [] ->
    Query.single (Query.approved_leave db e day) = None ->
    (forall r, employee_id r = e -> rf r = None) ->
    12 * 60 <= minutesOfDay tz t2 ->
    let res := markAll tz rf (Some db) [(p1, t1); (p2, t2); (p3, t3); (p4, t4); (p5, t5)] in
    map result_scanType (fst res)
    = [Some "check_in"; Some "lunch_out"; Some "lunch_in"; Some "check_out"; None]
    /\ map error (fst res)
       = [None; None; None; None; Some "check out already recorded for today"]
    /\ exists r1 r2 r3 r4,
         snd res = Some (withRows db [r1; r2; r3; r4])
         /\ map scan_type [r1; r2; r3; r4]
            = ["check_in"; "lunch_out"; "lunch_in"; "check_out"]
         /\ map scanned_at [r1; r2; r3; r4] = [t1; t2; t3; t4].
Proof.
  intros tz rf db e day p1 p2 p3 p4 p5 t1 t2 t3 t4 t5 Hall H0 Hl Hacc Hnoon res.
  destruct (full_day_run tz rf db e day p1 p2 p3 p4 p5 t1 t2 t3 t4 t5 Hall H0 Hl Hacc
              Hnoon)
    as [E _].
  subst res. rewrite E. split; [reflexivity |]. split; [reflexivity |].
  unfold fullDayRows. do 4 eexists. split; [reflexivity |]. split; reflexivity.
Qed.

(** Checked in the day before, then five scans on 2025-01-01 from
    09:00 UTC, four of them within minutes after noon. *)
Lemma full_day_of_scans_witness :
  let scans := [(Sample.asha, Sample.at_ 9 0); (Sample.asha, Sample.at_ 12 0);
                (Sample.asha, Sample.at_ 12 1); (Sample.asha, Sample.at_ 12 2);
                (Sample.asha, Sample.at_ 12 3)] in
  let db := Sample.backend [Sample.scan "check_in" (Sample.at_ (-15) 0)] [] in
  let res := markAll Sample.utc Sample.accepts (Some db) scans in
  map result_scanType (fst res)
  = [Some "check_in"; Some "lunch_out"; Some "lunch_in"; Some "check_out"; None]
  /\ map error (fst res)
     = [None; None; None; None; Some "check out already recorded for today"]
  /\ exists r1 r2 r3 r4,
       snd res = Some (withRows db [r1; r2; r3; r4])
       /\ map scan_type [r1; r2; r3; r4]
          = ["check_in"; "lunch_out"; "lunch_in"; "check_out"]
       /\ map scanned_at [r1; r2; r3; r4]
          = [Sample.at_ 9 0; Sample.at_ 12 0; Sample.at_ 12 1; Sample.at_ 12 2].
Proof.
  apply (full_day_of_scans Sample.utc Sample.accepts
           (Sample.backend [Sample.scan "check_in" (Sample.at_ (-15) 0)] [])
           "e-17" "2025-01-01").
  - repeat constructor.
  - reflexivity.
  - reflexivity.
  - reflexivity.
  - vm_compute. discriminate.
Defined.

(** [markAttendance] reads the backend only through the approved leave
    of the employee today and the employee's scans of today. *)
Lemma markAttendance_reads tz rf db1 db2 p t :
  Query.approved_leave db1 (employeeId p) (Js.toISODate t)
  = Query.approved_leave db2 (employeeId p) (Js.toISODate t) ->
  Query.scans_on db1 (employeeId p) (Js.toISODate t)
  = Query.scans_on db2 (employeeId p) (Js.toISODate t) ->
  fst (markAttendance tz rf (Some db1) p t) = fst (markAttendance tz rf (Some db2) p t).
Proof.
  intros Hl Hs.
  assert (Ht : forall ty,
             Query.scans_of_type db1 (employeeId p) (Js.toISODate t) ty
             = Query.scans_of_type db2 (employeeId p) (Js.toISODate t) ty).
  { intros ty. unfold Query.scans_of_type, Query.scans_on in *.
    assert (E : forall l,
               filter (fun r => String.eqb (employee_id r) (employeeId p)
                                && String.eqb (scanned_date r) (Js.toISODate t)
                                && String.eqb (scan_type r) ty) l
               = filter (fun r => String.eqb (scan_type r) ty)
                   (filter (fun r => String.eqb (employee_id r) (employeeId p)
                                     && String.eqb (scanned_date r) (Js.toISODate t)) l)).
    { induction l as [| a l IH]; simpl; [reflexivity |].
      destruct (String.eqb (employee_id a) (employeeId p)
                && String.eqb (scanned_date a) (Js.toISODate t));
        simpl; rewrite IH; reflexivity. }
    now rewrite !E, Hs. }
  unfold markAttendance. cbn [detectScanType]. unfold todayScanTypes.
  rewrite Hl, Hs.
  destruct (Query.single _); [reflexivity |].
  rewrite Ht.
  destruct (Query.single _); [reflexivity |].
  unfold Query.insert. destruct (Query.check_scan_type _); [| reflexivity].
  cbn [negb]. destruct (rf _); reflexivity.
Qed.

(** X5: a scan of another employee, or of the same employee on another
    date, does not change what a scan returns: the answer to B's scan is
    the same after A's scan as before it. *)
Theorem scans_of_others_do_not_interfere :
  forall (tz : Z -> Z) (rf : AttendanceRecord -> option string)
         (db : Backend) (pA pB : QrData) (tA tB : Z),
    employeeId pA <> employeeId pB \/ Js.toISODate tA <> Js.toISODate tB ->
    exists dbA,
      snd (markAttendance tz rf (Some db) pA tA) = Some dbA
      /\ fst (markAttendance tz rf (Some dbA) pB tB)
         = fst (markAttendance tz rf (Some db) pB tB).
Proof.
  intros tz rf db pA pB tA tB Hne.
  destruct (markAttendance_store tz rf db pA tA) as [rows [E [Hnil Hrows]]].
  eexists. split; [exact E |].
  apply markAttendance_reads; [reflexivity |].
  rewrite scans_on_app.
  destruct (success (fst (markAttendance tz rf (Some db) pA tA))).
  - rewrite (Hrows eq_refl). cbn [filter storedRow employee_id scanned_date].
    replace (String.eqb (employeeId pA) (employeeId pB)
             && String.eqb (Js.toISODate tA) (Js.toISODate tB)) with false.
    + apply app_nil_r.
    + symmetry. apply andb_false_iff.
      destruct Hne as [H | H]; [left | right]; now apply String.eqb_neq.
  - rewrite (Hnil eq_refl). apply app_nil_r.
Qed.

(** Asha's first scan of the day does not change the answer to Ravi's. *)
Lemma scans_of_others_do_not_interfere_witness :
  exists dbA,
    snd (markAttendance Sample.utc Sample.accepts (Some (Sample.backend [] [])) Sample.asha
                        (Sample.at_ 9 0)) = Some dbA
    /\ fst (markAttendance Sample.utc Sample.accepts (Some dbA) ravi (Sample.at_ 9 5))
       = fst (markAttendance Sample.utc Sample.accepts (Some (Sample.backend [] [])) ravi
                             (Sample.at_ 9 5)).
Proof.
  apply (scans_of_others_do_not_interfere Sample.utc Sample.accepts (Sample.backend [] [])
           Sample.asha ravi (Sample.at_ 9 0) (Sample.at_ 9 5)).
  left. discriminate.
Defined.

(** X22: a scan that passes the leave gate and the duplicate gate is
    stored exactly when the backend accepts its row. The row's scan type
    is the classifier's, which the table's constraint on scan_type
    always admits; a refused row leaves the backend as it was, and the
    scan fails with the backend's message, or with "Failed to mark
    attendance" when that message is empty; an accepted row is appended
    and returned. *)
Theorem insert_decided_by_backend :
  forall (tz : Z -> Z) (rf : AttendanceRecord -> option string) (db : Backend)
         (p : QrData) (t : Z),
    let d := detectScanType tz (Some db) (employeeId p) t in
    let row := storedRow tz p t d in
    Query.single (Query.approved_leave db (employeeId p) (Js.toISODate t)) = None ->
    Query.single (Query.scans_of_type db (employeeId p) (Js.toISODate t) (scanType d))
    = None ->
    Query.check_scan_type row = true
    /\ (forall message, rf row = Some message ->
          markAttendance tz rf (Some db) p t
          = (failure (if String.eqb message "" then "Failed to mark attendance"
                      else message),
             Some db))
    /\ (rf row = None ->
        markAttendance tz rf (Some db) p t = (stored row, Some (withRows db [row])))
    /\ (success (fst (markAttendance tz rf (Some db) p t)) = true <-> rf row = None).
Proof.
  intros tz rf db p t d row Hl Hn.
  split; [apply storedRow_valid |].
  destruct (markAttendance_cases tz rf db p t)
    as [[lr [El _]] | [[r [_ [Er _]]] | [[message [_ [_ [Em E]]]] | [_ [_ [Em E]]]]]];
    fold d in Er || fold d row in Em, E || idtac.
  - rewrite Hl in El. discriminate.
  - rewrite Hn in Er. discriminate.
  - rewrite E. cbn [fst success failure]. split; [| split].
    + intros message' H. rewrite Em in H. injection H as <-.
      destruct message; reflexivity.
    + intros H. rewrite Em in H. discriminate.
    + split; intros H; [discriminate | rewrite Em in H; discriminate].
  - rewrite E. cbn [fst success]. split; [| split].
    + intros message H. rewrite Em in H. discriminate.
    + intros _. reflexivity.
    + split; auto.
Qed.

(** Ravi is not in the table of employees: his first scan is refused
    with the message of the foreign key. *)
Lemma insert_decided_by_backend_witness :
  let db := Sample.backend [] [] in
  let t := Sample.at_ 9 5 in
  let d := detectScanType Sample.utc (Some db) (employeeId ravi) t in
  let row := storedRow Sample.utc ravi t d in
  Query.check_scan_type row = true
  /\ (forall message, Sample.employees_only row = Some message ->
        markAttendance Sample.utc Sample.employees_only (Some db) ravi t
        = (failure (if String.eqb message "" then "Failed to mark attendance"
                    else message),
           Some db))
  /\ (Sample.employees_only row = None ->
      markAttendance Sample.utc Sample.employees_only (Some db) ravi t
      = (stored row, Some (withRows db [row])))
  /\ (success (fst (markAttendance Sample.utc Sample.employees_only (Some db) ravi t))
      = true
      <-> Sample.employees_only row = None).
Proof.
  apply (insert_decided_by_backend Sample.utc Sample.employees_only (Sample.backend [] [])
           ravi (Sample.at_ 9 5)).
  - reflexivity.
  - reflexivity.
Defined.

(** On that backend Asha's scan is stored and Ravi's is not; neither
    scan is stored on a backend with an empty message of refusal. *)
Example refused_scan :
  let db := Sample.backend [] [] in
  let run rf p := markAttendance Sample.utc rf (Some db) p (Sample.at_ 9 5) in
  success (fst (run Sample.employees_only Sample.asha)) = true
  /\ run Sample.employees_only ravi
     = (failure "row violates foreign key constraint attendance_records_employee_id_fkey",
        Some db)
  /\ run (fun _ => Some "") Sample.asha = (failure "Failed to mark attendance", Some db).
Proof. vm_compute. repeat split. Qed.

(* ===================================================================== *)
(** * Properties of the record listings *)
(* ===================================================================== *)

Lemma insert_newest_first_perm r l :
  Permutation (Listing.insert_newest_first r l) (r :: l).
Proof.
  induction l as [| x l IH]; simpl; [reflexivity |].
  destruct (scanned_at x <=? scanned_at r); [reflexivity |].
  rewrite IH. apply perm_swap.
Qed.

Lemma newest_first_perm l : Permutation (Listing.newest_first l) l.
Proof.
  unfold Listing.newest_first. induction l as [| a l IH]; simpl; [reflexivity |].
  rewrite insert_newest_first_perm. now constructor.
Qed.

Lemma insert_newest_first_sorted r l :
  StronglySorted not_older l ->
  StronglySorted not_older (Listing.insert_newest_first r l).
Proof.
  induction 1 as [| x l Hs IH Hx]; simpl.
  - repeat constructor.
  - destruct (scanned_at x <=? scanned_at r) eqn:E.
    + apply Z.leb_le in E. constructor; [now constructor |].
      constructor; [exact E |].
      rewrite Forall_forall in *. intros y Hy. unfold not_older in *.
      specialize (Hx y Hy). lia.
    + apply Z.leb_gt in E. constructor; [assumption |].
      rewrite Forall_forall in *. intros y Hy.
      apply (Permutation_in _ (insert_newest_first_perm r l)) in Hy.
      destruct Hy as [<- | Hy]; [unfold not_older; lia | now apply Hx].
Qed.

Lemma newest_first_sorted l : StronglySorted not_older (Listing.newest_first l).
Proof.
  unfold Listing.newest_first. induction l as [| a l IH]; simpl.
  - constructor.
  - now apply insert_newest_first_sorted.
Qed.

Lemma sorted_app_le {A} (R : A -> A -> Prop) (l1 l2 : list A) :
  StronglySorted R (l1 ++ l2) ->
  forall x y, In x l1 -> In y l2 -> R x y.
Proof.
  induction l1 as [| a l1 IH]; simpl; intros Hs x y Hx Hy; [contradiction |].
  inversion Hs as [| ? ? Hs' Ha]; subst.
  destruct Hx as [<- | Hx].
  - rewrite Forall_forall in Ha. apply Ha. apply in_or_app. now right.
  - now apply IH.
Qed.

Lemma sorted_firstn {A} (R : A -> A -> Prop) (n : nat) (l : list A) :
  StronglySorted R l -> StronglySorted R (firstn n l).
Proof.
  intros Hs. revert n. induction Hs as [| a l Hs IH Ha]; intros [| n]; simpl;
    try constructor; auto.
  rewrite Forall_forall in *. intros y Hy. apply Ha.
  rewrite <- (firstn_skipn n l). apply in_or_app. now left.
Qed.

(** The first [n] of a list ordered newest first: rows of the list,
    newest first, and no row left out is newer than a row kept. *)
Lemma newest_rows (n : nat) (l : list AttendanceRecord) :
  let rows := firstn n (Listing.newest_first l) in
  List.length rows = Nat.min n (List.length l)
  /\ (forall r, In r rows -> In r l)
  /\ StronglySorted not_older rows
  /\ (forall r y, In r rows -> In y l -> ~ In y rows -> scanned_at y <= scanned_at r).
Proof.
  intros rows. subst rows. repeat split.
  - rewrite length_firstn. now rewrite (Permutation_length (newest_first_perm l)).
  - intros r Hr. apply (Permutation_in _ (newest_first_perm l)).
    rewrite <- (firstn_skipn n (Listing.newest_first l)). apply in_or_app. now left.
  - apply sorted_firstn, newest_first_sorted.
  - intros r y Hr Hy Hout.
    apply (Permutation_in _ (Permutation_sym (newest_first_perm l))) in Hy.
    rewrite <- (firstn_skipn n (Listing.newest_first l)) in Hy.
    apply in_app_or in Hy. destruct Hy as [Hy | Hy]; [contradiction |].
    apply (sorted_app_le not_older (firstn n (Listing.newest_first l))
             (skipn n (Listing.newest_first l))); auto.
    rewrite firstn_skipn. apply newest_first_sorted.
Qed.

(** X6: on a configured backend [getEmployeeAttendance] succeeds with
    rows of the table that all belong to the employee, as many as the
    limit allows (50 when the limit is left out), ordered newest first;
    every row of the employee that is left out was scanned no later than
    every row returned. Without a backend it fails and returns no
    rows. *)
Theorem getEmployeeAttendance_newest_rows :
  forall (db : Backend) (e : string) (limit : option nat),
    let n := match limit with Some k => k | None => 50%nat end in
    let mine := filter (fun r => String.eqb (employee_id r) e) (attendance_records db) in
    exists rows,
      Listing.getEmployeeAttendance (Some db) e limit
      = {| Listing.success := true; Listing.data := Some rows; Listing.error := None |}
      /\ List.length rows = Nat.min n (List.length mine)
      /\ (forall r, In r rows -> In r (attendance_records db) /\ employee_id r = e)
      /\ StronglySorted not_older rows
      /\ (forall r y, In r rows -> In y (attendance_records db) -> employee_id y = e ->
                      ~ In y rows -> scanned_at y <= scanned_at r)
      /\ Listing.success (Listing.getEmployeeAttendance None e limit) = false
      /\ Listing.data (Listing.getEmployeeAttendance None e limit) = None.
Proof.
  intros db e limit n mine.
  destruct (newest_rows n mine) as [Hlen [Hin [Hs Hout]]].
  exists (firstn n (Listing.newest_first mine)).
  split; [reflexivity |]. split; [exact Hlen |]. split; [| split; [exact Hs |]].
  - intros r Hr. apply Hin, filter_In in Hr. destruct Hr as [Hr He].
    apply String.eqb_eq in He. auto.
  - split; [| split; reflexivity].
    intros r y Hr Hy He. apply Hout; [assumption |].
    apply filter_In. split; [assumption |]. now apply String.eqb_eq.
Qed.

(** X7: on a configured backend [getAttendanceRecords] succeeds with
    rows of the table, as many as the limit allows (100 when the limit
    is left out), ordered newest first; every row left out was scanned
    no later than every row returned; with a limit of at least the size
    of the table the rows are those of the table, reordered. *)
Theorem getAttendanceRecords_newest_rows :
  forall (db : Backend) (limit : option nat),
    let n := match limit with Some k => k | None => 100%nat end in
    exists rows,
      Listing.getAttendanceRecords (Some db) limit
      = {| Listing.success := true; Listing.data := Some rows; Listing.error := None |}
      /\ List.length rows = Nat.min n (List.length (attendance_records db))
      /\ (forall r, In r rows -> In r (attendance_records db))
      /\ StronglySorted not_older rows
      /\ (forall r y, In r rows -> In y (attendance_records db) ->
                      ~ In y rows -> scanned_at y <= scanned_at r)
      /\ ((List.length (attendance_records db) <= n)%nat ->
          Permutation rows (attendance_records db)).
Proof.
  intros db limit n.
  destruct (newest_rows n (attendance_records db)) as [Hlen [Hin [Hs Hout]]].
  exists (firstn n (Listing.newest_first (attendance_records db))).
  split; [reflexivity |]. repeat split; auto.
  intros Hall. rewrite firstn_all2; [apply newest_first_perm |].
  now rewrite (Permutation_length (newest_first_perm _)).
Qed.

(* ===================================================================== *)
(** * Properties of the admin day view *)
(* ===================================================================== *)

Lemma insert_by_scanned_at_first r l :
  Forall (not_newer r) l -> Query.insert_by_scanned_at r l = r :: l.
Proof.
  destruct l as [| x l]; simpl; [reflexivity |].
  intros H. inversion H as [| ? ? Hx _]; subst.
  unfold not_newer in Hx. apply Z.leb_le in Hx. now rewrite Hx.
Qed.

(** Selecting rows commutes with ordering them. *)
Lemma filter_insert_by_scanned_at (f : AttendanceRecord -> bool) r l :
  StronglySorted not_newer l ->
  filter f (Query.insert_by_scanned_at r l)
  = if f r then Query.insert_by_scanned_at r (filter f l) else filter f l.
Proof.
  induction 1 as [| x l Hs IH Hx]; simpl.
  - destruct (f r); reflexivity.
  - destruct (scanned_at r <=? scanned_at x) eqn:E.
    + cbn [filter]. destruct (f r); [| reflexivity].
      symmetry. apply insert_by_scanned_at_first.
      apply Z.leb_le in E. rewrite Forall_forall in *. intros y Hy.
      assert (Hy' : In y (x :: l)).
      { destruct (f x); [destruct Hy as [<- | Hy]; [now left | right] | right];
          apply filter_In in Hy; tauto. }
      destruct Hy' as [<- | Hy']; [exact E |].
      specialize (Hx y Hy'). unfold not_newer in *. lia.
    + cbn [filter]. rewrite IH. destruct (f x), (f r); try reflexivity.
      simpl. now rewrite E.
Qed.

Lemma filter_order_by_scanned_at (f : AttendanceRecord -> bool) l :
  filter f (Query.order_by_scanned_at l) = Query.order_by_scanned_at (filter f l).
Proof.
  unfold Query.order_by_scanned_at. induction l as [| a l IH]; simpl; [reflexivity |].
  rewrite filter_insert_by_scanned_at by apply order_by_scanned_at_sorted.
  rewrite IH. destruct (f a); reflexivity.
Qed.

Lemma filter_filter_and {A} (f g : A -> bool) (l : list A) :
  filter f (filter g l) = filter (fun x => f x && g x) l.
Proof.
  induction l as [| a l IH]; simpl; [reflexivity |].
  destruct (g a); simpl; rewrite ?andb_true_r, ?andb_false_r;
    [destruct (f a) |]; now rewrite IH.
Qed.

(** An employee's part of the day's records is the query of the daily
    summary. *)
Lemma recordsOn_of_employee db d e :
  filter (fun r => String.eqb (employee_id r) e) (Admin.recordsOn db d)
  = Query.order_by_scanned_at (Query.scans_on db e d).
Proof.
  unfold Admin.recordsOn, Query.scans_on.
  now rewrite filter_order_by_scanned_at, filter_filter_and.
Qed.

Lemma push_ids m r id :
  In id (map Admin.employeeId (Admin.push m r))
  <-> id = employee_id r \/ In id (map Admin.employeeId m).
Proof.
  induction m as [| g m IH]; simpl.
  - intuition.
  - destruct (String.eqb (Admin.employeeId g) (employee_id r)) eqn:E; simpl.
    + apply String.eqb_eq in E. intuition congruence.
    + rewrite IH. intuition.
Qed.

Lemma push_NoDup m r :
  NoDup (map Admin.employeeId m) -> NoDup (map Admin.employeeId (Admin.push m r)).
Proof.
  induction m as [| g m IH]; simpl; intros Hnd.
  - repeat constructor. intros [].
  - inversion Hnd as [| ? ? Hg Hnd']; subst.
    destruct (String.eqb (Admin.employeeId g) (employee_id r)) eqn:E; simpl.
    + now constructor.
    + constructor; [| now apply IH].
      rewrite push_ids. intros [H | H]; [| contradiction].
      apply String.eqb_neq in E. congruence.
Qed.

(** Where an entry of the map comes from after one more record. *)
Lemma push_In m r g' :
  NoDup (map Admin.employeeId m) ->
  In g' (Admin.push m r) ->
  (In g' m /\ Admin.employeeId g' <> employee_id r)
  \/ (exists g, In g m /\ Admin.employeeId g = employee_id r
                /\ g' = {| Admin.employeeId := Admin.employeeId g;
                           Admin.employeeName := Admin.employeeName g;
                           Admin.department := Admin.department g;
                           Admin.role := Admin.role g;
                           Admin.scans := Admin.scans g ++ [r] |})
  \/ (~ In (employee_id r) (map Admin.employeeId m)
      /\ g' = {| Admin.employeeId := employee_id r;
                 Admin.employeeName := employee_name r;
                 Admin.department := rec_department r;
                 Admin.role := employee_role r;
                 Admin.scans := [r] |}).
Proof.
  induction m as [| g m IH]; simpl; intros Hnd Hin.
  - destruct Hin as [<- | []]. right. right. split; [intros [] | reflexivity].
  - inversion Hnd as [| ? ? Hg Hnd']; subst.
    destruct (String.eqb (Admin.employeeId g) (employee_id r)) eqn:E.
    + apply String.eqb_eq in E. destruct Hin as [<- | Hin].
      * right. left. exists g. auto.
      * left. split; [now right |]. intros Hid. apply Hg.
        rewrite E, <- Hid. now apply in_map.
    + apply String.eqb_neq in E. destruct Hin as [<- | Hin].
      * left. auto.
      * destruct (IH Hnd' Hin) as [[H1 H2] | [[g0 [H1 [H2 H3]]] | [H1 H2]]].
        -- left. auto.
        -- right. left. exists g0. auto.
        -- right. right. split; [| assumption]. intros [H | H]; auto.
Qed.

Lemma push_grouped seen m r :
  grouped seen m -> grouped (seen ++ [r]) (Admin.push m r).
Proof.
  intros [Hnd [Hg Hall]]. split; [now apply push_NoDup |]. split.
  - intros g' Hin. rewrite filter_app. cbn [filter].
    destruct (push_In m r g' Hnd Hin) as [[H1 H2] | [[g [H1 [H2 ->]]] | [H1 ->]]].
    + destruct (Hg g' H1) as [Hs Hf].
      replace (String.eqb (employee_id r) (Admin.employeeId g')) with false
        by (symmetry; apply String.eqb_neq; congruence).
      rewrite app_nil_r. auto.
    + destruct (Hg g H1) as [Hs [first [rest [Hf Hcols]]]]. cbn.
      rewrite H2, String.eqb_refl, <- H2, Hs. split; [reflexivity |].
      exists first, (rest ++ [r])%list. rewrite <- Hs, Hf. auto.
    + cbn. rewrite String.eqb_refl. split.
      * replace (filter _ seen) with (@nil AttendanceRecord); [reflexivity |].
        symmetry. destruct (filter _ seen) as [| y l] eqn:Ef; [reflexivity |].
        exfalso. apply H1.
        assert (Hy : In y (filter (fun r0 => String.eqb (employee_id r0) (employee_id r))
                                  seen)) by (rewrite Ef; now left).
        apply filter_In in Hy. destruct Hy as [Hy He]. apply String.eqb_eq in He.
        rewrite <- He. now apply Hall.
      * exists r, []. auto.
  - intros r' Hr'. rewrite push_ids. apply in_app_or in Hr'.
    destruct Hr' as [Hr' | [<- | []]]; auto.
Qed.

Lemma groupByEmployee_grouped records : grouped records (Admin.groupByEmployee records).
Proof.
  unfold Admin.groupByEmployee.
  assert (H : forall rest seen m, grouped seen m ->
                grouped (seen ++ rest) (fold_left Admin.push rest m)).
  { induction rest as [| r rest IH]; intros seen m Hg; simpl.
    - now rewrite app_nil_r.
    - replace (seen ++ r :: rest)%list with ((seen ++ [r]) ++ rest)%list
        by (now rewrite <- app_assoc).
      apply IH. now apply push_grouped. }
  apply (H records [] []).
  split; [constructor | split; [intros g [] | intros r []]].
Qed.

Lemma groups_of_day db day g :
  In g (Admin.groupByEmployee (Admin.recordsOn db day)) ->
  Admin.scans g
  = Query.order_by_scanned_at (Query.scans_on db (Admin.employeeId g) day)
  /\ exists first rest,
       Admin.scans g = first :: rest
       /\ Admin.employeeName g = employee_name first
       /\ Admin.department g = rec_department first
       /\ Admin.role g = employee_role first.
Proof.
  intros Hin.
  destruct (groupByEmployee_grouped (Admin.recordsOn db day)) as [_ [Hg _]].
  destruct (Hg g Hin) as [Hs Hf]. split; [| exact Hf].
  rewrite Hs. apply recordsOn_of_employee.
Qed.

(** X8: the admin day view has exactly one entry for each employee with
    a record on the date and none for the others; the entry holds that
    employee's scans of the date in ascending order of scanned_at, and
    shows the name, department and role of the earliest of them. *)
Theorem admin_view_one_entry_per_employee :
  forall (db : Backend) (date : Z),
    let day := Js.toISODate date in
    exists employees,
      Admin.getAllEmployeesAttendance (Some db) date
      = {| Admin.success := true; Admin.data := Some employees; Admin.error := None |}
      /\ NoDup (map (fun e => Admin.employeeId (Admin.group e)) employees)
      /\ (forall id,
            In id (map (fun e => Admin.employeeId (Admin.group e)) employees)
            <-> exists r, In r (attendance_records db)
                          /\ scanned_date r = day /\ employee_id r = id)
      /\ (forall e, In e employees ->
            let g := Admin.group e in
            Admin.scans g
            = Query.order_by_scanned_at (Query.scans_on db (Admin.employeeId g) day)
            /\ StronglySorted not_newer (Admin.scans g)
            /\ exists first rest,
                 Admin.scans g = first :: rest
                 /\ Admin.employeeName g = employee_name first
                 /\ Admin.department g = rec_department first
                 /\ Admin.role g = employee_role first).
Proof.
  intros db date day.
  set (G := Admin.groupByEmployee (Admin.recordsOn db day)).
  exists (map Admin.summarize G). split; [reflexivity |].
  assert (Eids : map (fun e => Admin.employeeId (Admin.group e)) (map Admin.summarize G)
                 = map Admin.employeeId G) by (rewrite map_map; reflexivity).
  rewrite Eids.
  destruct (groupByEmployee_grouped (Admin.recordsOn db day)) as [Hnd [Hg Hall]].
  fold G in Hnd, Hg, Hall.
  split; [exact Hnd |]. split.
  - intros id. split.
    + intros Hid. apply in_map_iff in Hid. destruct Hid as [g [<- Hin]].
      destruct (Hg g Hin) as [Hs [first [rest [Hf _]]]].
      assert (H1 : In first (Admin.scans g)) by (rewrite Hf; now left).
      rewrite Hs in H1. apply filter_In in H1. destruct H1 as [H1 He].
      apply String.eqb_eq in He. unfold Admin.recordsOn in H1.
      apply order_by_scanned_at_In, filter_In in H1. destruct H1 as [H1 Hd].
      apply String.eqb_eq in Hd. exists first. auto.
    + intros [r [Hr [Hd <-]]]. apply Hall. unfold Admin.recordsOn.
      apply order_by_scanned_at_In, filter_In. split; [assumption |].
      now apply String.eqb_eq.
  - intros e He g. apply in_map_iff in He. destruct He as [g0 [<- Hin]].
    subst g. cbn [Admin.summarize Admin.group].
    destruct (groups_of_day db day g0 Hin) as [Hs Hf].
    split; [exact Hs |]. split; [| exact Hf].
    rewrite Hs. apply order_by_scanned_at_sorted.
Qed.

(** X9: every entry of the admin day view agrees with the daily summary
    of its employee for the same date: the same four records, the same
    totalHours, and the same isComplete, isLate and isEarlyDeparture. *)
Theorem admin_view_agrees_with_daily_summary :
  forall (db : Backend) (date : Z),
    exists employees,
      Admin.getAllEmployeesAttendance (Some db) date
      = {| Admin.success := true; Admin.data := Some employees; Admin.error := None |}
      /\ forall e, In e employees ->
           exists s,
             Reports.getDailySummary (Some db) (Admin.employeeId (Admin.group e)) date
             = {| Reports.success := true; Reports.data := Some s;
                  Reports.error := None |}
             /\ Reports.checkIn s = Admin.checkIn e
             /\ Reports.lunchOut s = Admin.lunchOut e
             /\ Reports.lunchIn s = Admin.lunchIn e
             /\ Reports.checkOut s = Admin.checkOut e
             /\ Reports.totalHours s = Admin.totalHours e
             /\ Reports.isComplete s = Admin.isComplete e
             /\ Reports.isLate s = Admin.isLate e
             /\ Reports.isEarlyDeparture s = Admin.isEarlyDeparture e.
Proof.
  intros db date.
  exists (map Admin.summarize
            (Admin.groupByEmployee (Admin.recordsOn db (Js.toISODate date)))).
  split; [reflexivity |].
  intros e He. apply in_map_iff in He. destruct He as [g [<- Hin]].
  destruct (groups_of_day db (Js.toISODate date) g Hin) as [Hs _].
  unfold Reports.getDailySummary. cbn [Admin.summarize Admin.group].
  rewrite <- Hs. unfold Reports.workingHours, Admin.summarize.
  destruct (Js.find (Reports.ofType "check_in") (Admin.scans g));
    destruct (Js.find (Reports.ofType "check_out") (Admin.scans g));
    destruct (Js.find (Reports.ofType "lunch_out") (Admin.scans g));
    destruct (Js.find (Reports.ofType "lunch_in") (Admin.scans g));
    eexists; (split; [reflexivity |]); repeat split; reflexivity.
Qed.

(* ===================================================================== *)
(** * Properties of the scan handler *)
(* ===================================================================== *)

Lemma markAttendance_failure_keeps_backend tz rf supabase p t :
  success (fst (markAttendance tz rf supabase p t)) = false ->
  snd (markAttendance tz rf supabase p t) = supabase.
Proof.
  destruct supabase as [db |]; [| reflexivity].
  intros Hf. destruct (markAttendance_outcome tz rf db p t) as [[_ E] | [_ [_ [_ [Hs _]]]]].
  - exact E.
  - rewrite Hs in Hf. discriminate.
Qed.

Lemma validated_is_object qrData :
  Scanner.validateQrDataStructure qrData = true ->
  exists m, qrData = Scanner.JObject m
            /\ Scanner.present (Scanner.m_employeeId m) = true
            /\ Scanner.present (Scanner.m_firstName m) = true
            /\ Scanner.present (Scanner.m_lastName m) = true
            /\ Scanner.present (Scanner.m_role m) = true
            /\ Scanner.present (Scanner.m_checkInTime m) = true
            /\ Scanner.present (Scanner.m_signature m) = true.
Proof.
  destruct qrData as [| | | m]; try discriminate. cbn [Scanner.validateQrDataStructure].
  rewrite !andb_true_iff. intros [[[[[H1 H2] H3] H4] H5] H6]. exists m. auto 10.
Qed.

(** The ways through the handler. *)
Lemma handleScanSuccess_cases tz rf hmac key parseDate decode supabase text now scanTime :
  let res := Scanner.handleScanSuccess tz rf hmac key parseDate decode supabase text
                                       now scanTime in
  (exists message, res = (Scanner.Failed message, supabase))
  \/ (exists m result,
        decode text = Some (Scanner.JObject m)
        /\ Scanner.validateQrDataStructure (Scanner.JObject m) = true
        /\ Signature.verifyQrSignature hmac key (Scanner.payload m) = true
        /\ Signature.isTimestampFresh parseDate now (checkInTime (Scanner.payload m)) = true
        /\ markAttendance tz rf supabase (Scanner.payload m) scanTime = (result, snd res)
        /\ success result = true
        /\ fst res = Scanner.Marked result).
Proof.
  intros res. subst res. unfold Scanner.handleScanSuccess.
  destruct (decode text) as [qrData |]; [| left; eauto].
  destruct (Scanner.validateQrDataStructure qrData) eqn:Ev; cbn [negb]; [| left; eauto].
  destruct (validated_is_object qrData Ev) as [m [-> _]]. cbn [Scanner.members].
  destruct (Signature.verifyQrSignature hmac key (Scanner.payload m)) eqn:Es;
    cbn [negb]; [| left; eauto].
  destruct (Signature.isTimestampFresh parseDate now (checkInTime (Scanner.payload m)))
    eqn:Ef; cbn [negb]; [| left; eauto].
  pose proof (markAttendance_failure_keeps_backend tz rf supabase (Scanner.payload m) scanTime)
    as Hkeep.
  destruct (markAttendance tz rf supabase (Scanner.payload m) scanTime) as [result s'] eqn:Em.
  cbn [fst snd] in Hkeep.
  destruct (success result) eqn:Eok.
  - right. exists m, result. cbn [fst snd]. auto 10.
  - left. rewrite (Hkeep eq_refl). eauto.
Qed.

(** X10: the handler calls [onScanSuccess] only for a text that decodes
    to an object with all six required members present and not empty,
    whose signature verifies and whose timestamp is fresh, and then with
    the successful result of [markAttendance] on that payload; whenever
    it reports an error instead, the backend is left as it was. *)
Theorem handler_writes_only_checked_payloads :
  forall (tz : Z -> Z) (rf : AttendanceRecord -> option string)
         (hmac : string -> string -> list Byte.byte) (key : option string)
         (parseDate : string -> option Z) (decode : string -> option Scanner.Json)
         (supabase : option Backend) (text : string) (now scanTime : Z),
    let res := Scanner.handleScanSuccess tz rf hmac key parseDate decode supabase text
                                         now scanTime in
    (forall result, fst res = Scanner.Marked result ->
       exists m,
         decode text = Some (Scanner.JObject m)
         /\ (exists id first last role time sig,
               Scanner.m_employeeId m = Some id /\ id <> ""
               /\ Scanner.m_firstName m = Some first /\ first <> ""
               /\ Scanner.m_lastName m = Some last /\ last <> ""
               /\ Scanner.m_role m = Some role /\ role <> ""
               /\ Scanner.m_checkInTime m = Some time /\ time <> ""
               /\ Scanner.m_signature m = Some sig /\ sig <> "")
         /\ Signature.verifyQrSignature hmac key (Scanner.payload m) = true
         /\ Signature.isTimestampFresh parseDate now (checkInTime (Scanner.payload m)) = true
         /\ markAttendance tz rf supabase (Scanner.payload m) scanTime = (result, snd res)
         /\ success result = true)
    /\ (forall message, fst res = Scanner.Failed message -> snd res = supabase).
Proof.
  intros tz rf hmac key parseDate decode supabase text now scanTime res.
  assert (Hp : forall x, Scanner.present x = true -> exists v, x = Some v /\ v <> "").
  { intros [[| c v] |] H; try discriminate. eexists. split; [reflexivity | discriminate]. }
  destruct (handleScanSuccess_cases tz rf hmac key parseDate decode supabase text now scanTime)
    as [[message E] | [m [result [Hd [Hv [Hs [Hf [Hm [Hok Hres]]]]]]]]];
    fold res in E || fold res in Hm, Hres.
  - rewrite E. cbn [fst snd]. split; [intros result H; discriminate | reflexivity].
  - split.
    + intros result' H. rewrite Hres in H. injection H as <-.
      exists m. split; [exact Hd |]. split; [| auto].
      destruct (validated_is_object _ Hv) as [m' [Em [H1 [H2 [H3 [H4 [H5 H6]]]]]]].
      injection Em as <-.
      destruct (Hp _ H1) as [v1 [? ?]], (Hp _ H2) as [v2 [? ?]], (Hp _ H3) as [v3 [? ?]],
        (Hp _ H4) as [v4 [? ?]], (Hp _ H5) as [v5 [? ?]], (Hp _ H6) as [v6 [? ?]].
      exists v1, v2, v3, v4, v5, v6. auto 15.
    + intros message H. rewrite Hres in H. discriminate.
Qed.

Lemma handleScanSuccess_keeps_verified tz rf hmac key parseDate decode db text now scanTime :
  Scanner.verified_rows hmac key db ->
  exists db',
    snd (Scanner.handleScanSuccess tz rf hmac key parseDate decode (Some db) text
                                   now scanTime) = Some db'
    /\ Scanner.verified_rows hmac key db'.
Proof.
  intros Hv.
  destruct (handleScanSuccess_cases tz rf hmac key parseDate decode (Some db) text
              now scanTime)
    as [[message E] | [m [result [_ [_ [Hs [_ [Hm [Hok _]]]]]]]]].
  - rewrite E. exists db. split; [reflexivity | assumption].
  - apply (f_equal snd) in Hm. cbn [snd] in Hm. rewrite <- Hm.
    destruct (markAttendance_outcome tz rf db (Scanner.payload m) scanTime)
      as [[_ E] | [_ [_ [_ [_ E]]]]]; rewrite E; eexists; (split; [reflexivity |]).
    + assumption.
    + unfold Scanner.verified_rows. cbn [attendance_records].
      apply Forall_app. split; [exact Hv |].
      constructor; [| constructor]. cbn [storedRow signature_verified qr_data]. auto.
Qed.

(** X11: if every stored row is flagged verified and carries a payload
    whose signature verifies, the same holds after the handler has dealt
    with any sequence of QR texts. *)
Theorem handler_keeps_rows_verified :
  forall (tz : Z -> Z) (rf : AttendanceRecord -> option string)
         (hmac : string -> string -> list Byte.byte) (key : option string)
         (parseDate : string -> option Z) (decode : string -> option Scanner.Json)
         (db : Backend) (scans : list (string * Z * Z)),
    Scanner.verified_rows hmac key db ->
    exists db',
      snd (Scanner.handleAll tz rf hmac key parseDate decode (Some db) scans) = Some db'
      /\ Forall (fun r => signature_verified r = true
                          /\ Signature.verifyQrSignature hmac key (qr_data r) = true)
                (attendance_records db').
Proof.
  intros tz rf hmac key parseDate decode db scans. revert db.
  induction scans as [| [[text now] scanTime] rest IH]; intros db Hv.
  - exists db. split; [reflexivity | exact Hv].
  - cbn [Scanner.handleAll].
    destruct (handleScanSuccess_keeps_verified tz rf hmac key parseDate decode db text
                now scanTime Hv) as [db1 [E1 Hv1]].
    destruct (Scanner.handleScanSuccess tz rf hmac key parseDate decode (Some db) text
                now scanTime) as [o s1].
    cbn [snd] in E1. subst s1.
    destruct (IH db1 Hv1) as [db' [E' Hv']].
    destruct (Scanner.handleAll tz rf hmac key parseDate decode (Some db1) rest) as [os s2].
    cbn [snd] in *. exists db'. split; assumption.
Qed.

(** Two scans of Asha's code within a minute of its issue, into an
    empty table. *)
Lemma handler_keeps_rows_verified_witness :
  exists db',
    snd (Scanner.handleAll Sample.utc Sample.accepts SampleScanner.hmac None SampleScanner.parseDate
           SampleScanner.decode (Some (Sample.backend [] []))
           [("qr", Sample.at_ 9 0 + 30000, Sample.at_ 9 0 + 30100);
            ("qr", Sample.at_ 9 0 + 40000, Sample.at_ 9 0 + 40100)]) = Some db'
    /\ Forall (fun r => signature_verified r = true
                        /\ Signature.verifyQrSignature SampleScanner.hmac None (qr_data r)
                           = true)
              (attendance_records db').
Proof.
  apply (handler_keeps_rows_verified Sample.utc Sample.accepts SampleScanner.hmac None
           SampleScanner.parseDate SampleScanner.decode (Sample.backend [] [])).
  constructor.
Defined.

(** The same code scanned at 09:00:30, 09:00:40 and 09:01:01 UTC. *)
Example sample_scanner_run :
  map (fun o => match o with
                | Scanner.Marked r => result_scanType r
                | Scanner.Failed m => Some m
                end)
      (fst (Scanner.handleAll Sample.utc Sample.accepts SampleScanner.hmac None
              SampleScanner.parseDate SampleScanner.decode (Some (Sample.backend [] []))
              [("qr", Sample.at_ 9 0 + 30000, Sample.at_ 9 0 + 30100);
               ("qr", Sample.at_ 9 0 + 40000, Sample.at_ 9 0 + 40100);
               ("qr", Sample.at_ 9 0 + 61000, Sample.at_ 9 0 + 61100)]))
  = [Some "check_in"; Some "check_out";
     Some "QR code expired. Please generate a new one."].
Proof. vm_compute. reflexivity. Qed.

(** X12: the handler keeps no memory of the codes it has seen. A code
    that decodes to a valid, correctly signed payload and is still fresh
    at both scans, from an employee with nothing on record for the day,
    no approved leave found and whose rows the backend accepts, scanned
    twice on that date with the second scan before 12:00 local time, is
    stored twice: as a check_in and then as a check_out, both rows
    carrying the same payload. *)
Theorem fresh_code_scanned_twice_is_stored_twice :
  forall (tz : Z -> Z) (rf : AttendanceRecord -> option string)
         (hmac : string -> string -> list Byte.byte) (key : option string)
         (parseDate : string -> option Z) (decode : string -> option Scanner.Json)
         (db : Backend) (text : string) (m : Scanner.Members)
         (now1 t1 now2 t2 : Z) (day : string),
    decode text = Some (Scanner.JObject m) ->
    Scanner.validateQrDataStructure (Scanner.JObject m) = true ->
    Signature.verifyQrSignature hmac key (Scanner.payload m) = true ->
    Signature.isTimestampFresh parseDate now1 (checkInTime (Scanner.payload m)) = true ->
    Signature.isTimestampFresh parseDate now2 (checkInTime (Scanner.payload m)) = true ->
    Js.toISODate t1 = day /\ Js.toISODate t2 = day ->
    Query.scans_on db (employeeId (Scanner.payload m)) day = [] ->
    Query.single (Query.approved_leave db (employeeId (Scanner.payload m)) day) = None ->
    (forall r, employee_id r = employeeId (Scanner.payload m) -> rf r = None) ->
    minutesOfDay tz t2 < 12 * 60 ->
    exists r1 r2 o1 o2,
      Scanner.handleAll tz rf hmac key parseDate decode (Some db)
                        [(text, now1, t1); (text, now2, t2)]
      = ([Scanner.Marked o1; Scanner.Marked o2], Some (withRows db [r1; r2]))
      /\ data o1 = Some r1 /\ data o2 = Some r2
      /\ scan_type r1 = "check_in" /\ scan_type r2 = "check_out"
      /\ qr_data r1 = Scanner.payload m /\ qr_data r2 = Scanner.payload m.
Proof.
  intros tz rf hmac key parseDate decode db text m now1 t1 now2 t2 day
         Hd Hv Hs Hf1 Hf2 [Hd1 Hd2] H0 Hl Hacc Hnoon.
  set (p := Scanner.payload m) in *.
  destruct (markAttendance_new_type tz rf db [] p t1 (employeeId p) day
              eq_refl Hd1 H0 (Forall_nil _) Hl) as [E1 R1];
    [intros [] | now apply Hacc |].
  cbn [map classify rule1 Js.includes existsb negb app scanType] in E1, R1.
  set (r1 := storedRow tz p t1 _) in *.
  assert (C2 : classify (map scan_type [r1]) (minutesOfDay tz t2)
               = {| scanType := "check_out"; isLate := false; isEarly := false |}).
  { change (map scan_type [r1]) with ["check_in"].
    unfold classify, rule2.
    replace (LUNCH_START <=? minutesOfDay tz t2) with false
      by (symmetry; apply Z.leb_gt; exact Hnoon).
    reflexivity. }
  destruct (markAttendance_new_type tz rf db [r1] p t2 (employeeId p) day
              eq_refl Hd2 H0 R1 Hl) as [E2 R2].
  { rewrite C2. intros [H | []]. discriminate H. }
  { now apply Hacc. }
  rewrite C2 in E2. cbn [app scanType] in E2.
  set (r2 := storedRow tz p t2 _) in *.
  exists r1, r2. do 2 eexists.
  cbn [Scanner.handleAll]. unfold Scanner.handleScanSuccess.
  rewrite Hd, Hv. cbn [negb Scanner.members]. fold p.
  rewrite Hs, Hf1, Hf2. cbn [negb].
  rewrite <- (withRows_nil db) at 1. rewrite E1. cbn [success].
  rewrite E2. cbn [success].
  split; [reflexivity |]. repeat split.
Qed.

Lemma fresh_code_scanned_twice_is_stored_twice_witness :
  exists r1 r2 o1 o2,
    Scanner.handleAll Sample.utc Sample.accepts SampleScanner.hmac None SampleScanner.parseDate
      SampleScanner.decode (Some (Sample.backend [] []))
      [("qr", Sample.at_ 9 0 + 30000, Sample.at_ 9 0 + 30100);
       ("qr", Sample.at_ 9 0 + 40000, Sample.at_ 9 0 + 40100)]
    = ([Scanner.Marked o1; Scanner.Marked o2],
       Some (withRows (Sample.backend [] []) [r1; r2]))
    /\ data o1 = Some r1 /\ data o2 = Some r2
    /\ scan_type r1 = "check_in" /\ scan_type r2 = "check_out"
    /\ qr_data r1 = Scanner.payload (Scanner.members (Scanner.JObject
         {| Scanner.m_employeeId := Some "e-17";
            Scanner.m_firstName := Some "Asha";
            Scanner.m_lastName := Some "Rao";
            Scanner.m_role := Some "engineer";
            Scanner.m_department := Some "platform";
            Scanner.m_checkInTime := Some "2025-01-01T09:00:00.000Z";
            Scanner.m_signature := Some "00ff" |}))
    /\ qr_data r2 = Scanner.payload (Scanner.members (Scanner.JObject
         {| Scanner.m_employeeId := Some "e-17";
            Scanner.m_firstName := Some "Asha";
            Scanner.m_lastName := Some "Rao";
            Scanner.m_role := Some "engineer";
            Scanner.m_department := Some "platform";
            Scanner.m_checkInTime := Some "2025-01-01T09:00:00.000Z";
            Scanner.m_signature := Some "00ff" |})).
Proof.
  apply (fresh_code_scanned_twice_is_stored_twice Sample.utc Sample.accepts SampleScanner.hmac None
           SampleScanner.parseDate SampleScanner.decode (Sample.backend [] []) "qr"
           _ (Sample.at_ 9 0 + 30000) (Sample.at_ 9 0 + 30100)
           (Sample.at_ 9 0 + 40000) (Sample.at_ 9 0 + 40100) "2025-01-01").
  - reflexivity.
  - reflexivity.
  - reflexivity.
  - reflexivity.
  - reflexivity.
  - split; reflexivity.
  - reflexivity.
  - reflexivity.
  - reflexivity.
  - vm_compute. reflexivity.
Defined.

(* ===================================================================== *)
(** * Properties of the leave requests *)
(* ===================================================================== *)

Lemma requested_false_not_In db e d :
  Leave.requested db e d = false -> ~ In (e, d) (map leave_key (leave_requests db)).
Proof.
  unfold Leave.requested. intros Hr Hin. apply in_map_iff in Hin.
  destruct Hin as [l [Hk Hl]]. unfold leave_key in Hk. injection Hk as He Hd.
  assert (Ht : existsb (fun l => String.eqb (leave_employee_id l) e
                                 && String.eqb (leave_date l) d) (leave_requests db)
               = true).
  { apply existsb_exists. exists l. split; [assumption |].
    now rewrite He, Hd, !String.eqb_refl. }
  congruence.
Qed.

Lemma set_nth_map {A B} (f : A -> B) (n : nat) (x old : A) (l : list A) :
  nth_error l n = Some old -> f x = f old ->
  map f (Leave.set_nth n x l) = map f l.
Proof.
  revert n. induction l as [| a l IH]; intros [| n]; simpl; try discriminate.
  - intros H E. injection H as ->. now rewrite E.
  - intros H E. now rewrite (IH n H E).
Qed.

Lemma set_nth_In {A} (n : nat) (x old : A) (l : list A) :
  nth_error l n = Some old -> In x (Leave.set_nth n x l).
Proof.
  revert n. induction l as [| a l IH]; intros [| n]; simpl; try discriminate.
  - intros _. now left.
  - intros H. right. now apply IH.
Qed.

Lemma unique_key_same_row {A K} (key : A -> K) (l : list A) (x y : A) :
  NoDup (map key l) -> In x l -> In y l -> key x = key y -> x = y.
Proof.
  induction l as [| a l IH]; simpl; intros Hnd Hx Hy Hk; [contradiction |].
  inversion Hnd as [| ? ? Ha Hnd']; subst.
  destruct Hx as [-> | Hx], Hy as [-> | Hy]; auto.
  - exfalso. apply Ha. rewrite Hk. now apply in_map.
  - exfalso. apply Ha. rewrite <- Hk. now apply in_map.
Qed.

(** What a successful status update leaves. *)
Lemma update_success refuses cm nm db id st row db' :
  Leave.update refuses cm nm db id st = inr (row, db') ->
  exists old,
    nth_error (leave_requests db) id = Some old
    /\ row = {| leave_employee_id := leave_employee_id old;
                leave_date := leave_date old;
                leave_type := leave_type old;
                reason := reason old;
                status := st |}
    /\ db' = {| attendance_records := attendance_records db;
                leave_requests := Leave.set_nth id row (leave_requests db) |}
    /\ In st Leave.statuses.
Proof.
  unfold Leave.update.
  destruct (nth_error (leave_requests db) id) as [old |]; [| discriminate].
  destruct (Leave.admitted _) eqn:Ea; cbn [negb]; [| discriminate].
  destruct (refuses _); [discriminate |].
  intros H. injection H as <- <-. exists old. repeat split.
  unfold Leave.admitted in Ea. apply andb_true_iff in Ea. destruct Ea as [_ Ea].
  now apply includes_In.
Qed.

Lemma updateLeaveRequestStatus_cases refuses cm nm db id st admin :
  (exists message,
      Leave.updateLeaveRequestStatus refuses cm nm (Some db) id st admin
      = (Leave.failure message, Some db))
  \/ (exists row db',
        Leave.update refuses cm nm db id st = inr (row, db')
        /\ Leave.updateLeaveRequestStatus refuses cm nm (Some db) id st admin
           = ({| Leave.success := true; Leave.data := Some row; Leave.error := None |},
              Some db')).
Proof.
  unfold Leave.updateLeaveRequestStatus.
  destruct (Leave.update refuses cm nm db id st) as [message | [row db']].
  - left. eauto.
  - right. eauto.
Qed.

(** X13: filing a leave request, accepted or refused, changes no answer
    of [markAttendance]: a request is stored as pending, and only
    approved requests block a scan. *)
Theorem new_leave_request_does_not_block_scans :
  forall (refuses : LeaveRequest -> option string) (cm um : string)
         (db : Backend) (e : string) (leaveDate : Z) (ty : string) (why : option string)
         (tz : Z -> Z) (rf : AttendanceRecord -> option string) (p : QrData) (t : Z),
    exists db',
      snd (Leave.createLeaveRequest refuses cm um (Some db) e leaveDate ty why) = Some db'
      /\ attendance_records db' = attendance_records db
      /\ fst (markAttendance tz rf (Some db') p t) = fst (markAttendance tz rf (Some db) p t).
Proof.
  intros refuses cm um db e leaveDate ty why tz rf p t.
  unfold Leave.createLeaveRequest, Leave.insert.
  destruct (Leave.admitted _); cbn [negb];
    [| exists db; repeat split].
  destruct (Leave.requested db _ _); [exists db; repeat split |].
  destruct (refuses _); [exists db; repeat split |].
  eexists. split; [reflexivity |]. split; [reflexivity |].
  apply markAttendance_reads; [| reflexivity].
  unfold Query.approved_leave. cbn [leave_requests]. rewrite filter_app.
  cbn [filter leave_employee_id leave_date status].
  replace (String.eqb "pending" "approved") with false by reflexivity.
  rewrite andb_false_r. apply app_nil_r.
Qed.

(** X14: once a request of the employee for today is approved, every
    scan of the employee today is refused with the leave message and
    stores nothing; the leave table stays unique per employee and
    date. *)
Theorem approved_request_blocks_scans :
  forall (refuses : LeaveRequest -> option string) (cm nm : string)
         (tz : Z -> Z) (rf : AttendanceRecord -> option string)
         (db : Backend) (id : nat) (admin : string) (lr : LeaveRequest)
         (p : QrData) (t : Z),
    leave_unique db ->
    nth_error (leave_requests db) id = Some lr ->
    leave_employee_id lr = employeeId p ->
    leave_date lr = Js.toISODate t ->
    Leave.success (fst (Leave.updateLeaveRequestStatus refuses cm nm (Some db) id
                          "approved" admin)) = true ->
    exists db',
      snd (Leave.updateLeaveRequestStatus refuses cm nm (Some db) id "approved" admin) = Some db'
      /\ leave_unique db'
      /\ attendance_records db' = attendance_records db
      /\ markAttendance tz rf (Some db') p t = (failure (leaveMessage lr), Some db').
Proof.
  intros refuses cm nm tz rf db id admin lr p t Hu Hn He Hd Hok.
  destruct (updateLeaveRequestStatus_cases refuses cm nm db id "approved" admin)
    as [[message E] | [row [db' [Eu E]]]]; rewrite E in Hok |- *; [discriminate |].
  destruct (update_success _ _ _ _ _ _ _ _ Eu) as [old [Hold [Hrow [Hdb _]]]].
  rewrite Hn in Hold. injection Hold as <-.
  assert (Hu' : leave_unique db').
  { unfold leave_unique. rewrite Hdb. cbn [leave_requests].
    rewrite (set_nth_map leave_key id row lr); [exact Hu | exact Hn |].
    now rewrite Hrow. }
  exists db'. cbn [snd]. split; [reflexivity |]. split; [exact Hu' |].
  split; [now rewrite Hdb |].
  assert (Hin : In row (leave_requests db')).
  { rewrite Hdb. cbn [leave_requests]. now apply (set_nth_In id row lr). }
  unfold markAttendance.
  rewrite (approved_leave_single db' row (employeeId p) (Js.toISODate t) Hu' Hin);
    rewrite ?Hrow; auto.
Qed.

(** Request 0 of the table, Asha's for 2025-01-01, gets approved. *)
Lemma approved_request_blocks_scans_witness :
  let db := Sample.backend [Sample.scan "check_in" (Sample.at_ 9 0)]
              [{| leave_employee_id := "e-17"; leave_date := "2025-01-01";
                  leave_type := "half_day_afternoon"; reason := "clinic";
                  status := "pending" |}] in
  let lr := {| leave_employee_id := "e-17"; leave_date := "2025-01-01";
               leave_type := "half_day_afternoon"; reason := "clinic";
               status := "pending" |} in
  exists db',
    snd (Leave.updateLeaveRequestStatus (fun _ => None) "check" "no row" (Some db) 0
           "approved" "e-1") = Some db'
    /\ leave_unique db'
    /\ attendance_records db' = attendance_records db
    /\ markAttendance Sample.utc Sample.accepts (Some db') Sample.asha (Sample.at_ 13 0)
       = (failure (leaveMessage lr), Some db').
Proof.
  apply (approved_request_blocks_scans (fun _ => None) "check" "no row" Sample.utc Sample.accepts
           (Sample.backend [Sample.scan "check_in" (Sample.at_ 9 0)]
              [{| leave_employee_id := "e-17"; leave_date := "2025-01-01";
                  leave_type := "half_day_afternoon"; reason := "clinic";
                  status := "pending" |}])
           0%nat "e-1" _ Sample.asha (Sample.at_ 13 0)).
  - unfold leave_unique. simpl. constructor; [intros [] | constructor].
  - reflexivity.
  - reflexivity.
  - vm_compute. reflexivity.
  - reflexivity.
Defined.

(** X15: once a request of the employee for today is set to a status
    other than approved, no approved request of the employee for today
    is left, and a scan is answered as if the leave table were empty. *)
Theorem unapproved_request_does_not_block_scans :
  forall (refuses : LeaveRequest -> option string) (cm nm : string)
         (tz : Z -> Z) (rf : AttendanceRecord -> option string)
         (db : Backend) (id : nat) (admin : string) (lr : LeaveRequest)
         (st : string) (p : QrData) (t : Z),
    leave_unique db ->
    nth_error (leave_requests db) id = Some lr ->
    leave_employee_id lr = employeeId p ->
    leave_date lr = Js.toISODate t ->
    st <> "approved" ->
    Leave.success (fst (Leave.updateLeaveRequestStatus refuses cm nm (Some db) id st admin))
    = true ->
    exists db',
      snd (Leave.updateLeaveRequestStatus refuses cm nm (Some db) id st admin) = Some db'
      /\ Query.approved_leave db' (employeeId p) (Js.toISODate t) = []
      /\ fst (markAttendance tz rf (Some db') p t)
         = fst (markAttendance tz rf (Some {| attendance_records := attendance_records db;
                                           leave_requests := [] |}) p t).
Proof.
  intros refuses cm nm tz rf db id admin lr st p t Hu Hn He Hd Hst Hok.
  destruct (updateLeaveRequestStatus_cases refuses cm nm db id st admin)
    as [[message E] | [row [db' [Eu E]]]]; rewrite E in Hok |- *; [discriminate |].
  destruct (update_success _ _ _ _ _ _ _ _ Eu) as [old [Hold [Hrow [Hdb _]]]].
  rewrite Hn in Hold. injection Hold as <-.
  assert (Hu' : NoDup (map leave_key (leave_requests db'))).
  { rewrite Hdb. cbn [leave_requests].
    rewrite (set_nth_map leave_key id row lr); [exact Hu | exact Hn |].
    now rewrite Hrow. }
  assert (Hin : In row (leave_requests db')).
  { rewrite Hdb. cbn [leave_requests]. now apply (set_nth_In id row lr). }
  assert (Hnone : Query.approved_leave db' (employeeId p) (Js.toISODate t) = []).
  { unfold Query.approved_leave.
    destruct (filter_at_most_one leave_key
                (fun l => String.eqb (leave_employee_id l) (employeeId p)
                          && String.eqb (leave_date l) (Js.toISODate t)
                          && String.eqb (status l) "approved")
                (leave_requests db') (employeeId p, Js.toISODate t) Hu')
      as [E0 | [x Ex]]; [intros y Hy; now apply approved_leave_key | exact E0 |].
    exfalso.
    assert (Hx : In x (filter (fun l => String.eqb (leave_employee_id l) (employeeId p)
                                        && String.eqb (leave_date l) (Js.toISODate t)
                                        && String.eqb (status l) "approved")
                              (leave_requests db'))) by (rewrite Ex; now left).
    apply filter_In in Hx. destruct Hx as [Hx Hf].
    pose proof (approved_leave_key _ _ _ Hf) as Hk.
    apply andb_true_iff in Hf. destruct Hf as [_ Hs]. apply String.eqb_eq in Hs.
    assert (Exr : x = row).
    { apply (unique_key_same_row leave_key (leave_requests db')); auto.
      rewrite Hk, Hrow. unfold leave_key. cbn. now rewrite He, Hd. }
    rewrite Exr, Hrow in Hs. cbn in Hs. contradiction. }
  exists db'. cbn [snd]. split; [reflexivity |]. split; [exact Hnone |].
  apply markAttendance_reads.
  - rewrite Hnone. reflexivity.
  - rewrite Hdb. reflexivity.
Qed.

(** Asha's approved leave for 2025-01-01 is turned down: her scan at
    13:00 UTC is classified again. *)
Lemma unapproved_request_does_not_block_scans_witness :
  let db := Sample.backend [Sample.scan "check_in" (Sample.at_ 9 0)]
                           [Sample.onLeave "full_day"] in
  exists db',
    snd (Leave.updateLeaveRequestStatus (fun _ => None) "check" "no row" (Some db) 0
           "rejected" "e-1") = Some db'
    /\ Query.approved_leave db' (employeeId Sample.asha) (Js.toISODate (Sample.at_ 13 0))
       = []
    /\ fst (markAttendance Sample.utc Sample.accepts (Some db') Sample.asha (Sample.at_ 13 0))
       = fst (markAttendance Sample.utc Sample.accepts
                (Some {| attendance_records := attendance_records db;
                         leave_requests := [] |}) Sample.asha (Sample.at_ 13 0)).
Proof.
  apply (unapproved_request_does_not_block_scans (fun _ => None) "check" "no row"
           Sample.utc Sample.accepts
           (Sample.backend [Sample.scan "check_in" (Sample.at_ 9 0)]
                           [Sample.onLeave "full_day"])
           0%nat "e-1" (Sample.onLeave "full_day") "rejected" Sample.asha
           (Sample.at_ 13 0)).
  - unfold leave_unique. simpl. constructor; [intros [] | constructor].
  - reflexivity.
  - reflexivity.
  - vm_compute. reflexivity.
  - discriminate.
  - reflexivity.
Defined.

(** X16: on a leave table with at most one request per employee and
    date, filing a request and changing a status both leave such a
    table; a request for an employee and date already in the table is
    refused and changes nothing; an accepted one is added as pending. *)
Theorem leave_table_stays_unique :
  forall (refuses : LeaveRequest -> option string) (cm um nm : string) (db : Backend),
    leave_unique db ->
    (forall e leaveDate ty why,
        let res := Leave.createLeaveRequest refuses cm um (Some db) e leaveDate ty why in
        exists db',
          snd res = Some db'
          /\ leave_unique db'
          /\ (Leave.requested db e (Js.toISODate leaveDate) = true ->
              Leave.success (fst res) = false /\ db' = db)
          /\ (Leave.success (fst res) = true ->
              leave_requests db'
              = (leave_requests db
                 ++ [{| leave_employee_id := e;
                        leave_date := Js.toISODate leaveDate;
                        leave_type := ty;
                        reason := match why with Some r => r | None => "" end;
                        status := "pending" |}])%list
              /\ In ty Leave.leave_types))
    /\ (forall id st admin,
          exists db',
            snd (Leave.updateLeaveRequestStatus refuses cm nm (Some db) id st admin) = Some db'
            /\ leave_unique db'
            /\ map leave_key (leave_requests db') = map leave_key (leave_requests db)).
Proof.
  intros refuses cm um nm db Hu. split.
  - intros e leaveDate ty why res. subst res.
    unfold Leave.createLeaveRequest, Leave.insert.
    cbn [leave_employee_id leave_date].
    destruct (Leave.admitted _) eqn:Ea; cbn [negb].
    2: { exists db. repeat split; auto; try discriminate. }
    destruct (Leave.requested db e (Js.toISODate leaveDate)) eqn:Er.
    { exists db. repeat split; auto; discriminate. }
    destruct (refuses _).
    { exists db. repeat split; auto; discriminate. }
    eexists. split; [reflexivity |]. split; [| split; [discriminate |]].
    + unfold leave_unique. cbn [leave_requests]. rewrite map_app.
      apply NoDup_app; [exact Hu | repeat constructor; intros [] |].
      intros k Hk [<- | []]. now apply (requested_false_not_In db _ _ Er).
    + intros _. split; [reflexivity |].
      unfold Leave.admitted in Ea. apply andb_true_iff in Ea. destruct Ea as [Ea _].
      now apply includes_In.
  - intros id st admin.
    destruct (updateLeaveRequestStatus_cases refuses cm nm db id st admin)
      as [[message E] | [row [db' [Eu E]]]]; rewrite E; cbn [snd].
    + exists db. auto.
    + destruct (update_success _ _ _ _ _ _ _ _ Eu) as [old [Hold [Hrow [Hdb _]]]].
      assert (Hk : map leave_key (leave_requests db') = map leave_key (leave_requests db)).
      { rewrite Hdb. cbn [leave_requests].
        apply (set_nth_map leave_key id row old _ Hold). now rewrite Hrow. }
      exists db'. split; [reflexivity |]. split; [| exact Hk].
      unfold leave_unique. now rewrite Hk.
Qed.

(* ===================================================================== *)
(** * The writer and the daily report together *)
(* ===================================================================== *)

Lemma find_first_of_filter {A} (f : A -> bool) (l : list A) :
  Js.find f l = hd_error (filter f l).
Proof.
  unfold Js.find. induction l as [| a l IH]; simpl; [reflexivity |].
  destruct (f a); [reflexivity | exact IH].
Qed.

Lemma find_in_ordered (f : AttendanceRecord -> bool) (l : list AttendanceRecord) :
  Js.find f (Query.order_by_scanned_at l)
  = hd_error (Query.order_by_scanned_at (filter f l)).
Proof. now rewrite find_first_of_filter, filter_order_by_scanned_at. Qed.

Lemma scans_on_of_type db e d ty :
  filter (Reports.ofType ty) (Query.scans_on db e d) = Query.scans_of_type db e d ty.
Proof.
  unfold Query.scans_on, Query.scans_of_type. rewrite filter_filter_and.
  apply filter_ext. intros r. unfold Reports.ofType. apply andb_comm.
Qed.

(** X17: a second scan before 12:00 local time closes the day before
    lunch. With nothing on record for the day, no approved leave found
    and a backend that accepts the employee's rows, five scans on that
    date, the second before 12:00 and the third at or after 12:00, are
    stored as check_in, check_out (not flagged early), lunch_out and
    lunch_in, and the fifth is refused as a repeated check out. *)
Theorem day_closed_before_lunch :
  forall (tz : Z -> Z) (rf : AttendanceRecord -> option string) (db : Backend) (e day : string)
         (p1 p2 p3 p4 p5 : QrData) (t1 t2 t3 t4 t5 : Z),
    Forall (fun s => employeeId (fst s) = e /\ Js.toISODate (snd s) = day)
           [(p1, t1); (p2, t2); (p3, t3); (p4, t4); (p5, t5)] ->
    Query.scans_on db e day = [] ->
    Query.single (Query.approved_leave db e day) = None ->
    (forall r, employee_id r = e -> rf r = None) ->
    minutesOfDay tz t2 < 12 * 60 <= minutesOfDay tz t3 ->
    let res := markAll tz rf (Some db) [(p1, t1); (p2, t2); (p3, t3); (p4, t4); (p5, t5)] in
    map result_scanType (fst res)
    = [Some "check_in"; Some "check_out"; Some "lunch_out"; Some "lunch_in"; None]
    /\ map error (fst res)
       = [None; None; None; None; Some "check out already recorded for today"]
    /\ exists r1 r2 r3 r4,
         snd res = Some (withRows db [r1; r2; r3; r4])
         /\ map scan_type [r1; r2; r3; r4]
            = ["check_in"; "check_out"; "lunch_out"; "lunch_in"]
         /\ map scanned_at [r1; r2; r3; r4] = [t1; t2; t3; t4]
         /\ is_early_departure r2 = false.
Proof.
  intros tz rf db e day p1 p2 p3 p4 p5 t1 t2 t3 t4 t5 Hall H0 Hl Hacc
         [Hbefore Hnoon] res.
  apply Forall_cons_iff in Hall. destruct Hall as [[He1 Hd1] Hall].
  apply Forall_cons_iff in Hall. destruct Hall as [[He2 Hd2] Hall].
  apply Forall_cons_iff in Hall. destruct Hall as [[He3 Hd3] Hall].
  apply Forall_cons_iff in Hall. destruct Hall as [[He4 Hd4] Hall].
  apply Forall_cons_iff in Hall. destruct Hall as [[He5 Hd5] _].
  cbn [fst snd] in *.
  assert (Hb : (LUNCH_START <=? minutesOfDay tz t2) = false)
    by (apply Z.leb_gt; exact Hbefore).
  assert (Hn : (LUNCH_START <=? minutesOfDay tz t3) = true)
    by (apply Z.leb_le; exact Hnoon).
  assert (Eres : res = markAll tz rf (Some (withRows db []))
                         [(p1, t1); (p2, t2); (p3, t3); (p4, t4); (p5, t5)])
    by (subst res; now rewrite withRows_nil).
  clearbody res. subst res. cbn [markAll].
  destruct (markAttendance_new_type tz rf db [] p1 t1 e day He1 Hd1 H0 (Forall_nil _) Hl)
    as [E1 R1]; [intros [] | now apply Hacc |].
  cbn [map classify rule1 Js.includes existsb negb app] in E1, R1.
  rewrite E1. clear E1. cbn [scanType] in *.
  set (r1 := storedRow tz p1 t1 _) in *.
  assert (C2 : classify (map scan_type [r1]) (minutesOfDay tz t2)
               = {| scanType := "check_out"; isLate := false; isEarly := false |}).
  { change (map scan_type [r1]) with ["check_in"].
    unfold classify, rule2. rewrite Hb. reflexivity. }
  destruct (markAttendance_new_type tz rf db [r1] p2 t2 e day He2 Hd2 H0 R1 Hl)
    as [E2 R2].
  { rewrite C2. intros [H | []]. discriminate H. }
  { now apply Hacc. }
  rewrite C2 in E2, R2. rewrite E2. clear E2. cbn [app scanType] in *.
  set (r2 := storedRow tz p2 t2 _) in *.
  assert (C3 : classify (map scan_type [r1; r2]) (minutesOfDay tz t3)
               = {| scanType := "lunch_out"; isLate := false; isEarly := false |}).
  { change (map scan_type [r1; r2]) with ["check_in"; "check_out"].
    unfold classify, rule2. rewrite Hn. reflexivity. }
  destruct (markAttendance_new_type tz rf db [r1; r2] p3 t3 e day He3 Hd3 H0 R2 Hl)
    as [E3 R3].
  { rewrite C3. intros [H | [H | []]]; discriminate H. }
  { now apply Hacc. }
  rewrite C3 in E3, R3. rewrite E3. clear E3. cbn [app scanType] in *.
  set (r3 := storedRow tz p3 t3 _) in *.
  assert (C4 : classify (map scan_type [r1; r2; r3]) (minutesOfDay tz t4)
               = {| scanType := "lunch_in"; isLate := false; isEarly := false |})
    by reflexivity.
  destruct (markAttendance_new_type tz rf db [r1; r2; r3] p4 t4 e day He4 Hd4 H0 R3 Hl)
    as [E4 R4].
  { rewrite C4. intros [H | [H | [H | []]]]; discriminate H. }
  { now apply Hacc. }
  rewrite C4 in E4, R4. rewrite E4. clear E4. cbn [app scanType] in *.
  set (r4 := storedRow tz p4 t4 _) in *.
  assert (C5 : classify (map scan_type [r1; r2; r3; r4]) (minutesOfDay tz t5)
               = {| scanType := "check_out"; isLate := false; isEarly := false |})
    by reflexivity.
  pose proof (markAttendance_repeat tz rf db [r1; r2; r3; r4] p5 t5 e day r2
                He5 Hd5 H0 R4 Hl) as E5.
  rewrite C5 in E5. rewrite E5 by reflexivity.
  cbn [fst snd map result_scanType error failure scanType].
  split; [reflexivity |]. split; [reflexivity |].
  exists r1, r2, r3, r4. repeat split.
Qed.

(** Scans at 09:00, 09:01, 12:00, 12:01 and 12:02 UTC. *)
Lemma day_closed_before_lunch_witness :
  let scans := [(Sample.asha, Sample.at_ 9 0); (Sample.asha, Sample.at_ 9 1);
                (Sample.asha, Sample.at_ 12 0); (Sample.asha, Sample.at_ 12 1);
                (Sample.asha, Sample.at_ 12 2)] in
  let db := Sample.backend [] [] in
  let res := markAll Sample.utc Sample.accepts (Some db) scans in
  map result_scanType (fst res)
  = [Some "check_in"; Some "check_out"; Some "lunch_out"; Some "lunch_in"; None]
  /\ map error (fst res)
     = [None; None; None; None; Some "check out already recorded for today"]
  /\ exists r1 r2 r3 r4,
       snd res = Some (withRows db [r1; r2; r3; r4])
       /\ map scan_type [r1; r2; r3; r4]
          = ["check_in"; "check_out"; "lunch_out"; "lunch_in"]
       /\ map scanned_at [r1; r2; r3; r4]
          = [Sample.at_ 9 0; Sample.at_ 9 1; Sample.at_ 12 0; Sample.at_ 12 1]
       /\ is_early_departure r2 = false.
Proof.
  apply (day_closed_before_lunch Sample.utc Sample.accepts (Sample.backend [] []) "e-17"
           "2025-01-01").
  - repeat constructor.
  - reflexivity.
  - reflexivity.
  - reflexivity.
  - vm_compute. split; [reflexivity | discriminate].
Defined.

Lemma recordOfType_find db e date ty :
  In ty ["check_in"; "lunch_out"; "lunch_in"; "check_out"] ->
  exists s,
    Reports.getDailySummary (Some db) e date
    = {| Reports.success := true; Reports.data := Some s; Reports.error := None |}
    /\ Reports.date s = Js.toISODate date
    /\ recordOfType s ty
       = Js.find (Reports.ofType ty)
                 (Query.order_by_scanned_at (Query.scans_on db e (Js.toISODate date))).
Proof.
  intros Hty. unfold Reports.getDailySummary.
  destruct (Reports.workingHours _ _ _ _) as [h l].
  eexists. split; [reflexivity |]. split; [reflexivity |].
  unfold recordOfType.
  cbn [Reports.checkIn Reports.lunchOut Reports.lunchIn Reports.checkOut].
  destruct Hty as [<- | [<- | [<- | [<- | []]]]]; reflexivity.
Qed.

(** X18: on a table with at most one row per employee, date and scan
    type, a scan that [markAttendance] stores is the record the daily
    summary of that employee and date then shows for its scan type. *)
Theorem stored_scan_is_read_back :
  forall (tz : Z -> Z) (rf : AttendanceRecord -> option string) (db : Backend) (p : QrData) (t : Z),
    attendance_unique db ->
    success (fst (markAttendance tz rf (Some db) p t)) = true ->
    exists row db' s,
      markAttendance tz rf (Some db) p t = (stored row, Some db')
      /\ Reports.getDailySummary (Some db') (employeeId p) t
         = {| Reports.success := true; Reports.data := Some s; Reports.error := None |}
      /\ Reports.date s = scanned_date row
      /\ recordOfType s (scan_type row) = Some row.
Proof.
  intros tz rf db p t Hu Hok.
  destruct (markAttendance_cases tz rf db p t)
    as [[lr [_ E]] | [[r [_ [_ E]]] | [[message [_ [_ [_ E]]]] | [_ [Hnone [_ E]]]]]];
    rewrite E in Hok; try discriminate Hok.
  set (d := detectScanType tz (Some db) (employeeId p) t) in *.
  set (row := storedRow tz p t d) in *.
  assert (Hty : In (scan_type row) ["check_in"; "lunch_out"; "lunch_in"; "check_out"]).
  { apply includes_In. apply (storedRow_valid tz p t db). }
  assert (Hempty : Query.scans_of_type db (employeeId p) (Js.toISODate t) (scanType d) = []).
  { unfold Query.scans_of_type in *.
    destruct (filter_at_most_one scan_key
                (fun r => String.eqb (employee_id r) (employeeId p)
                          && String.eqb (scanned_date r) (Js.toISODate t)
                          && String.eqb (scan_type r) (scanType d))
                (attendance_records db)
                (employeeId p, Js.toISODate t, scanType d) Hu) as [E0 | [x Ex]].
    - intros y Hy. now apply scans_of_type_key.
    - exact E0.
    - rewrite Ex in Hnone. discriminate. }
  destruct (recordOfType_find
              {| attendance_records := attendance_records db ++ [row];
                 leave_requests := leave_requests db |}
              (employeeId p) t (scan_type row) Hty) as [s [Es [Hdate Hrec]]].
  exists row. eexists. exists s. rewrite E. split; [reflexivity |].
  split; [exact Es |]. split; [exact Hdate |].
  rewrite Hrec, find_in_ordered, scans_on_of_type, scans_of_type_app.
  change (scan_type row) with (scanType d). rewrite Hempty.
  cbn [app filter]. subst row. cbn [storedRow employee_id scanned_date scan_type].
  now rewrite !String.eqb_refl.
Qed.

(** The first scan of the day at 09:16 UTC. *)
Lemma stored_scan_is_read_back_witness :
  exists row db' s,
    markAttendance Sample.utc Sample.accepts (Some (Sample.backend [] [])) Sample.asha
                   (Sample.at_ 9 16)
    = (stored row, Some db')
    /\ Reports.getDailySummary (Some db') (employeeId Sample.asha) (Sample.at_ 9 16)
       = {| Reports.success := true; Reports.data := Some s; Reports.error := None |}
    /\ Reports.date s = scanned_date row
    /\ recordOfType s (scan_type row) = Some row.
Proof.
  apply (stored_scan_is_read_back Sample.utc Sample.accepts (Sample.backend [] []) Sample.asha
           (Sample.at_ 9 16)).
  - constructor.
  - reflexivity.
Defined.

(** X19: the daily summary after a day scanned as check_in, lunch_out,
    lunch_in and check_out, on a backend that accepts the employee's
    rows, shows the four rows with their scan times, is complete,
    reports the hours between check-in and check-out less the lunch
    (computed on doubles, printed with two decimals, null when zero or
    NaN), and takes its flags from the scan times: half day when the
    check-in was before 12:00 local time, although the day is
    complete. *)
Theorem report_of_a_full_day :
  forall (tz : Z -> Z) (rf : AttendanceRecord -> option string) (db : Backend) (e day : string)
         (p1 p2 p3 p4 p5 : QrData) (t1 t2 t3 t4 t5 : Z),
    Forall (fun s => employeeId (fst s) = e /\ Js.toISODate (snd s) = day)
           [(p1, t1); (p2, t2); (p3, t3); (p4, t4); (p5, t5)] ->
    Query.scans_on db e day = [] ->
    Query.single (Query.approved_leave db e day) = None ->
    (forall r, employee_id r = e -> rf r = None) ->
    12 * 60 <= minutesOfDay tz t2 ->
    exists db' s,
      snd (markAll tz rf (Some db) [(p1, t1); (p2, t2); (p3, t3); (p4, t4); (p5, t5)])
      = Some db'
      /\ Reports.getDailySummary (Some db') e t1
         = {| Reports.success := true; Reports.data := Some s; Reports.error := None |}
      /\ map (option_map scanned_at)
             [Reports.checkIn s; Reports.lunchOut s; Reports.lunchIn s; Reports.checkOut s]
         = [Some t1; Some t2; Some t3; Some t4]
      /\ Reports.isComplete s = true
      /\ (let hours := Js.div (Js.sub (Reports.minutesBetween t1 t4)
                                      (Reports.minutesBetween t2 t3))
                              (Js.ofZ 60) in
          Reports.totalHours s
          = if isZeroOrNaN hours then None else Some (Js.toFixed2 hours))
      /\ Reports.lunchDuration s
         = (if isZeroOrNaN (Reports.minutesBetween t2 t3) then None
            else Some (Js.round (Reports.minutesBetween t2 t3)))
      /\ Reports.isHalfDay s = (Js.getHours tz t1 <? 12)
      /\ Reports.isLate s = (9 * 60 + 15 <? minutesOfDay tz t1)
      /\ Reports.isEarlyDeparture s = (minutesOfDay tz t4 <? 18 * 60)
      /\ Reports.leave s = None.
Proof.
  intros tz rf db e day p1 p2 p3 p4 p5 t1 t2 t3 t4 t5 Hall H0 Hl Hacc Hnoon.
  destruct (full_day_run tz rf db e day p1 p2 p3 p4 p5 t1 t2 t3 t4 t5 Hall H0 Hl Hacc
              Hnoon)
    as [E R].
  apply Forall_cons_iff in Hall. destruct Hall as [[_ Hd1] _]. cbn [snd] in Hd1.
  rewrite E. cbn [snd]. eexists. eexists. split; [reflexivity |].
  unfold Reports.getDailySummary. rewrite Hd1.
  rewrite (scans_on_withRows db _ e day H0 R).
  unfold Query.approved_leave, withRows. cbn [leave_requests].
  change (filter _ (leave_requests db)) with (Query.approved_leave db e day).
  rewrite Hl, !find_in_ordered.
  change (filter (Reports.ofType "check_in") (fullDayRows tz p1 p2 p3 p4 t1 t2 t3 t4))
    with [nth 0 (fullDayRows tz p1 p2 p3 p4 t1 t2 t3 t4) (Sample.scan "" 0)].
  change (filter (Reports.ofType "lunch_out") (fullDayRows tz p1 p2 p3 p4 t1 t2 t3 t4))
    with [nth 1 (fullDayRows tz p1 p2 p3 p4 t1 t2 t3 t4) (Sample.scan "" 0)].
  change (filter (Reports.ofType "lunch_in") (fullDayRows tz p1 p2 p3 p4 t1 t2 t3 t4))
    with [nth 2 (fullDayRows tz p1 p2 p3 p4 t1 t2 t3 t4) (Sample.scan "" 0)].
  change (filter (Reports.ofType "check_out") (fullDayRows tz p1 p2 p3 p4 t1 t2 t3 t4))
    with [nth 3 (fullDayRows tz p1 p2 p3 p4 t1 t2 t3 t4) (Sample.scan "" 0)].
  cbn [Query.order_by_scanned_at fold_right Query.insert_by_scanned_at hd_error
       nth fullDayRows Reports.workingHours storedRow scanned_at].
  split; [reflexivity |].
  cbn [Reports.checkIn Reports.lunchOut Reports.lunchIn Reports.checkOut
       Reports.isComplete Reports.totalHours Reports.lunchDuration Reports.isHalfDay
       Reports.isLate Reports.isEarlyDeparture Reports.leave
       Reports.flagOf map option_map scanned_at is_half_day is_late is_early_departure
       scanType isLate isEarly].
  rewrite !ifTruthy_spec.
  split; [reflexivity |]. split; [reflexivity |].
  split; [reflexivity |]. split; [reflexivity |].
  repeat split.
Qed.

(** Scans at 09:16, 12:00, 13:00, 18:00 and 18:01 UTC. *)
Lemma report_of_a_full_day_witness :
  let scans := [(Sample.asha, Sample.at_ 9 16); (Sample.asha, Sample.at_ 12 0);
                (Sample.asha, Sample.at_ 13 0); (Sample.asha, Sample.at_ 18 0);
                (Sample.asha, Sample.at_ 18 1)] in
  exists db' s,
    snd (markAll Sample.utc Sample.accepts (Some (Sample.backend [] [])) scans) = Some db'
    /\ Reports.getDailySummary (Some db') "e-17" (Sample.at_ 9 16)
       = {| Reports.success := true; Reports.data := Some s; Reports.error := None |}
    /\ map (option_map scanned_at)
           [Reports.checkIn s; Reports.lunchOut s; Reports.lunchIn s; Reports.checkOut s]
       = [Some (Sample.at_ 9 16); Some (Sample.at_ 12 0); Some (Sample.at_ 13 0);
          Some (Sample.at_ 18 0)]
    /\ Reports.isComplete s = true
    /\ (let hours := Js.div (Js.sub (Reports.minutesBetween (Sample.at_ 9 16)
                                                            (Sample.at_ 18 0))
                                    (Reports.minutesBetween (Sample.at_ 12 0)
                                                            (Sample.at_ 13 0)))
                            (Js.ofZ 60) in
        Reports.totalHours s
        = if isZeroOrNaN hours then None else Some (Js.toFixed2 hours))
    /\ Reports.lunchDuration s
       = (if isZeroOrNaN (Reports.minutesBetween (Sample.at_ 12 0) (Sample.at_ 13 0))
          then None
          else Some (Js.round (Reports.minutesBetween (Sample.at_ 12 0) (Sample.at_ 13 0))))
    /\ Reports.isHalfDay s = (Js.getHours Sample.utc (Sample.at_ 9 16) <? 12)
    /\ Reports.isLate s = (9 * 60 + 15 <? minutesOfDay Sample.utc (Sample.at_ 9 16))
    /\ Reports.isEarlyDeparture s = (minutesOfDay Sample.utc (Sample.at_ 18 0) <? 18 * 60)
    /\ Reports.leave s = None.
Proof.
  apply (report_of_a_full_day Sample.utc Sample.accepts (Sample.backend [] []) "e-17" "2025-01-01"
           Sample.asha Sample.asha Sample.asha Sample.asha Sample.asha
           (Sample.at_ 9 16) (Sample.at_ 12 0) (Sample.at_ 13 0) (Sample.at_ 18 0)
           (Sample.at_ 18 1)).
  - repeat constructor.
  - reflexivity.
  - reflexivity.
  - reflexivity.
  - vm_compute. discriminate.
Defined.

(** A table with Asha's approved leave: a second request of hers for the
    day is refused. *)
Lemma leave_table_stays_unique_witness :
  let db := Sample.backend [] [Sample.onLeave "full_day"] in
  (forall e leaveDate ty why,
      let res := Leave.createLeaveRequest (fun _ => None) "check" "unique" (Some db)
                                          e leaveDate ty why in
      exists db',
        snd res = Some db'
        /\ leave_unique db'
        /\ (Leave.requested db e (Js.toISODate leaveDate) = true ->
            Leave.success (fst res) = false /\ db' = db)
        /\ (Leave.success (fst res) = true ->
            leave_requests db'
            = (leave_requests db
               ++ [{| leave_employee_id := e;
                      leave_date := Js.toISODate leaveDate;
                      leave_type := ty;
                      reason := match why with Some r => r | None => "" end;
                      status := "pending" |}])%list
            /\ In ty Leave.leave_types))
  /\ (forall id st admin,
        exists db',
          snd (Leave.updateLeaveRequestStatus (fun _ => None) "check" "no row"
                 (Some db) id st admin) = Some db'
          /\ leave_unique db'
          /\ map leave_key (leave_requests db') = map leave_key (leave_requests db)).
Proof.
  apply (leave_table_stays_unique (fun _ => None) "check" "unique" "no row"
           (Sample.backend [] [Sample.onLeave "full_day"])).
  unfold leave_unique. simpl. constructor; [intros [] | constructor].
Defined.

Example second_request_is_refused :
  let db := Sample.backend [] [Sample.onLeave "full_day"] in
  fst (Leave.createLeaveRequest (fun _ => None) "check" "unique" (Some db) "e-17"
         (Sample.at_ 15 0) "half_day_morning" None)
  = Leave.failure "unique".
Proof. vm_compute. reflexivity. Qed.

(* ===================================================================== *)
(** * Properties of the weekly report *)
(* ===================================================================== *)

Lemma getDailySummary_ok db e d :
  exists s,
    Reports.getDailySummary (Some db) e d
    = {| Reports.success := true; Reports.data := Some s; Reports.error := None |}.
Proof.
  unfold Reports.getDailySummary. destruct (Reports.workingHours _ _ _ _). eauto.
Qed.

Lemma count_tallied acc summary : tallied acc -> tallied (Weekly.count acc summary).
Proof.
  intros [Hh [Hw Hl]]. unfold Weekly.count.
  destruct (Reports.success summary); [| now repeat split].
  destruct (Reports.data summary) as [s |]; [| now repeat split].
  unfold tallied. cbn [Weekly.summaries Weekly.hours Weekly.working Weekly.leaves].
  unfold Weekly.sumHours. rewrite fold_left_app, !filter_app, !length_app. cbn [fold_left].
  fold (Weekly.sumHours (Weekly.summaries acc)). rewrite <- Hh.
  split; [reflexivity |]. cbn [filter].
  split.
  - destruct (Weekly.worked s); cbn [List.length]; lia.
  - destruct (Weekly.onLeave s); cbn [List.length]; lia.
Qed.

Lemma loop_tallied tzU tzL fuel db e weekEnd d acc acc' :
  Weekly.loop tzU tzL fuel db e weekEnd d acc = Some acc' ->
  tallied acc -> tallied acc'.
Proof.
  revert d acc. induction fuel as [| fuel IH]; intros d acc; cbn [Weekly.loop];
    [discriminate |].
  destruct (d <=? weekEnd).
  - intros H Ht. apply (IH _ _ H). now apply count_tallied.
  - intros H. injection H as <-. auto.
Qed.

(** X20: whenever [getWeeklySummary] returns on a configured backend, it
    succeeds, and its figures follow from the daily summaries it lists:
    workingDays counts the days whose totalHours is neither null nor
    zero, leaveDays the days with an approved leave, totalHours is the
    sum of the totals of the working days, added as doubles in the order
    of the days from 0 and then printed with two decimals, and
    averageHours is that sum divided by workingDays and printed with two
    decimals, or 0 when there is no working day. *)
Theorem weekly_figures_follow_daily_summaries :
  forall (tzU tzL : Z -> Z) (fuel : nat) (db : Backend) (e : string) (weekStart : Z)
         (r : Weekly.WeeklyResult),
    Weekly.getWeeklySummary tzU tzL fuel (Some db) e weekStart = Some r ->
    exists w,
      r = {| Weekly.success := true; Weekly.data := Some w; Weekly.error := None |}
      /\ Weekly.workingDays w
         = List.length (filter Weekly.worked (Weekly.dailySummaries w))
      /\ Weekly.leaveDays w
         = List.length (filter Weekly.onLeave (Weekly.dailySummaries w))
      /\ (Weekly.workingDays w <= List.length (Weekly.dailySummaries w))%nat
      /\ (Weekly.leaveDays w <= List.length (Weekly.dailySummaries w))%nat
      /\ Weekly.totalHours w = Js.toFixed2 (Weekly.sumHours (Weekly.dailySummaries w))
      /\ (Weekly.workingDays w = 0%nat -> Weekly.averageHours w = Js.ofZ 0)
      /\ ((0 < Weekly.workingDays w)%nat ->
          Weekly.averageHours w
          = Js.toFixed2 (Js.div (Weekly.sumHours (Weekly.dailySummaries w))
                                (Js.ofZ (Z.of_nat (Weekly.workingDays w))))).
Proof.
  intros tzU tzL fuel db e weekStart r. unfold Weekly.getWeeklySummary.
  destruct (Weekly.loop _ _ _ _ _ _ _ _) as [acc |] eqn:El; [| discriminate].
  intros H. injection H as <-.
  destruct (loop_tallied _ _ _ _ _ _ _ _ _ El) as [Hh [Hw Hl]].
  { repeat split. }
  eexists. split; [reflexivity |].
  cbn [Weekly.workingDays Weekly.leaveDays Weekly.dailySummaries Weekly.totalHours
       Weekly.averageHours].
  rewrite <- Hh.
  split; [exact Hw |]. split; [exact Hl |].
  split; [rewrite Hw; apply filter_length_le |].
  split; [rewrite Hl; apply filter_length_le |].
  split; [reflexivity |]. split.
  - intros H0. now rewrite H0.
  - intros Hpos. apply Nat.ltb_lt in Hpos. now rewrite Hpos.
Qed.

Lemma getWeeklySummary_witness_run :
  exists r, Weekly.getWeeklySummary Sample.utc Sample.utc 10 (Some Sample.fullDay) "e-17"
              (Sample.at_ (-48) 0) = Some r.
Proof. eexists. vm_compute. reflexivity. Qed.

(** The week from 2024-12-30 over Asha's full day of 2025-01-01. *)
Lemma weekly_figures_follow_daily_summaries_witness :
  exists r w,
    Weekly.getWeeklySummary Sample.utc Sample.utc 10 (Some Sample.fullDay) "e-17"
      (Sample.at_ (-48) 0) = Some r
    /\ r = {| Weekly.success := true; Weekly.data := Some w; Weekly.error := None |}
    /\ Weekly.workingDays w
       = List.length (filter Weekly.worked (Weekly.dailySummaries w))
    /\ Weekly.leaveDays w
       = List.length (filter Weekly.onLeave (Weekly.dailySummaries w))
    /\ (Weekly.workingDays w <= List.length (Weekly.dailySummaries w))%nat
    /\ (Weekly.leaveDays w <= List.length (Weekly.dailySummaries w))%nat
    /\ Weekly.totalHours w = Js.toFixed2 (Weekly.sumHours (Weekly.dailySummaries w))
    /\ (Weekly.workingDays w = 0%nat -> Weekly.averageHours w = Js.ofZ 0)
    /\ ((0 < Weekly.workingDays w)%nat ->
        Weekly.averageHours w
        = Js.toFixed2 (Js.div (Weekly.sumHours (Weekly.dailySummaries w))
                              (Js.ofZ (Z.of_nat (Weekly.workingDays w))))).
Proof.
  destruct getWeeklySummary_witness_run as [r Hr].
  exists r.
  destruct (weekly_figures_follow_daily_summaries Sample.utc Sample.utc 10 Sample.fullDay
              "e-17" (Sample.at_ (-48) 0) r Hr) as [w Hw].
  exists w. split; [exact Hr | exact Hw].
Defined.

(** The average is computed on doubles: a day of 1 hour and a day of
    1.01 hours add up to the double nearest to 2.01, half of which is
    just below 1.005 and is printed 1.00. *)
Example average_just_below_a_tie :
  let db := Sample.backend [Sample.scan "check_in" (Sample.at_ 9 0);
                            Sample.scan "check_out" (Sample.at_ 10 0);
                            Sample.scan "check_in" (Sample.at_ 33 0);
                            Sample.scan "check_out" (Sample.at_ 34 0 + 36000)] [] in
  let res := Weekly.getWeeklySummary Sample.utc Sample.utc 10 (Some db) "e-17"
               (Sample.at_ (-48) 0) in
  let data := match res with Some r => Weekly.data r | None => None end in
  option_map (fun w => map Reports.totalHours (Weekly.dailySummaries w)) data
  = Some [None; None; Some (Js.ofZ 1); Some (Js.nearest false 101 100); None; None; None]
  /\ option_map Weekly.workingDays data = Some 2%nat
  /\ option_map Weekly.totalHours data = Some (Js.nearest false 201 100)
  /\ option_map Weekly.averageHours data = Some (Js.ofZ 1).
Proof. vm_compute. repeat split. Qed.

Lemma fold_count_summaries db e (ds : list Z) acc :
  map Some (Weekly.summaries
              (fold_left Weekly.count
                 (map (fun d => Reports.getDailySummary (Some db) e d) ds) acc))
  = (map Some (Weekly.summaries acc)
     ++ map (fun d => Reports.data (Reports.getDailySummary (Some db) e d)) ds)%list.
Proof.
  revert acc. induction ds as [| d ds IH]; intros acc; cbn [map fold_left].
  - now rewrite app_nil_r.
  - rewrite IH. unfold Weekly.count.
    destruct (getDailySummary_ok db e d) as [s Es]. rewrite Es.
    cbn [Reports.success Reports.data Weekly.summaries].
    now rewrite map_app, <- app_assoc.
Qed.

(** Where the host's offset from UTC is [c] at an instant and at the
    local time [k] days later, [setDate] moves the instant by [k] days. *)
Lemma addDays_constant tzU tzL c k t :
  tzU t = c ->
  tzL (t + c + k * Js.msPerDay) = c ->
  Weekly.addDays tzU tzL k t = t + k * Js.msPerDay.
Proof. unfold Weekly.addDays. intros -> ->. lia. Qed.

(** While the host's offset from UTC does not change, the loop visits
    the days up to the end of the week, one per iteration. *)
Lemma loop_days tzU tzL c db e weekEnd (k : nat) :
  forall fuel d acc,
    (k < fuel)%nat ->
    d + Z.of_nat k * Js.msPerDay = weekEnd + Js.msPerDay ->
    (forall t, d <= t <= weekEnd -> tzU t = c) ->
    (forall l, d + c + Js.msPerDay <= l <= weekEnd + c + Js.msPerDay -> tzL l = c) ->
    Weekly.loop tzU tzL fuel db e weekEnd d acc
    = Some (fold_left Weekly.count
              (map (fun d => Reports.getDailySummary (Some db) e d) (daysFrom d k)) acc).
Proof.
  unfold daysFrom.
  induction k as [| k IH]; intros fuel d acc Hf Hd HU HL;
    (destruct fuel as [| fuel]; [lia |]); cbn [Weekly.loop].
  - replace (d <=? weekEnd) with false; [reflexivity |].
    symmetry. apply Z.leb_gt. unfold Js.msPerDay in *. lia.
  - assert (Hle : d <= weekEnd) by (unfold Js.msPerDay in *; lia).
    replace (d <=? weekEnd) with true by (symmetry; apply Z.leb_le; exact Hle).
    assert (Hnext : Weekly.addDays tzU tzL 1 d = d + Js.msPerDay).
    { rewrite (addDays_constant tzU tzL c 1 d); [lia | apply HU; lia |].
      apply HL. unfold Js.msPerDay in *. lia. }
    rewrite Hnext.
    rewrite (IH fuel (d + Js.msPerDay)).
    + cbn [seq map fold_left]. rewrite <- seq_shift, !map_map.
      replace (d + Z.of_nat 0 * Js.msPerDay) with d by lia.
      f_equal. f_equal. apply map_ext. intros i. f_equal. lia.
    + lia.
    + lia.
    + intros t Ht. apply HU. unfold Js.msPerDay in *. lia.
    + intros l Hl. apply HL. unfold Js.msPerDay in *. lia.
Qed.

(** X21: on a host whose offset from UTC is the same at every instant
    of the week, from its start to seven days later (any host in a week
    without a change of its clocks), [getWeeklySummary] (given room for
    eight loop tests) lists exactly seven daily summaries: those of the
    week's start and of the six days after it, in order; weekEnd is the
    UTC date six days after the start. *)
Theorem week_has_seven_days :
  forall (tzU tzL : Z -> Z) (c : Z) (fuel : nat) (db : Backend) (e : string)
         (weekStart : Z),
    (forall t, weekStart <= t <= weekStart + 7 * Js.msPerDay -> tzU t = c) ->
    (forall l, weekStart + c <= l <= weekStart + c + 7 * Js.msPerDay -> tzL l = c) ->
    (8 <= fuel)%nat ->
    exists w,
      Weekly.getWeeklySummary tzU tzL fuel (Some db) e weekStart
      = Some {| Weekly.success := true; Weekly.data := Some w; Weekly.error := None |}
      /\ map Some (Weekly.dailySummaries w)
         = map (fun d => Reports.data (Reports.getDailySummary (Some db) e d))
               (daysFrom weekStart 7)
      /\ List.length (Weekly.dailySummaries w) = 7%nat
      /\ map Reports.date (Weekly.dailySummaries w)
         = map Js.toISODate (daysFrom weekStart 7)
      /\ Weekly.weekStart w = Js.toISODate weekStart
      /\ Weekly.weekEnd w = Js.toISODate (weekStart + 6 * Js.msPerDay).
Proof.
  intros tzU tzL c fuel db e weekStart HU HL Hfuel. unfold Weekly.getWeeklySummary.
  assert (Hend : Weekly.addDays tzU tzL 6 weekStart = weekStart + 6 * Js.msPerDay).
  { apply (addDays_constant tzU tzL c); [apply HU | apply HL];
      unfold Js.msPerDay; lia. }
  rewrite Hend.
  rewrite (loop_days tzU tzL c db e (weekStart + 6 * Js.msPerDay) 7 fuel weekStart);
    [| lia | unfold Js.msPerDay; lia
     | intros t Ht; apply HU; unfold Js.msPerDay in *; lia
     | intros l Hl; apply HL; unfold Js.msPerDay in *; lia].
  eexists. split; [reflexivity |].
  cbn [Weekly.dailySummaries Weekly.weekStart Weekly.weekEnd].
  pose proof (fold_count_summaries db e (daysFrom weekStart 7)
                {| Weekly.summaries := []; Weekly.hours := Js.ofZ 0; Weekly.working := 0;
                   Weekly.leaves := 0 |}) as Hs.
  cbn [Weekly.summaries map app] in Hs.
  set (l := Weekly.summaries _) in *.
  split; [exact Hs |].
  assert (Hlen : List.length l = 7%nat).
  { rewrite <- (length_map Some), Hs, length_map. reflexivity. }
  split; [exact Hlen |]. split; [| split; reflexivity].
  assert (Hdates : forall (ds : list Z) (ss : list Reports.DailySummary),
             map Some ss
             = map (fun d => Reports.data (Reports.getDailySummary (Some db) e d)) ds ->
             map Reports.date ss = map Js.toISODate ds).
  { induction ds as [| d ds IH]; intros [| s ss] H; try discriminate; [reflexivity |].
    cbn [map] in *. injection H as H1 H2. f_equal; [| now apply IH].
    unfold Reports.getDailySummary in H1.
    destruct (Reports.workingHours _ _ _ _). cbn [Reports.data] in H1.
    injection H1 as ->. reflexivity. }
  now apply Hdates.
Qed.

(** The week from 2024-12-30 on a host one hour ahead of UTC in winter
    and two hours ahead from 2025-03-30, 01:00 UTC. *)
Lemma week_has_seven_days_witness :
  exists w,
    Weekly.getWeeklySummary SampleHost.offset SampleHost.offset_local 8
      (Some Sample.fullDay) "e-17" (Sample.at_ (-48) 0)
    = Some {| Weekly.success := true; Weekly.data := Some w; Weekly.error := None |}
    /\ map Some (Weekly.dailySummaries w)
       = map (fun d => Reports.data (Reports.getDailySummary (Some Sample.fullDay) "e-17" d))
             (daysFrom (Sample.at_ (-48) 0) 7)
    /\ List.length (Weekly.dailySummaries w) = 7%nat
    /\ map Reports.date (Weekly.dailySummaries w)
       = map Js.toISODate (daysFrom (Sample.at_ (-48) 0) 7)
    /\ Weekly.weekStart w = Js.toISODate (Sample.at_ (-48) 0)
    /\ Weekly.weekEnd w = Js.toISODate (Sample.at_ (-48) 0 + 6 * Js.msPerDay).
Proof.
  apply (week_has_seven_days SampleHost.offset SampleHost.offset_local 3600000 8
           Sample.fullDay "e-17" (Sample.at_ (-48) 0)).
  - intros t Ht. unfold SampleHost.offset, SampleHost.summer.
    destruct (Z.ltb_spec t 1743296400000) as [_ | H]; [reflexivity |].
    unfold Sample.at_, Js.msPerDay, Js.msPerHour, Js.msPerMinute in Ht. lia.
  - intros l Hl. unfold SampleHost.offset_local, SampleHost.summer.
    destruct (Z.ltb_spec l (1743296400000 + 3600000)) as [_ | H]; [reflexivity |].
    unfold Sample.at_, Js.msPerDay, Js.msPerHour, Js.msPerMinute in Hl. lia.
  - lia.
Defined.
